(** * UMS Colombia modelling: the computational engine, embedded and verified

    A shallow embedding of the engine of the repository (the Python modules
    [costos], [simulacion], [modelo_practico], [optimizacion],
    [modelo_teorico], [analisis_brechas] and [indicadores]) together with the
    properties of its specification.

    Conventions of the embedding.
    - Numbers are exact rationals ([Q]); floating-point rounding is not
      represented.  Equality of numbers is [Qeq] ([==]).
    - A Python computation that may raise is a value of [resultado]:
      [Ok v] or [Lanza e].  The division of two Python numbers raises
      [ZeroDivisionError] on a zero divisor ([pydiv]).  Divisions are
      those of Python numbers throughout: where an operand is a numpy scalar
      the code gets [inf] or [nan] with a warning on a zero divisor, and the
      embedding is exact wherever no divisor is zero.
    - [float('inf')] is the constructor [Infinito] of [flotante].
    - Object attributes that a method mutates are threaded explicitly: a
      method takes the object and returns its outcome with the new object.
    - The random source of numpy and the SLSQP solver of scipy are outside
      the repository; they are parameters of the functions that call them. *)

From Stdlib Require Import QArith Qabs Qminmax ZArith List Bool Lia Lqa.
From Stdlib Require Import Sorting.Sorted Sorting.Permutation String.
Import ListNotations.
Open Scope Q_scope.

(** ** Python values and exceptions *)

Module Py.

Inductive excepcion : Type :=
| ZeroDivisionError
| ValueError
| KeyError
| IndexError
| ErrorSolver.

Inductive resultado (A : Type) : Type :=
| Ok (a : A)
| Lanza (e : excepcion).

Arguments Ok {A} a.
Arguments Lanza {A} e.

Definition bind {A B : Type} (m : resultado A) (k : A -> resultado B)
  : resultado B :=
  match m with
  | Ok a => k a
  | Lanza e => Lanza e
  end.

(** A float that may be [float('inf')] or [nan] next to the finite
    numbers. *)
Inductive flotante : Type :=
| Finito (q : Q)
| Infinito
| NaN.

Definition Qltb (a b : Q) : bool := negb (Qle_bool b a).

(** [a / b] on Python numbers. *)
Definition pydiv (a b : Q) : resultado Q :=
  if Qeq_bool b 0 then Lanza ZeroDivisionError else Ok (a / b).

(** The builtin [min(a, b)]: [b] when [b < a], otherwise [a]. *)
Definition pymin (a b : Q) : Q := if Qltb b a then b else a.

(** The builtin [max(a, b)]: [b] when [b > a], otherwise [a]. *)
Definition pymax (a b : Q) : Q := if Qltb a b then b else a.

End Py.

Import Py.

Notation "x <- m ;; k" := (bind m (fun x => k))
  (at level 61, m at next level, right associativity).

(** ** costos.py *)

Module Costos.

Definition calcular_costos_totales (atenciones costos_fijos costo_variable : Q)
  : Q :=
  costos_fijos + (atenciones * costo_variable).

Definition calcular_punto_equilibrio
  (costos_fijos costo_variable precio_unitario : Q) : flotante :=
  if Qle_bool precio_unitario costo_variable then Infinito
  else Finito (costos_fijos / (precio_unitario - costo_variable)).

Definition analizar_sostenibilidad (ingresos costos : Q) : flotante :=
  if Qeq_bool costos 0 then Infinito
  else Finito (ingresos / costos).

End Costos.

(** ** analisis_brechas.py *)

Module Brechas.

Inductive prioridad : Type := Alta | Media | Baja.

(** The four keys that [comparar_modelos] writes, in insertion order. *)
Inductive indicador : Type :=
| cobertura
| eficiencia
| costo_efectividad
| sostenibilidad.

Record datos_brecha : Type := mkDatos {
  real : Q;
  ideal : Q;
  brecha : Q;
  prioridad_de : prioridad
}.

(** [matriz_brechas]: a dict, kept as the list of its items in insertion
    order. *)
Definition matriz := list (indicador * datos_brecha).

(** What [comparar_modelos] reads from the practical model: the means of
    [resultados['estadisticas']] ([None] while that dict is still empty,
    before any simulation) and the configured efficiency. *)
Record medias_practico : Type := mkMedias {
  media_cobertura : Q;
  media_costos : Q;
  media_demanda : Q;
  media_sostenibilidad : Q
}.

Record vista_practico : Type := mkVistaPractico {
  vp_estadisticas : option medias_practico;
  vp_eficiencia : Q
}.

(** What it reads from the theoretical model: [resultados['configuracion']]
    ([None] while [resultados] is the empty dict) and the sustainability
    goal. *)
Record configuracion_ideal : Type := mkConfigIdeal {
  ci_cobertura_objetivo : Q;
  ci_eficiencia_operativa : Q;
  ci_costo_unitario : Q
}.

Record vista_teorico : Type := mkVistaTeorico {
  vt_configuracion : option configuracion_ideal;
  vt_sostenibilidad_min : Q
}.

Record AnalisisBrechas : Type := mkAnalisis {
  modelo_practico : vista_practico;
  modelo_teorico : vista_teorico;
  matriz_brechas : matriz
}.

Definition con_matriz (self : AnalisisBrechas) (m : matriz) : AnalisisBrechas :=
  mkAnalisis (modelo_practico self) (modelo_teorico self) m.

Definition calcular_brecha_porcentual
  (valor_real valor_ideal : Q) (menor_mejor : bool) : Q :=
  if Qeq_bool valor_ideal 0 then 0
  else
    let brecha := (valor_real - valor_ideal) / valor_ideal in
    if menor_mejor then - brecha else brecha.

(** The body of the loop that assigns priorities. *)
Definition asignar_prioridad (b : Q) : prioridad :=
  if Qle_bool (1 # 2) (Qabs b) then Alta
  else if Qle_bool (1 # 5) (Qabs b) then Media
  else Baja.

Definition entrada (valor_real valor_ideal : Q) (menor_mejor : bool)
  : datos_brecha :=
  mkDatos valor_real valor_ideal
          (calcular_brecha_porcentual valor_real valor_ideal menor_mejor)
          Baja.

Definition con_prioridad (d : datos_brecha) : datos_brecha :=
  mkDatos (real d) (ideal d) (brecha d) (asignar_prioridad (brecha d)).

(** The four entries, before the priority loop. *)
Definition entradas (est : medias_practico) (eficiencia_real : Q)
  (cfg : configuracion_ideal) (sostenibilidad_ideal : Q) : matriz :=
  let costo_atencion_real :=
    media_costos est / pymax 1 (media_demanda est) in
  [ (cobertura,
     entrada (media_cobertura est) (ci_cobertura_objetivo cfg) false);
    (eficiencia,
     entrada eficiencia_real (ci_eficiencia_operativa cfg) false);
    (costo_efectividad,
     entrada costo_atencion_real (ci_costo_unitario cfg) true);
    (sostenibilidad,
     entrada (media_sostenibilidad est) sostenibilidad_ideal false) ].

(** [comparar_modelos].  With no theoretical results it returns [{}] and
    leaves the stored matrix alone; otherwise the stored matrix is reset
    before the statistics are read, so a [KeyError] on statistics that do
    not exist yet leaves it empty. *)
Definition comparar_modelos (self : AnalisisBrechas)
  : resultado matriz * AnalisisBrechas :=
  match vt_configuracion (modelo_teorico self) with
  | None => (Ok [], self)
  | Some cfg =>
      match vp_estadisticas (modelo_practico self) with
      | None => (Lanza KeyError, con_matriz self [])
      | Some est =>
          let m :=
            map (fun kv => (fst kv, con_prioridad (snd kv)))
                (entradas est (vp_eficiencia (modelo_practico self)) cfg
                          (vt_sostenibilidad_min (modelo_teorico self))) in
          (Ok m, con_matriz self m)
      end
  end.

(** The text of a recommendation: which template was chosen (by indicator
    and by the sign of the gap) and the values it prints. *)
Record texto : Type := mkTexto {
  t_indicador : indicador;
  t_brecha_negativa : bool;
  t_real : Q;
  t_ideal : Q;
  t_brecha_pct : Q
}.

Definition _generar_texto_recomendacion (i : indicador) (d : datos_brecha)
  : texto :=
  mkTexto i (Qltb (brecha d) 0) (real d) (ideal d) (brecha d * 100).

(** [indicador.replace('_', ' ').title()] *)
Definition titulo (i : indicador) : string :=
  match i with
  | cobertura => "Cobertura"
  | eficiencia => "Eficiencia"
  | costo_efectividad => "Costo Efectividad"
  | sostenibilidad => "Sostenibilidad"
  end%string.

Record recomendacion : Type := mkRecomendacion {
  r_indicador : string;
  r_prioridad : prioridad;
  r_recomendacion : texto
}.

Definition orden_prioridad (p : prioridad) : nat :=
  match p with
  | Alta => 0
  | Media => 1
  | Baja => 2
  end.

(** [list.sort(key=...)] is stable: insertion in front of the first element
    whose key is not smaller, folded from the right. *)
Fixpoint insertar {A : Type} (key : A -> nat) (x : A) (l : list A) : list A :=
  match l with
  | [] => [x]
  | y :: l' =>
      if (key x <=? key y)%nat then x :: y :: l'
      else y :: insertar key x l'
  end.

Definition sort_por {A : Type} (key : A -> nat) (l : list A) : list A :=
  fold_right (insertar key) [] l.

Definition significativa (kv : indicador * datos_brecha) : bool :=
  negb (Qltb (Qabs (brecha (snd kv))) (1 # 10)).

Definition recomendacion_de (kv : indicador * datos_brecha) : recomendacion :=
  mkRecomendacion (titulo (fst kv)) (prioridad_de (snd kv))
                  (_generar_texto_recomendacion (fst kv) (snd kv)).

(** The part of [generar_recomendaciones] that follows the lazy comparison. *)
Definition recomendaciones_de_matriz (m : matriz) : list recomendacion :=
  match m with
  | [] => []
  | _ =>
      sort_por (fun r => orden_prioridad (r_prioridad r))
               (map recomendacion_de (filter significativa m))
  end.

Definition generar_recomendaciones (self : AnalisisBrechas)
  : resultado (list recomendacion) * AnalisisBrechas :=
  match matriz_brechas self with
  | [] =>
      match comparar_modelos self with
      | (Lanza e, self') => (Lanza e, self')
      | (Ok _, self') =>
          (Ok (recomendaciones_de_matriz (matriz_brechas self')), self')
      end
  | _ :: _ => (Ok (recomendaciones_de_matriz (matriz_brechas self)), self)
  end.

End Brechas.

(** ** simulacion.py *)

Module Simulacion.

(** The random source of numpy: the draw number [k] for the mean [lam]. *)
Definition fuente := nat -> Q -> nat.

(** [np.random.poisson(lambda_poisson)]: numpy rejects a negative mean with
    [ValueError]; otherwise the next draw, a non-negative integer.  (The
    upper limit numpy puts on the mean, near [2^63], is left out.) *)
Definition generar_demanda_diaria (rng : fuente) (k : nat) (lambda_poisson : Q)
  : resultado (Q * nat) :=
  if Qltb lambda_poisson 0 then Lanza ValueError
  else Ok (inject_Z (Z.of_nat (rng k lambda_poisson)), S k).

End Simulacion.

(** ** modelo_practico.py *)

Module Practico.

Import Costos Simulacion.

Record capacidad_t : Type := mkCapacidad {
  pacientes_dia : Q;
  dias_mes : Z;
  eficiencia : Q
}.

Record costos_t : Type := mkCostos {
  fijo_mensual : Q;
  variable_paciente : Q;
  mantenimiento_anual : Q;
  costo_unitario_atencion : Q;
  costo_vehiculo : Q
}.

Record cobertura_t : Type := mkCobertura {
  poblacion_objetivo : Q;
  frecuencia_visitas : Q;
  radio_cobertura : Q;
  poblacion_por_km2 : Q
}.

(** [datos_operativos]; the groups 'personal' and 'servicios' are not read
    by the simulation and are left out. *)
Record datos_operativos_t : Type := mkDatosOperativos {
  capacidad : capacidad_t;
  costos : costos_t;
  cobertura : cobertura_t
}.

Record parametros_simulacion_t : Type := mkParametros {
  num_simulaciones : Z;
  horizonte_temporal : Z
}.

(** *** numpy reductions *)

Definition suma (l : list Q) : Q := fold_left Qplus l 0.

Definition len (l : list Q) : Q := inject_Z (Z.of_nat (List.length l)).

(** [np.mean] of a list of finite numbers; [nan] on the empty list. *)
Definition np_mean (l : list Q) : flotante :=
  match l with
  | [] => NaN
  | _ => Finito (suma l / len l)
  end.

(** The finite numbers of a list of floats, when all of them are finite. *)
Fixpoint finitos (l : list flotante) : option (list Q) :=
  match l with
  | [] => Some []
  | Finito q :: l' => option_map (cons q) (finitos l')
  | _ :: _ => None
  end.

Definition hay_nan (l : list flotante) : bool :=
  existsb (fun x => match x with NaN => true | _ => false end) l.

(** [np.mean] of floats that are finite, [+inf] or [nan]. *)
Definition np_mean_flotante (l : list flotante) : flotante :=
  match finitos l with
  | Some qs => np_mean qs
  | None => if hay_nan l then NaN else Infinito
  end.

Fixpoint insertar_q (x : Q) (l : list Q) : list Q :=
  match l with
  | [] => [x]
  | y :: l' => if Qle_bool x y then x :: y :: l' else y :: insertar_q x l'
  end.

Definition np_sort (l : list Q) : list Q := fold_right insertar_q [] l.

(** [np.percentile(datos, q)], linear interpolation between the two order
    statistics around the position [q/100 * (n-1)]. *)
Definition np_percentile (l : list Q) (q : nat) : Q :=
  let s := np_sort l in
  let pos := (q * (List.length l - 1))%nat in
  let lo := (pos / 100)%nat in
  let g := inject_Z (Z.of_nat (pos mod 100)) / 100 in
  let a := nth lo s 0 in
  let b := nth (Nat.min (S lo) (List.length l - 1)) s 0 in
  a + (b - a) * g.

(** [np.median]: the middle order statistic, or the mean of the two. *)
Definition np_median (l : list Q) : Q :=
  let s := np_sort l in
  let n := List.length l in
  if Nat.even n then (nth (n / 2 - 1) s 0 + nth (n / 2) s 0) / 2
  else nth (n / 2) s 0.

Definition np_min (l : list Q) : Q :=
  match l with
  | [] => 0
  | x :: l' => fold_left Qmin l' x
  end.

Definition np_max (l : list Q) : Q :=
  match l with
  | [] => 0
  | x :: l' => fold_left Qmax l' x
  end.

(** The square of [np.std]: the population variance.  The root itself is
    irrational in general and is the non-negative root of this number. *)
Definition np_var (l : list Q) : Q :=
  let m := suma l / len l in
  suma (map (fun x => (x - m) * (x - m)) l) / len l.

Record estadistica : Type := mkEstadistica {
  media : Q;
  mediana : Q;
  desviacion_cuadrado : Q;
  min : Q;
  max : Q;
  percentil_25 : Q;
  percentil_75 : Q
}.

(** The statistics of one variable.  [NoFinita] stands for the statistics
    numpy yields when a sample is [inf] or [nan] (themselves [inf] or [nan]),
    which are not represented. *)
Inductive estadistica_np : Type :=
| Estad (e : estadistica)
| NoFinita.

Definition estadistica_de (l : list Q) : estadistica :=
  mkEstadistica (suma l / len l) (np_median l) (np_var l)
                (np_min l) (np_max l)
                (np_percentile l 25) (np_percentile l 75).

(** One iteration of the loop of [_calcular_estadisticas]; [np.min] raises
    [ValueError] on an empty array. *)
Definition calcular_estadistica (datos : list flotante)
  : resultado estadistica_np :=
  match datos with
  | [] => Lanza ValueError
  | _ =>
      match finitos datos with
      | Some qs => Ok (Estad (estadistica_de qs))
      | None => Ok NoFinita
      end
  end.

Record estadisticas_t : Type := mkEstadisticas {
  e_demanda : estadistica_np;
  e_costos : estadistica_np;
  e_cobertura : estadistica_np;
  e_sostenibilidad : estadistica_np
}.

Record resultados_t : Type := mkResultados {
  r_demanda : list flotante;
  r_costos : list flotante;
  r_cobertura : list flotante;
  r_sostenibilidad : list flotante;
  r_estadisticas : option estadisticas_t
}.

(** *** The simulation *)

(** The loop over the days of a month. *)
Fixpoint simular_dias (rng : fuente) (capacidad_diaria eficiencia : Q)
  (dias : nat) (demanda_mensual : Q) (k : nat) : resultado (Q * nat) :=
  match dias with
  | O => Ok (demanda_mensual, k)
  | S dias' =>
      match generar_demanda_diaria rng k capacidad_diaria with
      | Lanza e => Lanza e
      | Ok (demanda_diaria, k') =>
          let atenciones_reales :=
            pymin demanda_diaria (capacidad_diaria * eficiencia) in
          simular_dias rng capacidad_diaria eficiencia dias'
                       (demanda_mensual + atenciones_reales) k'
      end
  end.

Record mes_t : Type := mkMes {
  m_demanda : Q;
  m_costos : Q;
  m_cobertura : Q;
  m_sostenibilidad : flotante
}.

(** The body of the loop over the months.  The coverage divides as Python
    numbers do, raising on a target population of zero; when an operand is a
    numpy number the code's division gives [inf] or [nan] with a warning
    instead, so the embedding is exact wherever the target population is not
    zero. *)
Definition simular_mes (rng : fuente) (parametros : datos_operativos_t)
  (k : nat) : resultado (mes_t * nat) :=
  let capacidad_diaria := pacientes_dia (capacidad parametros) in
  match simular_dias rng capacidad_diaria (eficiencia (capacidad parametros))
                     (Z.to_nat (dias_mes (capacidad parametros))) 0 k with
  | Lanza e => Lanza e
  | Ok (demanda_mensual, k') =>
      let costos_mes :=
        calcular_costos_totales demanda_mensual
          (fijo_mensual (costos parametros))
          (variable_paciente (costos parametros)) in
      let poblacion_atendible_mensual :=
        poblacion_objetivo (cobertura parametros) / 6 in
      match pydiv demanda_mensual poblacion_atendible_mensual with
      | Lanza e => Lanza e
      | Ok c =>
          let sostenibilidad :=
            analizar_sostenibilidad
              (demanda_mensual * costo_unitario_atencion (costos parametros))
              costos_mes in
          Ok (mkMes demanda_mensual costos_mes (pymin 1 c) sostenibilidad, k')
      end
  end.

Fixpoint simular_meses (rng : fuente) (parametros : datos_operativos_t)
  (meses : nat) (k : nat) : resultado (list mes_t * nat) :=
  match meses with
  | O => Ok ([], k)
  | S meses' =>
      match simular_mes rng parametros k with
      | Lanza e => Lanza e
      | Ok (m, k') =>
          match simular_meses rng parametros meses' k' with
          | Lanza e => Lanza e
          | Ok (ms, k'') => Ok (m :: ms, k'')
          end
      end
  end.

Record prueba_t : Type := mkPrueba {
  p_demanda : flotante;
  p_costos : flotante;
  p_cobertura : flotante;
  p_sostenibilidad : flotante
}.

Definition _simular_operacion (rng : fuente) (parametros : datos_operativos_t)
  (horizonte_temporal : Z) (k : nat) : resultado (prueba_t * nat) :=
  match simular_meses rng parametros (Z.to_nat horizonte_temporal) k with
  | Lanza e => Lanza e
  | Ok (ms, k') =>
      Ok (mkPrueba (np_mean (map m_demanda ms))
                   (np_mean (map m_costos ms))
                   (np_mean (map m_cobertura ms))
                   (np_mean_flotante (map m_sostenibilidad ms)), k')
  end.

Fixpoint simular_pruebas (rng : fuente) (parametros : datos_operativos_t)
  (horizonte_temporal : Z) (n : nat) (k : nat)
  : resultado (list prueba_t * nat) :=
  match n with
  | O => Ok ([], k)
  | S n' =>
      match _simular_operacion rng parametros horizonte_temporal k with
      | Lanza e => Lanza e
      | Ok (p, k') =>
          match simular_pruebas rng parametros horizonte_temporal n' k' with
          | Lanza e => Lanza e
          | Ok (ps, k'') => Ok (p :: ps, k'')
          end
      end
  end.

Definition _calcular_estadisticas (demanda costos cobertura sostenibilidad
  : list flotante) : resultado estadisticas_t :=
  d <- calcular_estadistica demanda ;;
  c <- calcular_estadistica costos ;;
  b <- calcular_estadistica cobertura ;;
  s <- calcular_estadistica sostenibilidad ;;
  Ok (mkEstadisticas d c b s).

Record UMSPractico : Type := mkUMSPractico {
  datos_operativos : datos_operativos_t;
  parametros_simulacion : parametros_simulacion_t
}.

Definition simular (rng : fuente) (self : UMSPractico) (k : nat)
  : resultado (resultados_t * nat) :=
  match simular_pruebas rng (datos_operativos self)
          (horizonte_temporal (parametros_simulacion self))
          (Z.to_nat (num_simulaciones (parametros_simulacion self))) k with
  | Lanza e => Lanza e
  | Ok (ps, k') =>
      let demanda := map p_demanda ps in
      let costos := map p_costos ps in
      let cobertura := map p_cobertura ps in
      let sostenibilidad := map p_sostenibilidad ps in
      match _calcular_estadisticas demanda costos cobertura sostenibilidad with
      | Lanza e => Lanza e
      | Ok est =>
          Ok (mkResultados demanda costos cobertura sostenibilidad (Some est),
              k')
      end
  end.

(** The defaults of [__init__]. *)
Definition datos_predeterminados : datos_operativos_t :=
  mkDatosOperativos
    (mkCapacidad 24 20 (4 # 10))
    (mkCostos 17291667 45000 20750000 103750 580000000)
    (mkCobertura 10000 1 50 15).

End Practico.

(** ** optimizacion.py *)

Module Optimizacion.

(** The decision vector [x]: [x[0]] to [x[3]]. *)
Record decision : Type := mkDecision {
  capacidad_diaria : Q;
  eficiencia_operativa : Q;
  cobertura_objetivo : Q;
  costo_unitario : Q
}.

Record metas_cobertura : Type := mkMetasCobertura {
  poblacion_objetivo : Q;
  frecuencia_visitas : Q;
  tiempo_acceso_max : Q;
  satisfaccion_min : Q
}.

Record metas_operacion : Type := mkMetasOperacion {
  capacidad_optima : Q;
  meta_eficiencia_operativa : Q;
  resolucion_primer_nivel : Q;
  tiempo_espera_max : Q
}.

Record metas_financiero : Type := mkMetasFinanciero {
  costo_unitario_max : Q;
  sostenibilidad_min : Q;
  autofinanciacion : Q
}.

Record metas_calidad : Type := mkMetasCalidad {
  continuidad_atencion : Q;
  integracion_historia : Q;
  referencia_efectiva : Q
}.

Record metas : Type := mkMetas {
  cobertura : metas_cobertura;
  operacion : metas_operacion;
  financiero : metas_financiero;
  calidad : metas_calidad
}.

Definition costo_fijo_mensual : Q := 17291667.

Definition atenciones_mensuales (x : decision) : Q :=
  capacidad_diaria x * eficiencia_operativa x * 20.

Definition costo_total (x : decision) : Q :=
  costo_fijo_mensual + (atenciones_mensuales x * costo_unitario x).

(** [ingresos_estimados / costo_total if costo_total > 0 else 0] *)
Definition sostenibilidad (x : decision) : Q :=
  let ingresos_estimados :=
    atenciones_mensuales x * costo_unitario x * (11 # 10) in
  if Qltb 0 (costo_total x) then ingresos_estimados / costo_total x else 0.

Definition funcion_objetivo (x : decision) (metas_ideales : metas)
  : resultado Q :=
  penalizacion_capacidad <-
    pydiv (Qabs (capacidad_diaria x
                 - capacidad_optima (operacion metas_ideales)))
          (capacidad_optima (operacion metas_ideales)) ;;
  penalizacion_eficiencia <-
    pydiv (Qabs (eficiencia_operativa x
                 - meta_eficiencia_operativa (operacion metas_ideales)))
          (meta_eficiencia_operativa (operacion metas_ideales)) ;;
  penalizacion_cobertura <-
    pydiv (Qabs (cobertura_objetivo x
                 - poblacion_objetivo (cobertura metas_ideales)))
          (poblacion_objetivo (cobertura metas_ideales)) ;;
  penalizacion_costo <-
    pydiv (Qabs (costo_unitario x
                 - costo_unitario_max (financiero metas_ideales)))
          (costo_unitario_max (financiero metas_ideales)) ;;
  let penalizacion_sostenibilidad :=
    pymax 0 (sostenibilidad_min (financiero metas_ideales)
             - sostenibilidad x) in
  let w_costo := 4 # 10 in
  let w_penalizacion := 6 # 10 in
  let costo_normalizado := costo_total x / 25000000 in
  let penalizacion_total :=
    (25 # 100) * penalizacion_capacidad
    + (25 # 100) * penalizacion_eficiencia
    + (25 # 100) * penalizacion_cobertura
    + (25 # 100) * penalizacion_costo
    + 2 * penalizacion_sostenibilidad in
  Ok (w_costo * costo_normalizado + w_penalizacion * penalizacion_total).

Definition restriccion_cobertura_minima (x : decision) (valor_min : Q) : Q :=
  cobertura_objetivo x - valor_min.

Definition restriccion_calidad_minima (x : decision) (valor_min : Q) : Q :=
  eficiencia_operativa x - valor_min.

Definition restriccion_sostenibilidad_minima (x : decision) (valor_min : Q)
  : Q :=
  sostenibilidad x - valor_min.

Inductive tipo_restriccion : Type :=
| cobertura_minima
| sostenibilidad_minima
| calidad_minima.

Record restriccion : Type := mkRestriccion {
  tipo : tipo_restriccion;
  valor : Q
}.

(** The arguments of [scipy.optimize.minimize]. *)
Record problema : Type := mkProblema {
  fun_objetivo : decision -> resultado Q;
  punto_inicial : decision;
  bounds : list (Q * Q);
  constraints : list (decision -> resultado Q)
}.

(** Its [OptimizeResult]: the final vector and whether the solver reports
    convergence. *)
Record OptimizeResult : Type := mkOptimizeResult {
  x_final : decision;
  success : bool
}.

(** The solver, outside the repository: it returns a result or raises. *)
Definition solver := problema -> resultado OptimizeResult.

Definition limites : list (Q * Q) :=
  [ (20, 50); (4 # 10, 95 # 100); (6 # 10, 1); (50000, 120000) ].

Definition restriccion_scipy (r : restriccion) : decision -> resultado Q :=
  match tipo r with
  | cobertura_minima =>
      fun x => Ok (restriccion_cobertura_minima x (valor r))
  | calidad_minima =>
      fun x => Ok (restriccion_calidad_minima x (valor r))
  | sostenibilidad_minima =>
      fun x => Ok (restriccion_sostenibilidad_minima x (valor r))
  end.

Definition optimizar_configuracion_ums (minimize : solver) (x0 : decision)
  (metas_ideales : metas) (restricciones : list restriccion)
  : resultado OptimizeResult :=
  minimize (mkProblema (fun x => funcion_objetivo x metas_ideales) x0
                       limites (map restriccion_scipy restricciones)).

End Optimizacion.

(** ** modelo_teorico.py

    Numbers that come out of the solver are numpy scalars, whose division by
    zero gives [inf] or [nan] with a warning where that of Python numbers
    raises.  The embedding has the division of Python numbers only, so for
    solver mode it is exact wherever no divisor is zero. *)

Module Teorico.

Import Optimizacion.

Record estadisticas_t : Type := mkDerivadas {
  e_atenciones_mensuales : Q;
  e_poblacion_cubierta : Q;
  e_ums_requeridas_100k : Q;
  e_costo_total_mensual : Q;
  e_costo_por_habitante_mes : Q
}.

Record detalle : Type := mkDetalle {
  valor_real : Q;
  meta : Q;
  cumplimiento_de : Q
}.

Record por_categoria_t : Type := mkPorCategoria {
  c_cobertura : Q;
  c_operacion : Q;
  c_financiero : Q;
  c_calidad : Q
}.

Record detallado_t : Type := mkDetallado {
  d_cobertura_poblacion : detalle;
  d_eficiencia_operativa : detalle;
  d_capacidad_diaria : detalle;
  d_costo_unitario : detalle;
  d_sostenibilidad : detalle
}.

Record cumplimiento_t : Type := mkCumplimiento {
  global : Q;
  por_categoria : por_categoria_t;
  detallado : detallado_t
}.

(** The dict [resultados]: each key is present or not; [{}] is [vacio]. *)
Record resultados_t : Type := mkResultados {
  configuracion : option decision;
  estadisticas : option estadisticas_t;
  cumplimiento : option cumplimiento_t
}.

Definition vacio : resultados_t := mkResultados None None None.

Record UMSTeorico : Type := mkUMSTeorico {
  metas_ideales : metas;
  restricciones : list restriccion;
  configuracion_inicial : decision;
  resultados : resultados_t;
  usar_optimizacion : bool
}.

Definition con_resultados (self : UMSTeorico) (r : resultados_t) : UMSTeorico :=
  mkUMSTeorico (metas_ideales self) (restricciones self)
               (configuracion_inicial self) r (usar_optimizacion self).

(** The statistics derived from a configuration. *)
Definition derivadas (config : decision) : resultado estadisticas_t :=
  let dias_mes := 20 in
  let atenciones_mensuales :=
    capacidad_diaria config * eficiencia_operativa config * dias_mes in
  let poblacion_referencia := 10000 in
  let poblacion_cubierta := poblacion_referencia * cobertura_objetivo config in
  una_ums <- pydiv poblacion_cubierta 1 ;;
  ums_requeridas_100k <- pydiv 100000 una_ums ;;
  let costo_total_mensual := costo_unitario config * atenciones_mensuales in
  costo_por_habitante_mes <-
    (if Qltb 0 poblacion_cubierta
     then pydiv costo_total_mensual poblacion_cubierta
     else Ok 0) ;;
  Ok (mkDerivadas atenciones_mensuales poblacion_cubierta ums_requeridas_100k
                  costo_total_mensual costo_por_habitante_mes).

Definition _calcular_estadisticas_derivadas (self : UMSTeorico)
  : resultado UMSTeorico :=
  match configuracion (resultados self) with
  | None => Ok self
  | Some config =>
      e <- derivadas config ;;
      Ok (con_resultados self
            (mkResultados (configuracion (resultados self)) (Some e)
                          (cumplimiento (resultados self))))
  end.

(** The compliance report of a configuration against the goals. *)
Definition evaluar (m : metas) (config : decision) : resultado cumplimiento_t :=
  let cobertura_real := cobertura_objetivo config in
  let cobertura_meta := poblacion_objetivo (cobertura m) in
  q_cobertura <- pydiv cobertura_real cobertura_meta ;;
  let cumplimiento_cobertura := pymin q_cobertura 1 in
  let eficiencia_real := eficiencia_operativa config in
  let eficiencia_meta := meta_eficiencia_operativa (operacion m) in
  q_eficiencia <- pydiv eficiencia_real eficiencia_meta ;;
  let cumplimiento_eficiencia := pymin q_eficiencia 1 in
  let capacidad_real := capacidad_diaria config in
  let capacidad_meta := capacidad_optima (operacion m) in
  q_capacidad <- pydiv capacidad_real capacidad_meta ;;
  let cumplimiento_capacidad := pymin q_capacidad 1 in
  let cumplimiento_operacion :=
    (cumplimiento_eficiencia + cumplimiento_capacidad) / 2 in
  let costo_real := costo_unitario config in
  let costo_meta := costo_unitario_max (financiero m) in
  q_costo <- pydiv costo_meta (pymax costo_real 1) ;;
  let cumplimiento_costo := pymin q_costo 1 in
  let sostenibilidad_real :=
    pymin (12 # 10) (sostenibilidad_min (financiero m) + (1 # 10)) in
  let sostenibilidad_meta := sostenibilidad_min (financiero m) in
  q_sostenibilidad <- pydiv sostenibilidad_real sostenibilidad_meta ;;
  let cumplimiento_sostenibilidad := pymin q_sostenibilidad 1 in
  let cumplimiento_financiero :=
    (cumplimiento_costo + cumplimiento_sostenibilidad) / 2 in
  let calidad_estimada :=
    (cumplimiento_cobertura + cumplimiento_operacion) / 2 in
  let cumplimiento_global :=
    0 + cumplimiento_cobertura * (3 # 10)
      + cumplimiento_operacion * (3 # 10)
      + cumplimiento_financiero * (25 # 100)
      + calidad_estimada * (15 # 100) in
  Ok (mkCumplimiento cumplimiento_global
        (mkPorCategoria cumplimiento_cobertura cumplimiento_operacion
                        cumplimiento_financiero calidad_estimada)
        (mkDetallado
           (mkDetalle cobertura_real cobertura_meta cumplimiento_cobertura)
           (mkDetalle eficiencia_real eficiencia_meta cumplimiento_eficiencia)
           (mkDetalle capacidad_real capacidad_meta cumplimiento_capacidad)
           (mkDetalle costo_real costo_meta cumplimiento_costo)
           (mkDetalle sostenibilidad_real sostenibilidad_meta
                      cumplimiento_sostenibilidad))).

Definition _evaluar_cumplimiento_metas (self : UMSTeorico)
  : resultado UMSTeorico :=
  match configuracion (resultados self) with
  | None => Ok self
  | Some config =>
      c <- evaluar (metas_ideales self) config ;;
      Ok (con_resultados self
            (mkResultados (configuracion (resultados self))
                          (estadisticas (resultados self)) (Some c)))
  end.

(** The objective that [optimizar] defines and hands to the solver. *)
Definition funcion_objetivo (m : metas) (x : decision) : resultado Q :=
  costo_normalizado <-
    pydiv (costo_unitario x) (costo_unitario_max (financiero m)) ;;
  penalizacion_capacidad <-
    pydiv (Qabs (capacidad_diaria x - capacidad_optima (operacion m)))
          (capacidad_optima (operacion m)) ;;
  penalizacion_eficiencia <-
    pydiv (Qabs (eficiencia_operativa x
                 - meta_eficiencia_operativa (operacion m)))
          (meta_eficiencia_operativa (operacion m)) ;;
  penalizacion_cobertura <-
    pydiv (Qabs (cobertura_objetivo x - poblacion_objetivo (cobertura m)))
          (poblacion_objetivo (cobertura m)) ;;
  Ok ((4 # 10) * costo_normalizado
      + (2 # 10) * penalizacion_capacidad
      + (2 # 10) * penalizacion_eficiencia
      + (2 # 10) * penalizacion_cobertura).

(** [self.restricciones[i]['valor']] *)
Definition valor_restriccion (rs : list restriccion) (i : nat) : resultado Q :=
  match nth_error rs i with
  | Some r => Ok (valor r)
  | None => Lanza IndexError
  end.

(** The two constraints that [optimizar] builds. *)
Definition restricciones_solver (rs : list restriccion)
  : list (decision -> resultado Q) :=
  [ (fun x => v <- valor_restriccion rs 0 ;; Ok (cobertura_objetivo x - v));
    (fun x =>
       d <- pydiv (costo_unitario x) 100000 ;;
       i <- pydiv 1 d ;;
       v <- valor_restriccion rs 1 ;;
       Ok (i - v)) ].

Definition solo_configuracion (x : decision) : resultados_t :=
  mkResultados (Some x) None None.

(** What [optimizar] passes to [minimize]: its own objective, the stored
    starting point, the box and its two constraints. *)
Definition problema_de (self : UMSTeorico) : problema :=
  mkProblema (funcion_objetivo (metas_ideales self))
             (configuracion_inicial self) limites
             (restricciones_solver (restricciones self)).

(** [optimizar].  The outcome comes with the object as the call leaves it.
    In direct mode nothing catches an exception; in solver mode the
    [try ... except Exception] turns any exception into the return value
    [{}], after whatever had been stored before it was raised.  The goals
    are a record, never the empty dict, so [cargar_metas] is not called. *)
Definition optimizar (minimize : solver) (self : UMSTeorico)
  : resultado resultados_t * UMSTeorico :=
  if negb (usar_optimizacion self) then
    let self1 :=
      con_resultados self (solo_configuracion (configuracion_inicial self)) in
    match _calcular_estadisticas_derivadas self1 with
    | Lanza e => (Lanza e, self1)
    | Ok self2 =>
        match _evaluar_cumplimiento_metas self2 with
        | Lanza e => (Lanza e, self2)
        | Ok self3 => (Ok (resultados self3), self3)
        end
    end
  else
    match minimize (problema_de self) with
    | Lanza _ => (Ok vacio, self)
    | Ok resultado =>
        let self1 :=
          con_resultados self (solo_configuracion (x_final resultado)) in
        match _calcular_estadisticas_derivadas self1 with
        | Lanza _ => (Ok vacio, self1)
        | Ok self2 =>
            match _evaluar_cumplimiento_metas self2 with
            | Lanza _ => (Ok vacio, self2)
            | Ok self3 => (Ok (resultados self3), self3)
            end
        end
    end.

(** The defaults of [__init__]. *)
Definition metas_predeterminadas : metas :=
  mkMetas (mkMetasCobertura 1 2 60 (95 # 100))
          (mkMetasOperacion 40 (8 # 10) (85 # 100) 30)
          (mkMetasFinanciero 70000 1 (6 # 10))
          (mkMetasCalidad (85 # 100) 1 (9 # 10)).

Definition modelo_predeterminado : UMSTeorico :=
  mkUMSTeorico metas_predeterminadas
    [ mkRestriccion cobertura_minima (6 # 10);
      mkRestriccion sostenibilidad_minima (6 # 10);
      mkRestriccion calidad_minima (7 # 10) ]
    (mkDecision 30 (7 # 10) (8 # 10) 90000)
    vacio true.

End Teorico.

(** ** The objective as the specification words it *)

Module Especificacion.

Import Optimizacion.

(** A score of the compliance report lies in [0, 1]. *)
Definition en_unidad (q : Q) : Prop := 0 <= q /\ q <= 1.

(** What section 8 excludes for every statistic of the simulation. *)
Definition negativo (q : Q) : Prop := q < 0.

Record pesos : Type := mkPesos {
  w_capacidad : Q;
  w_eficiencia : Q;
  w_cobertura : Q;
  w_sostenibilidad : Q
}.

(** The solver-mode objective in the words of section 4.2 of the
    specification, [0.4 * normalized_cost + 0.6 * penalty]; the weights of
    the penalty and the two reference costs, which the specification leaves
    open, are parameters. *)
Definition objetivo_segun_spec (w : pesos)
  (fixed_reference_cost reference_cost : Q) (x : decision) (m : metas) : Q :=
  let attendances := capacidad_diaria x * eficiencia_operativa x * 20 in
  let monthly_cost := fixed_reference_cost + attendances * costo_unitario x in
  let normalized_cost := monthly_cost / reference_cost in
  let sustainability :=
    (attendances * costo_unitario x * (11 # 10)) / monthly_cost in
  let penalty :=
    w_capacidad w
      * (Qabs (capacidad_diaria x - capacidad_optima (operacion m))
         / capacidad_optima (operacion m))
    + w_eficiencia w
      * (Qabs (eficiencia_operativa x
               - meta_eficiencia_operativa (operacion m))
         / meta_eficiencia_operativa (operacion m))
    + w_cobertura w
      * (Qabs (cobertura_objetivo x - poblacion_objetivo (cobertura m))
         / poblacion_objetivo (cobertura m))
    + w_sostenibilidad w
      * Qmax 0 (sostenibilidad_min (financiero m) - sustainability) in
  (4 # 10) * normalized_cost + (6 # 10) * penalty.

End Especificacion.

(** ** Sample objects *)

Module Ejemplos.

Import Brechas.

(** A practical model after a simulation close to the defaults, and a
    theoretical model in direct mode. *)
Definition analisis_ejemplo : AnalisisBrechas :=
  mkAnalisis
    (mkVistaPractico
       (Some (mkMedias (115 # 1000) 25931667 192 (77 # 100))) (4 # 10))
    (mkVistaTeorico (Some (mkConfigIdeal (8 # 10) (7 # 10) 90000)) 1)
    [].

Definition entrada_cobertura_ejemplo : datos_brecha :=
  con_prioridad (entrada (115 # 1000) (8 # 10) false).

Definition entrada_eficiencia_ejemplo : datos_brecha :=
  con_prioridad (entrada (4 # 10) (7 # 10) false).

Definition entrada_costo_ejemplo : datos_brecha :=
  con_prioridad (entrada (25931667 / pymax 1 192) 90000 true).

Definition entrada_sostenibilidad_ejemplo : datos_brecha :=
  con_prioridad (entrada (77 # 100) 1 false).

Definition matriz_ejemplo : matriz :=
  [ (cobertura, entrada_cobertura_ejemplo);
    (eficiencia, entrada_eficiencia_ejemplo);
    (costo_efectividad, entrada_costo_ejemplo);
    (sostenibilidad, entrada_sostenibilidad_ejemplo) ].

(** A solver that stops at its starting point and reports that it did not
    converge (for instance on reaching its iteration limit). *)
Definition solver_sin_convergencia : Optimizacion.solver :=
  fun p =>
    Ok (Optimizacion.mkOptimizeResult (Optimizacion.punto_inicial p) false).

(** A solver that raises. *)
Definition solver_que_lanza : Optimizacion.solver :=
  fun _ => Lanza ErrorSolver.

(** The default theoretical model in direct mode, with a given coverage
    target as its configuration. *)
Definition modelo_directo (cobertura_objetivo : Q) : Teorico.UMSTeorico :=
  Teorico.mkUMSTeorico Teorico.metas_predeterminadas
    (Teorico.restricciones Teorico.modelo_predeterminado)
    (Optimizacion.mkDecision 30 (7 # 10) cobertura_objetivo 90000)
    Teorico.vacio false.

(** The practical model of the unit tests (10 trials of 12 months) with the
    efficiency of [test_valores_invalidos]. *)
Definition practico_eficiencia_negativa : Practico.UMSPractico :=
  Practico.mkUMSPractico
    (Practico.mkDatosOperativos
       (Practico.mkCapacidad 24 20 (- (1 # 10)))
       (Practico.costos Practico.datos_predeterminados)
       (Practico.cobertura Practico.datos_predeterminados))
    (Practico.mkParametros 10 12).

(** Operating data with no fixed cost and no efficiency: every month costs
    nothing. *)
Definition datos_sin_costo : Practico.datos_operativos_t :=
  Practico.mkDatosOperativos
    (Practico.mkCapacidad 24 20 0)
    (Practico.mkCostos 0 45000 20750000 103750 580000000)
    (Practico.cobertura Practico.datos_predeterminados).

(** The default theoretical model once a configuration has been stored, and
    after its compliance evaluation. *)
Definition modelo_resuelto (x : Optimizacion.decision) : Teorico.UMSTeorico :=
  Teorico.con_resultados Teorico.modelo_predeterminado
                         (Teorico.solo_configuracion x).

Definition modelo_evaluado (x : Optimizacion.decision) : Teorico.UMSTeorico :=
  match Teorico._evaluar_cumplimiento_metas (modelo_resuelto x) with
  | Ok s => s
  | Lanza _ => modelo_resuelto x
  end.

(** A random source whose every draw is 0. *)
Definition fuente_nula : Simulacion.fuente := fun _ _ => O.

(** The month that [datos_sin_costo] gives with that source. *)
Definition mes_sin_costo : Practico.mes_t :=
  match Practico.simular_mes fuente_nula datos_sin_costo 0 with
  | Ok (m, _) => m
  | Lanza _ => Practico.mkMes 0 0 0 NaN
  end.

End Ejemplos.

(** ** Bounds *)

Module Cotas.

Import Practico.

Definition entre (lo hi q : Q) : Prop := lo <= q /\ q <= hi.

(** Every statistic of location lies in [lo, hi]; the variance is not
    negative. *)
Definition estadistica_entre (lo hi : Q) (e : estadistica) : Prop :=
  entre lo hi (media e)
  /\ entre lo hi (mediana e)
  /\ entre lo hi (min e)
  /\ entre lo hi (max e)
  /\ entre lo hi (percentil_25 e)
  /\ entre lo hi (percentil_75 e)
  /\ 0 <= desviacion_cuadrado e.

Definition finito_entre (lo hi : Q) (x : flotante) : Prop :=
  exists q, x = Finito q /\ entre lo hi q.

Definition estadistica_np_entre (lo hi : Q) (e : estadistica_np) : Prop :=
  exists e', e = Estad e' /\ estadistica_entre lo hi e'.

(** The days of a month as a number. *)
Definition dias (parametros : datos_operativos_t) : nat :=
  Z.to_nat (dias_mes (capacidad parametros)).

(** The real capacity of a month: days times daily capacity times
    efficiency. *)
Definition capacidad_mensual (parametros : datos_operativos_t) : Q :=
  inject_Z (Z.of_nat (dias parametros))
  * (pacientes_dia (capacidad parametros) * eficiencia (capacidad parametros)).

(** Operating data inside their documented ranges. *)
Definition datos_validos (parametros : datos_operativos_t) : Prop :=
  0 <= pacientes_dia (capacidad parametros)
  /\ 0 <= eficiencia (capacidad parametros)
  /\ 0 < fijo_mensual (costos parametros)
  /\ 0 <= variable_paciente (costos parametros)
  /\ 0 <= costo_unitario_atencion (costos parametros)
  /\ 0 < poblacion_objetivo (cobertura parametros).

(** What a month of valid operating data looks like: demand within the real
    capacity, cost from the fixed cost up, coverage a fraction, and a finite
    sustainability. *)
Definition mes_valido (parametros : datos_operativos_t) (m : mes_t) : Prop :=
  entre 0 (capacidad_mensual parametros) (m_demanda m)
  /\ entre (fijo_mensual (costos parametros))
           (fijo_mensual (costos parametros)
            + capacidad_mensual parametros
              * variable_paciente (costos parametros))
           (m_costos m)
  /\ entre 0 1 (m_cobertura m)
  /\ finito_entre 0
       (capacidad_mensual parametros
        * costo_unitario_atencion (costos parametros)
        / fijo_mensual (costos parametros))
       (m_sostenibilidad m).

(** The same for the outcome of a trial, the means over its months. *)
Definition prueba_valida (parametros : datos_operativos_t) (p : prueba_t)
  : Prop :=
  finito_entre 0 (capacidad_mensual parametros) (p_demanda p)
  /\ finito_entre (fijo_mensual (costos parametros))
       (fijo_mensual (costos parametros)
        + capacidad_mensual parametros
          * variable_paciente (costos parametros))
       (p_costos p)
  /\ finito_entre 0 1 (p_cobertura p)
  /\ finito_entre 0
       (capacidad_mensual parametros
        * costo_unitario_atencion (costos parametros)
        / fijo_mensual (costos parametros))
       (p_sostenibilidad p).

End Cotas.

(** ** The box of the solver *)

Module Caja.

Import Optimizacion.

(** The components of a decision vector, in the order of [bounds]. *)
Definition componentes (x : decision) : list Q :=
  [ capacidad_diaria x; eficiencia_operativa x; cobertura_objetivo x;
    costo_unitario x ].

(** Every component lies within its pair of bounds. *)
Definition dentro (bs : list (Q * Q)) (x : decision) : Prop :=
  Forall2 (fun b v => fst b <= v /\ v <= snd b) bs (componentes x).

End Caja.

(** ** modelo_teorico.py, the query of the report *)

Module TeoricoConsulta.

Import Optimizacion Teorico.

(** [evaluar_cumplimiento]: the stored report when there is one; [{}]
    ([None]) without a configuration; otherwise the evaluation, and
    [resultados.get('cumplimiento', {})]. *)
Definition evaluar_cumplimiento (self : UMSTeorico)
  : resultado (option cumplimiento_t) * UMSTeorico :=
  match cumplimiento (resultados self) with
  | Some c => (Ok (Some c), self)
  | None =>
      match configuracion (resultados self) with
      | None => (Ok None, self)
      | Some _ =>
          match _evaluar_cumplimiento_metas self with
          | Lanza e => (Lanza e, self)
          | Ok self' => (Ok (cumplimiento (resultados self')), self')
          end
      end
  end.

(** An assignment to [metas_ideales]. *)
Definition con_metas (self : UMSTeorico) (m : metas) : UMSTeorico :=
  mkUMSTeorico m (restricciones self) (configuracion_inicial self)
               (resultados self) (usar_optimizacion self).

End TeoricoConsulta.

(** ** modelo_practico.py, the detail of costs *)

Module PracticoCostos.

Import Simulacion Practico.

Record detalle_costos : Type := mkDetalleCostos {
  fijos : Q;
  variables : Q;
  personal : Q;
  depreciacion : Q;
  mantenimiento : Q;
  total_mensual : Q;
  costo_por_atencion : flotante
}.

(** [np.mean] of the stored samples, the 'media' of the statistics. *)
Definition media_np (muestras : list flotante) : flotante :=
  np_mean_flotante muestras.

(** The dict that [calcular_costos] returns, for a finite mean demand.
    [costo_personal_mes] is the entry of the group 'personal' of
    [datos_operativos], which the record of the simulation leaves out. *)
Definition detalle_de (datos : datos_operativos_t) (costo_personal_mes : Q)
  (demanda_media : Q) : detalle_costos :=
  let costos_fijos := fijo_mensual (costos datos) in
  let costos_variables := demanda_media * variable_paciente (costos datos) in
  let costo_personal := costo_personal_mes in
  let depreciacion_mensual := costo_vehiculo (costos datos) / (5 * 12) in
  let mantenimiento_mensual := mantenimiento_anual (costos datos) / 12 in
  mkDetalleCostos costos_fijos costos_variables costo_personal
    depreciacion_mensual mantenimiento_mensual
    (costos_fijos + costos_variables + costo_personal + depreciacion_mensual
     + mantenimiento_mensual)
    (if Qltb 0 demanda_media
     then Finito ((costos_fijos + costos_variables + costo_personal
                   + depreciacion_mensual + mantenimiento_mensual)
                  / demanda_media)
     else Infinito).

(** [calcular_costos], on the object's stored results: it simulates first
    when no statistics are stored.  [None] stands for the detail of a mean
    demand that is [nan], which is not represented. *)
Definition calcular_costos (rng : fuente) (self : UMSPractico)
  (costo_personal_mes : Q) (resultados : resultados_t) (k : nat)
  : resultado (option detalle_costos * resultados_t * nat) :=
  match
    (match r_estadisticas resultados with
     | None => simular rng self k
     | Some _ => Ok (resultados, k)
     end)
  with
  | Lanza e => Lanza e
  | Ok (res, k') =>
      match r_estadisticas res with
      | None => Lanza KeyError
      | Some est =>
          match e_demanda est with
          | Estad e =>
              Ok (Some (detalle_de (datos_operativos self)
                                   costo_personal_mes (media e)), res, k')
          | NoFinita => Ok (None, res, k')
          end
      end
  end.

End PracticoCostos.

(** ** simulacion.py, the trials of [simular_operacion] and the sweep *)

Module SimulacionOperacion.

Import Simulacion Practico.

Record prueba_operacion_t : Type := mkPruebaOperacion {
  po_demanda : Q;
  po_costos : Q;
  po_cobertura : Q;
  po_sostenibilidad : Q
}.

(** The loop over the months of one trial of [simular_operacion]: it
    accumulates the demand and the cost of the months. *)
Fixpoint meses_operacion (rng : fuente) (parametros : datos_operativos_t)
  (meses : nat) (demanda_total costos_totales : Q) (k : nat)
  : resultado (Q * Q * nat) :=
  match meses with
  | O => Ok (demanda_total, costos_totales, k)
  | S meses' =>
      match simular_dias rng (pacientes_dia (capacidad parametros))
              (eficiencia (capacidad parametros))
              (Z.to_nat (dias_mes (capacidad parametros))) 0 k with
      | Lanza e => Lanza e
      | Ok (demanda_mes, k') =>
          let costo_fijo := fijo_mensual (costos parametros) in
          let costo_variable :=
            demanda_mes * variable_paciente (costos parametros) in
          let costo_mes := costo_fijo + costo_variable in
          meses_operacion rng parametros meses'
            (demanda_total + demanda_mes) (costos_totales + costo_mes) k'
      end
  end.

(** The body of the loop over the trials of [simular_operacion]: one trial,
    up to the four values it appends.  (The statistics that the function
    computes afterwards use scipy's normal quantiles and are left out.) *)
Definition prueba_operacion (rng : fuente) (parametros : datos_operativos_t)
  (horizonte_temporal : Z) (k : nat)
  : resultado (prueba_operacion_t * nat) :=
  match meses_operacion rng parametros (Z.to_nat horizonte_temporal) 0 0 k with
  | Lanza e => Lanza e
  | Ok (demanda_total, costos_totales, k') =>
      demanda_promedio <- pydiv demanda_total (inject_Z horizonte_temporal) ;;
      costos_promedio <- pydiv costos_totales (inject_Z horizonte_temporal) ;;
      let poblacion_atendible_mensual :=
        poblacion_objetivo (cobertura parametros) / 6 in
      c <- pydiv demanda_promedio poblacion_atendible_mensual ;;
      let ingresos_promedio :=
        demanda_promedio * costo_unitario_atencion (costos parametros) in
      let sostenibilidad :=
        if Qltb 0 costos_promedio then ingresos_promedio / costos_promedio
        else 0 in
      Ok (mkPruebaOperacion demanda_promedio costos_promedio (pymin 1 c)
                            sostenibilidad, k')
  end.

End SimulacionOperacion.

(** ** simulacion.py, the sensitivity sweep *)

Module Sensibilidad.

Import Simulacion Practico PracticoCostos.

(** The pairs (categoria, nombre) that name a number of [datos_operativos].
    [dias_mes], an integer that [range] consumes, is not among them: a value
    of [np.linspace] is a float. *)
Inductive parametro : Type :=
| capacidad_pacientes_dia
| capacidad_eficiencia
| costos_fijo_mensual
| costos_variable_paciente
| costos_mantenimiento_anual
| costos_costo_unitario_atencion
| costos_costo_vehiculo
| cobertura_poblacion_objetivo
| cobertura_frecuencia_visitas
| cobertura_radio_cobertura
| cobertura_poblacion_por_km2.

(** [datos_operativos[categoria][nombre]] *)
Definition leer (p : parametro) (d : datos_operativos_t) : Q :=
  match p with
  | capacidad_pacientes_dia => pacientes_dia (capacidad d)
  | capacidad_eficiencia => eficiencia (capacidad d)
  | costos_fijo_mensual => fijo_mensual (costos d)
  | costos_variable_paciente => variable_paciente (costos d)
  | costos_mantenimiento_anual => mantenimiento_anual (costos d)
  | costos_costo_unitario_atencion => costo_unitario_atencion (costos d)
  | costos_costo_vehiculo => costo_vehiculo (costos d)
  | cobertura_poblacion_objetivo => poblacion_objetivo (cobertura d)
  | cobertura_frecuencia_visitas => frecuencia_visitas (cobertura d)
  | cobertura_radio_cobertura => radio_cobertura (cobertura d)
  | cobertura_poblacion_por_km2 => poblacion_por_km2 (cobertura d)
  end.

(** [datos_operativos[categoria][nombre] = valor] *)
Definition asignar (p : parametro) (v : Q) (d : datos_operativos_t)
  : datos_operativos_t :=
  let ca := capacidad d in
  let co := costos d in
  let cb := cobertura d in
  match p with
  | capacidad_pacientes_dia =>
      mkDatosOperativos (mkCapacidad v (dias_mes ca) (eficiencia ca)) co cb
  | capacidad_eficiencia =>
      mkDatosOperativos (mkCapacidad (pacientes_dia ca) (dias_mes ca) v) co cb
  | costos_fijo_mensual =>
      mkDatosOperativos ca
        (mkCostos v (variable_paciente co) (mantenimiento_anual co)
                  (costo_unitario_atencion co) (costo_vehiculo co)) cb
  | costos_variable_paciente =>
      mkDatosOperativos ca
        (mkCostos (fijo_mensual co) v (mantenimiento_anual co)
                  (costo_unitario_atencion co) (costo_vehiculo co)) cb
  | costos_mantenimiento_anual =>
      mkDatosOperativos ca
        (mkCostos (fijo_mensual co) (variable_paciente co) v
                  (costo_unitario_atencion co) (costo_vehiculo co)) cb
  | costos_costo_unitario_atencion =>
      mkDatosOperativos ca
        (mkCostos (fijo_mensual co) (variable_paciente co)
                  (mantenimiento_anual co) v (costo_vehiculo co)) cb
  | costos_costo_vehiculo =>
      mkDatosOperativos ca
        (mkCostos (fijo_mensual co) (variable_paciente co)
                  (mantenimiento_anual co) (costo_unitario_atencion co) v) cb
  | cobertura_poblacion_objetivo =>
      mkDatosOperativos ca co
        (mkCobertura v (frecuencia_visitas cb) (radio_cobertura cb)
                     (poblacion_por_km2 cb))
  | cobertura_frecuencia_visitas =>
      mkDatosOperativos ca co
        (mkCobertura (poblacion_objetivo cb) v (radio_cobertura cb)
                     (poblacion_por_km2 cb))
  | cobertura_radio_cobertura =>
      mkDatosOperativos ca co
        (mkCobertura (poblacion_objetivo cb) (frecuencia_visitas cb) v
                     (poblacion_por_km2 cb))
  | cobertura_poblacion_por_km2 =>
      mkDatosOperativos ca co
        (mkCobertura (poblacion_objetivo cb) (frecuencia_visitas cb)
                     (radio_cobertura cb) v)
  end.

(** The model object as the sweep handles it: the data and the parameters
    of [UMSPractico] together with its attribute [resultados], which every
    call of [simular] resets and fills again. *)
Record modelo_t : Type := mkModelo {
  practico :> UMSPractico;
  resultados : resultados_t
}.

Definition con_datos (modelo : modelo_t) (d : datos_operativos_t)
  : modelo_t :=
  mkModelo (mkUMSPractico d (parametros_simulacion modelo))
           (resultados modelo).

(** The trials that [simular] has appended to [resultados] when its loop
    stops: all of them, or those before the one that raised. *)
Fixpoint pruebas_hechas (rng : fuente) (parametros : datos_operativos_t)
  (horizonte_temporal : Z) (n : nat) (k : nat) : list prueba_t :=
  match n with
  | O => []
  | S n' =>
      match _simular_operacion rng parametros horizonte_temporal k with
      | Lanza _ => []
      | Ok (p, k') =>
          p :: pruebas_hechas rng parametros horizonte_temporal n' k'
      end
  end.

(** [modelo.simular()] as a method: its outcome and the object it leaves.
    When it returns, [resultados] is what it returns.  When it raises,
    [resultados] is the reset dict with the trials appended so far and no
    statistics ([_calcular_estadisticas] raises only on empty samples, hence
    at its first variable: the four lists have one length). *)
Definition simular_objeto (rng : fuente) (modelo : modelo_t) (k : nat)
  : resultado nat * modelo_t :=
  match simular rng modelo k with
  | Ok (res, k') => (Ok k', mkModelo modelo res)
  | Lanza e =>
      let ps :=
        pruebas_hechas rng (datos_operativos modelo)
          (horizonte_temporal (parametros_simulacion modelo))
          (Z.to_nat (num_simulaciones (parametros_simulacion modelo))) k in
      (Lanza e,
       mkModelo modelo
         (mkResultados (map p_demanda ps) (map p_costos ps)
                       (map p_cobertura ps) (map p_sostenibilidad ps) None))
  end.

(** [np.linspace(start, stop, num)]: [num] evenly spaced values, the last
    one [stop] itself; a negative [num] is a [ValueError]. *)
Definition np_linspace (start stop : Q) (num : Z) : resultado (list Q) :=
  if (num <? 0)%Z then Lanza ValueError
  else
    match Z.to_nat num with
    | O => Ok []
    | S O => Ok [start]
    | S (S n) =>
        let step := (stop - start) / inject_Z (num - 1) in
        Ok (map (fun i => inject_Z (Z.of_nat i) * step + start)
                (seq 0 (S n))
            ++ [stop])
    end.

Record medias_t : Type := mkMediasBarrido {
  b_demanda : list flotante;
  b_costos : list flotante;
  b_cobertura : list flotante;
  b_sostenibilidad : list flotante
}.

Record resultados_sensibilidad : Type := mkResultadosSensibilidad {
  valores : list Q;
  medias : medias_t
}.

(** The loop over the values: each one is written into the model, which is
    simulated, and the four means of the statistics it then stores are
    appended.  An exception leaves the loop with the model as it then is.
    The simulation divides as Python does: a target population of zero
    raises here, whereas with a numpy operand (a value of [np.linspace], a
    float64) the code's division gives [inf] with a warning; sweeps that
    simulate a zero target population are outside this model. *)
Fixpoint barrido (rng : fuente) (modelo : modelo_t) (p : parametro)
  (vs : list Q) (acc : medias_t) (k : nat)
  : resultado (medias_t * nat) * modelo_t :=
  match vs with
  | [] => (Ok (acc, k), modelo)
  | valor :: vs' =>
      let modelo1 :=
        con_datos modelo (asignar p valor (datos_operativos modelo)) in
      match simular_objeto rng modelo1 k with
      | (Lanza e, modelo2) => (Lanza e, modelo2)
      | (Ok k', modelo2) =>
          let res := resultados modelo2 in
          barrido rng modelo2 p vs'
            (mkMediasBarrido
               (b_demanda acc ++ [media_np (r_demanda res)])
               (b_costos acc ++ [media_np (r_costos res)])
               (b_cobertura acc ++ [media_np (r_cobertura res)])
               (b_sostenibilidad acc ++ [media_np (r_sostenibilidad res)]))
            k'
      end
  end.

(** [analisis_sensibilidad], with the model as the call leaves it: the
    swept parameter is written back after the loop, the results stored by
    the last simulation stay. *)
Definition analisis_sensibilidad (rng : fuente) (modelo : modelo_t)
  (p : parametro) (rango : Q * Q) (num_pasos : Z) (k : nat)
  : resultado (resultados_sensibilidad * nat) * modelo_t :=
  match np_linspace (fst rango) (snd rango) num_pasos with
  | Lanza e => (Lanza e, modelo)
  | Ok vs =>
      let valor_original := leer p (datos_operativos modelo) in
      match barrido rng modelo p vs (mkMediasBarrido [] [] [] []) k with
      | (Lanza e, modelo') => (Lanza e, modelo')
      | (Ok (m, k'), modelo') =>
          (Ok (mkResultadosSensibilidad vs m, k'),
           con_datos modelo'
             (asignar p valor_original (datos_operativos modelo')))
      end
  end.

(** Whether a computation returned. *)
Definition termina {A : Type} (r : resultado A) : bool :=
  match r with
  | Ok _ => true
  | Lanza _ => false
  end.

End Sensibilidad.

(** ** indicadores.py *)

Module Indicadores.

Import Optimizacion.

(** [l[i]] *)
Definition indice (l : list Q) (i : nat) : resultado Q :=
  match nth_error l i with
  | Some v => Ok v
  | None => Lanza IndexError
  end.

(** The loop of [calcular_cobertura_efectiva], from the region [i] on;
    [pendientes] are the populations of the regions still to visit. *)
Fixpoint cobertura_efectiva_desde (pendientes : list Q) (i : nat)
  (capacidad_ums distancia_centros : list Q) : resultado (list Q) :=
  match pendientes with
  | [] => Ok []
  | poblacion :: pendientes' =>
      ratio_capacidad <-
        (if Qltb 0 poblacion
         then c <- indice capacidad_ums i ;;
              q <- pydiv c (poblacion / 6) ;;
              Ok (pymin 1 q)
         else Ok 0) ;;
      d <- indice distancia_centros i ;;
      factor_distancia <- pydiv 1 (1 + d) ;;
      let cobertura := ratio_capacidad * factor_distancia in
      resto <- cobertura_efectiva_desde pendientes' (S i) capacidad_ums
                 distancia_centros ;;
      Ok (pymin 1 cobertura :: resto)
  end.

Definition calcular_cobertura_efectiva
  (poblacion_regional capacidad_ums distancia_centros : list Q)
  : resultado (list Q) :=
  cobertura_efectiva_desde poblacion_regional 0 capacidad_ums
                           distancia_centros.

(** [indicadores_salud_base]: each key is present or not. *)
Record indicadores_salud_base_t : Type := mkSaludBase {
  base_mortalidad_infantil : option Q;
  base_cobertura_vacunacion : option Q;
  base_acceso_aps : option Q
}.

(** [dict.get(clave, defecto)] *)
Definition get (o : option Q) (defecto : Q) : Q :=
  match o with
  | Some v => v
  | None => defecto
  end.

Record indicadores_salud : Type := mkSalud {
  mortalidad_infantil : Q;
  cobertura_vacunacion : Q;
  acceso_aps : Q
}.

Definition evaluar_impacto_salud (cobertura_inicial cobertura_proyectada : Q)
  (indicadores_salud_base : indicadores_salud_base_t) : indicadores_salud :=
  let mortalidad_infantil_base :=
    get (base_mortalidad_infantil indicadores_salud_base) 18 in
  let cobertura_vacunacion_base :=
    get (base_cobertura_vacunacion indicadores_salud_base) (68 # 100) in
  let acceso_aps_base :=
    get (base_acceso_aps indicadores_salud_base) (42 # 100) in
  let incremento_cobertura :=
    if Qltb 0 cobertura_inicial
    then (cobertura_proyectada - cobertura_inicial) / cobertura_inicial
    else cobertura_proyectada in
  let factor_reduccion_mortalidad :=
    (3 # 10) * pymin 1 incremento_cobertura in
  let mortalidad_infantil_proyectada :=
    mortalidad_infantil_base * (1 - factor_reduccion_mortalidad) in
  let incremento_vacunacion :=
    pymin (27 # 100) (incremento_cobertura * (5 # 10)) in
  let cobertura_vacunacion_proyectada :=
    pymin (95 # 100) (cobertura_vacunacion_base + incremento_vacunacion) in
  let incremento_aps := pymin (48 # 100) (incremento_cobertura * (7 # 10)) in
  let acceso_aps_proyectado :=
    pymin (9 # 10) (acceso_aps_base + incremento_aps) in
  mkSalud mortalidad_infantil_proyectada cobertura_vacunacion_proyectada
          acceso_aps_proyectado.

(** The dict of [calcular_indices_desempeno]: the goals' own records hold
    the indicators of each category. *)
Definition calcular_indices_desempeno (configuracion : decision)
  (metas_ideales : metas) : resultado metas :=
  let capacidad_diaria := capacidad_diaria configuracion in
  let eficiencia_operativa := eficiencia_operativa configuracion in
  let cobertura_objetivo := cobertura_objetivo configuracion in
  let costo_unitario := costo_unitario configuracion in
  let frecuencia :=
    frecuencia_visitas (cobertura metas_ideales) * cobertura_objetivo in
  tiempo_acceso <-
    pydiv (tiempo_acceso_max (cobertura metas_ideales)) cobertura_objetivo ;;
  let satisfaccion :=
    pymin (satisfaccion_min (cobertura metas_ideales))
          ((7 # 10) + ((3 # 10) * eficiencia_operativa)) in
  let resolucion :=
    pymin (resolucion_primer_nivel (operacion metas_ideales))
          ((7 # 10) + ((3 # 10) * eficiencia_operativa)) in
  tiempo_espera <-
    pydiv (tiempo_espera_max (operacion metas_ideales))
          eficiencia_operativa ;;
  let dias_mes := 20 in
  let atenciones_mensuales :=
    capacidad_diaria * eficiencia_operativa * dias_mes in
  let costo_fijo_mensual := 17291667 in
  let costo_total := costo_fijo_mensual + (atenciones_mensuales * costo_unitario) in
  let ingresos_estimados :=
    atenciones_mensuales * costo_unitario * (11 # 10) in
  let sostenibilidad :=
    if Qltb 0 costo_total then ingresos_estimados / costo_total else 0 in
  let autofinanciacion := pymin 1 sostenibilidad in
  let continuidad :=
    pymin (continuidad_atencion (calidad metas_ideales))
          (cobertura_objetivo * (9 # 10)) in
  let referencia :=
    pymin (referencia_efectiva (calidad metas_ideales))
          ((8 # 10) + ((2 # 10) * eficiencia_operativa)) in
  Ok (mkMetas
        (mkMetasCobertura cobertura_objetivo frecuencia tiempo_acceso
                          satisfaccion)
        (mkMetasOperacion capacidad_diaria eficiencia_operativa resolucion
                          tiempo_espera)
        (mkMetasFinanciero costo_unitario sostenibilidad autofinanciacion)
        (mkMetasCalidad continuidad
                        (integracion_historia (calidad metas_ideales))
                        referencia)).

(** [sorted(..., key=...)]: stable, ascending by key. *)
Fixpoint insertar_clave {A : Type} (key : A -> Q) (x : A) (l : list A)
  : list A :=
  match l with
  | [] => [x]
  | y :: l' =>
      if Qle_bool (key x) (key y) then x :: y :: l'
      else y :: insertar_clave key x l'
  end.

Definition sorted_por {A : Type} (key : A -> Q) (l : list A) : list A :=
  fold_right (insertar_clave key) [] l.

(** [sum(...)], from the integer 0. *)
Definition sum (l : list Q) : Q := fold_left Qplus l 0.

(** The loop of [calcular_indice_equidad] over the sorted regions: the
    served population accumulated so far and the area under the curve. *)
Fixpoint area_de_lorenz (regiones : list (Q * Q))
  (poblacion_total poblacion_atendida_total : Q)
  (poblacion_atendida_acum area : Q) : resultado Q :=
  match regiones with
  | [] => Ok area
  | (p, a) :: regiones' =>
      x_increment <- pydiv p poblacion_total ;;
      let y_prev :=
        if Qltb 0 poblacion_atendida_total
        then poblacion_atendida_acum / poblacion_atendida_total else 0 in
      let poblacion_atendida_acum := poblacion_atendida_acum + a in
      let y_new :=
        if Qltb 0 poblacion_atendida_total
        then poblacion_atendida_acum / poblacion_atendida_total else 0 in
      area_de_lorenz regiones' poblacion_total poblacion_atendida_total
        poblacion_atendida_acum (area + x_increment * (y_prev + y_new) / 2)
  end.

Definition calcular_indice_equidad (poblacion cobertura : list Q)
  : resultado Q :=
  if negb (List.length poblacion =? List.length cobertura)%nat
  then Lanza ValueError
  else
    let poblacion_atendida :=
      map (fun pc => fst pc * snd pc) (combine poblacion cobertura) in
    let regiones_ordenadas :=
      sorted_por (fun x => if Qltb 0 (fst x) then snd x / fst x else 0)
                 (combine poblacion poblacion_atendida) in
    let poblacion_total := sum (map fst regiones_ordenadas) in
    let poblacion_atendida_total := sum (map snd regiones_ordenadas) in
    area <- area_de_lorenz regiones_ordenadas poblacion_total
              poblacion_atendida_total 0 0 ;;
    let gini := 1 - 2 * area in
    Ok (1 - gini).

End Indicadores.

(** ** More sample objects *)

Module EjemplosExtra.

(** The practical model of the unit tests: the defaults, 10 trials of 12
    months. *)
Definition practico_de_prueba : Practico.UMSPractico :=
  Practico.mkUMSPractico Practico.datos_predeterminados
                         (Practico.mkParametros 10 12).

(** The same with no trial at all. *)
Definition practico_sin_pruebas : Practico.UMSPractico :=
  Practico.mkUMSPractico Practico.datos_predeterminados
                         (Practico.mkParametros 0 12).

(** Stored results whose statistics are those of a constant monthly demand
    of 192 attendances. *)
Definition estadistica_constante (q : Q) : Practico.estadistica_np :=
  Practico.Estad (Practico.mkEstadistica q q 0 q q q q).

Definition resultados_de_prueba : Practico.resultados_t :=
  Practico.mkResultados [Finito 192] [Finito 25931667]
    [Finito (1152 # 10000)] [Finito (768 # 1000)]
    (Some (Practico.mkEstadisticas
             (estadistica_constante 192)
             (estadistica_constante 25931667)
             (estadistica_constante (1152 # 10000))
             (estadistica_constante (768 # 1000)))).

(** A practical model of one trial of one month, for sweeps. *)
Definition practico_breve : Practico.UMSPractico :=
  Practico.mkUMSPractico Practico.datos_predeterminados
                         (Practico.mkParametros 1 1).

(** That model as [__init__] leaves its results: empty lists, no
    statistics. *)
Definition objeto_breve : Sensibilidad.modelo_t :=
  Sensibilidad.mkModelo practico_breve
    (Practico.mkResultados [] [] [] [] None).

End EjemplosExtra.

(** * Properties *)

(** ** Comparisons and the builtins *)

Section Builtins.

Lemma Qltb_lt (a b : Q) : Qltb a b = true <-> a < b.
Proof.
  unfold Qltb. rewrite negb_true_iff.
  split; intro H.
  - apply Qnot_le_lt. intro Hle. apply Qle_bool_iff in Hle. congruence.
  - destruct (Qle_bool b a) eqn:E; [|reflexivity].
    apply Qle_bool_iff in E. exfalso. apply (Qlt_not_le _ _ H E).
Qed.

Lemma Qltb_ge (a b : Q) : Qltb a b = false <-> b <= a.
Proof.
  unfold Qltb. rewrite negb_false_iff. apply Qle_bool_iff.
Qed.

Lemma Qle_bool_false (a b : Q) : Qle_bool a b = false <-> b < a.
Proof.
  rewrite <- Qltb_lt. unfold Qltb.
  destruct (Qle_bool a b); simpl; split; congruence.
Qed.

Lemma Qeq_bool_false (a b : Q) : Qeq_bool a b = false <-> ~ a == b.
Proof.
  split.
  - intros H E. apply Qeq_bool_iff in E. congruence.
  - intro H. destruct (Qeq_bool a b) eqn:E; [|reflexivity].
    apply Qeq_bool_iff in E. contradiction.
Qed.

Lemma pydiv_ok (a b : Q) : ~ b == 0 -> pydiv a b = Ok (a / b).
Proof.
  intro H. unfold pydiv. apply Qeq_bool_false in H. now rewrite H.
Qed.

Lemma pydiv_cero (a b : Q) : b == 0 -> pydiv a b = Lanza ZeroDivisionError.
Proof.
  intro H. unfold pydiv. apply Qeq_bool_iff in H. now rewrite H.
Qed.

Lemma pymin_le_l (a b : Q) : pymin a b <= a.
Proof.
  unfold pymin. destruct (Qltb b a) eqn:E.
  - apply Qltb_lt in E. now apply Qlt_le_weak.
  - apply Qle_refl.
Qed.

Lemma pymin_le_r (a b : Q) : pymin a b <= b.
Proof.
  unfold pymin. destruct (Qltb b a) eqn:E.
  - apply Qle_refl.
  - now apply Qltb_ge in E.
Qed.

Lemma pymin_glb (a b c : Q) : c <= a -> c <= b -> c <= pymin a b.
Proof.
  intros Ha Hb. unfold pymin. now destruct (Qltb b a).
Qed.

Lemma pymax_ge_r (a b : Q) : b <= pymax a b.
Proof.
  unfold pymax. destruct (Qltb a b) eqn:E.
  - apply Qle_refl.
  - now apply Qltb_ge in E.
Qed.

Lemma pymax_ge_l (a b : Q) : a <= pymax a b.
Proof.
  unfold pymax. destruct (Qltb a b) eqn:E.
  - apply Qltb_lt in E. now apply Qlt_le_weak.
  - apply Qle_refl.
Qed.

End Builtins.

(** ** The gap evaluator *)

Section PropiedadesBrechas.

Import Brechas.

Lemma asignar_alta (g : Q) :
  asignar_prioridad g = Alta <-> 1 # 2 <= Qabs g.
Proof.
  unfold asignar_prioridad.
  destruct (Qle_bool (1 # 2) (Qabs g)) eqn:E.
  - apply Qle_bool_iff in E. tauto.
  - apply Qle_bool_false in E.
    split; intro H.
    + destruct (Qle_bool (1 # 5) (Qabs g)); discriminate.
    + exfalso. apply (Qlt_not_le _ _ E H).
Qed.

Lemma asignar_media (g : Q) :
  asignar_prioridad g = Media <-> 1 # 5 <= Qabs g /\ Qabs g < 1 # 2.
Proof.
  unfold asignar_prioridad.
  destruct (Qle_bool (1 # 2) (Qabs g)) eqn:E.
  - apply Qle_bool_iff in E. split; [discriminate|].
    intros [_ H]. exfalso. apply (Qlt_not_le _ _ H E).
  - apply Qle_bool_false in E.
    destruct (Qle_bool (1 # 5) (Qabs g)) eqn:F.
    + apply Qle_bool_iff in F. tauto.
    + apply Qle_bool_false in F. split; [discriminate|].
      intros [H _]. exfalso. apply (Qlt_not_le _ _ F H).
Qed.

Lemma asignar_baja (g : Q) :
  asignar_prioridad g = Baja <-> Qabs g < 1 # 5.
Proof.
  unfold asignar_prioridad.
  destruct (Qle_bool (1 # 2) (Qabs g)) eqn:E.
  - apply Qle_bool_iff in E. split; [discriminate|].
    intro H. exfalso. apply (Qlt_not_le _ _ H). apply Qle_trans with (1 # 2).
    + discriminate.
    + exact E.
  - destruct (Qle_bool (1 # 5) (Qabs g)) eqn:F.
    + apply Qle_bool_iff in F. split; [discriminate|].
      intro H. exfalso. apply (Qlt_not_le _ _ H F).
    + apply Qle_bool_false in F. tauto.
Qed.

Lemma asignar_monotona (g1 g2 : Q) :
  Qabs g1 < Qabs g2 ->
  (orden_prioridad (asignar_prioridad g2)
   <= orden_prioridad (asignar_prioridad g1))%nat.
Proof.
  intro H.
  destruct (asignar_prioridad g1) eqn:E1;
    destruct (asignar_prioridad g2) eqn:E2; simpl; try lia; exfalso.
  - apply asignar_alta in E1. apply asignar_media in E2. lra.
  - apply asignar_alta in E1. apply asignar_baja in E2. lra.
  - apply asignar_media in E1. apply asignar_baja in E2. lra.
Qed.

(** Every entry of a matrix that [comparar_modelos] returns has its key
    among the four, its gap computed by [calcular_brecha_porcentual] (sign
    inverted for [costo_efectividad] only) and its priority assigned from
    its gap. *)
Lemma comparar_modelos_entrada (self self' : AnalisisBrechas) (m : matriz)
  (i : indicador) (d : datos_brecha) :
  comparar_modelos self = (Ok m, self') ->
  In (i, d) m ->
  prioridad_de d = asignar_prioridad (brecha d)
  /\ brecha d =
       calcular_brecha_porcentual (real d) (ideal d)
         (match i with costo_efectividad => true | _ => false end).
Proof.
  unfold comparar_modelos.
  destruct (vt_configuracion (modelo_teorico self)) as [cfg|].
  - destruct (vp_estadisticas (modelo_practico self)) as [est|];
      [|discriminate].
    intros H Hin. inversion H; subst; clear H.
    simpl in Hin.
    destruct Hin as [E|[E|[E|[E|[]]]]]; inversion E; subst; simpl; auto.
  - intros H Hin. inversion H; subst. destruct Hin.
Qed.

Lemma comparar_modelos_claves (self self' : AnalisisBrechas) (m : matriz) :
  comparar_modelos self = (Ok m, self') ->
  (m = [] /\ self' = self)
  \/ (map fst m = [cobertura; eficiencia; costo_efectividad; sostenibilidad]
      /\ matriz_brechas self' = m).
Proof.
  unfold comparar_modelos.
  destruct (vt_configuracion (modelo_teorico self)) as [cfg|].
  - destruct (vp_estadisticas (modelo_practico self)) as [est|];
      [|discriminate].
    intro H. inversion H; subst. right. split; reflexivity.
  - intro H. inversion H; subst. left. split; reflexivity.
Qed.

End PropiedadesBrechas.

Section ClasificacionDeBrechas.

Import Brechas Ejemplos.

(** C6.  Every gap that the gap evaluator stores gets the tier High exactly
    when its absolute value is at least 0.5, Medium exactly when it lies in
    [0.2, 0.5), and Low exactly when it is below 0.2; and of two stored gaps,
    the one with the smaller absolute value never has the stricter
    priority. *)
Theorem prioridad_por_tramos_monotona
  (sa sa' sb sb' : AnalisisBrechas) (ma mb : matriz)
  (i1 i2 : indicador) (d1 d2 : datos_brecha) :
  comparar_modelos sa = (Ok ma, sa') ->
  comparar_modelos sb = (Ok mb, sb') ->
  In (i1, d1) ma ->
  In (i2, d2) mb ->
  (prioridad_de d1 = Alta <-> 1 # 2 <= Qabs (brecha d1))
  /\ (prioridad_de d1 = Media <->
        1 # 5 <= Qabs (brecha d1) /\ Qabs (brecha d1) < 1 # 2)
  /\ (prioridad_de d1 = Baja <-> Qabs (brecha d1) < 1 # 5)
  /\ (Qabs (brecha d1) < Qabs (brecha d2) ->
      (orden_prioridad (prioridad_de d2)
       <= orden_prioridad (prioridad_de d1))%nat).
Proof.
  intros Ha Hb H1 H2.
  destruct (comparar_modelos_entrada _ _ _ _ _ Ha H1) as [P1 _].
  destruct (comparar_modelos_entrada _ _ _ _ _ Hb H2) as [P2 _].
  rewrite P1, P2.
  repeat split;
    try apply asignar_alta; try apply asignar_media; try apply asignar_baja;
    try apply asignar_monotona; auto.
Qed.

Lemma prioridad_por_tramos_monotona_witness :
  (prioridad_de entrada_eficiencia_ejemplo = Alta <->
     1 # 2 <= Qabs (brecha entrada_eficiencia_ejemplo))
  /\ (prioridad_de entrada_eficiencia_ejemplo = Media <->
        1 # 5 <= Qabs (brecha entrada_eficiencia_ejemplo)
        /\ Qabs (brecha entrada_eficiencia_ejemplo) < 1 # 2)
  /\ (prioridad_de entrada_eficiencia_ejemplo = Baja <->
        Qabs (brecha entrada_eficiencia_ejemplo) < 1 # 5)
  /\ (Qabs (brecha entrada_eficiencia_ejemplo)
      < Qabs (brecha entrada_cobertura_ejemplo) ->
      (orden_prioridad (prioridad_de entrada_cobertura_ejemplo)
       <= orden_prioridad (prioridad_de entrada_eficiencia_ejemplo))%nat).
Proof.
  apply (prioridad_por_tramos_monotona
           analisis_ejemplo (con_matriz analisis_ejemplo matriz_ejemplo)
           analisis_ejemplo (con_matriz analisis_ejemplo matriz_ejemplo)
           matriz_ejemplo matriz_ejemplo eficiencia cobertura).
  - reflexivity.
  - reflexivity.
  - simpl. auto.
  - simpl. auto.
Defined.






End ClasificacionDeBrechas.

(** ** The stable sort by key *)

Section OrdenEstable.

Import Brechas.

Context {A : Type} (key : A -> nat).








End OrdenEstable.

(** ** Recommendations *)

Section Recomendaciones.

Import Brechas Ejemplos.






(** Before the theoretical model has any result the comparison yields the
    empty matrix, and the generation the empty list. *)
Lemma generar_recomendaciones_sin_resultados (self : AnalisisBrechas) :
  matriz_brechas self = [] ->
  vt_configuracion (modelo_teorico self) = None ->
  generar_recomendaciones self = (Ok [], self).
Proof.
  intros Em Ec. unfold generar_recomendaciones, comparar_modelos.
  rewrite Em, Ec. now rewrite Em.
Qed.



(** C8 at its failing input: the stored matrix is empty, the theoretical
    model holds a configuration and the practical model has never been
    simulated, so that its statistics are the empty dict of [__init__].  The
    generation starts the comparison, whose two presence tests on the
    practical results both pass (the dict of results is not empty and has the
    key 'estadisticas'), and the lookup of the mean coverage raises
    [KeyError]: no list is returned, whatever the configuration, the
    efficiency and the sustainability goal.  On the sibling path, a
    theoretical model without results, the same tests do what they are there
    for and the generation returns the empty list. *)
Theorem recomendaciones_sin_simulacion_lanza (eficiencia_real : Q)
  (configuracion : configuracion_ideal) (sostenibilidad_ideal : Q) :
  let practico_sin_simular := mkVistaPractico None eficiencia_real in
  let self :=
    mkAnalisis practico_sin_simular
               (mkVistaTeorico (Some configuracion) sostenibilidad_ideal) [] in
  let sin_teorico :=
    mkAnalisis practico_sin_simular
               (mkVistaTeorico None sostenibilidad_ideal) [] in
  generar_recomendaciones self = (Lanza KeyError, self)
  /\ (forall l self', generar_recomendaciones self <> (Ok l, self'))
  /\ generar_recomendaciones sin_teorico = (Ok [], sin_teorico).
Proof.
  intros practico_sin_simular self sin_teorico.
  assert (E : generar_recomendaciones self = (Lanza KeyError, self))
    by reflexivity.
  split; [exact E|]. split; [|reflexivity].
  intros l self' H. rewrite E in H. discriminate.
Qed.

End Recomendaciones.

(** ** The compliance report *)

Section Cumplimiento.

Import Optimizacion Teorico Ejemplos.

Lemma pymax_uno_no_cero (c : Q) : ~ pymax c 1 == 0.
Proof.
  pose proof (pymax_ge_r c 1). lra.
Qed.

Lemma cociente_no_negativo (a g : Q) : 0 <= a -> 0 < g -> 0 <= a / g.
Proof.
  intros Ha Hg. apply Qle_shift_div_l; lra.
Qed.

Lemma tope_en_unidad (q : Q) : 0 <= q -> 0 <= pymin q 1 /\ pymin q 1 <= 1.
Proof.
  intro H. split.
  - apply pymin_glb; lra.
  - apply pymin_le_r.
Qed.

Lemma evaluar_sostenibilidad (m : metas) (config : decision)
  (c : cumplimiento_t) :
  evaluar m config = Ok c ->
  d_sostenibilidad (detallado c)
  = let real :=
      pymin (12 # 10) (sostenibilidad_min (financiero m) + (1 # 10)) in
    mkDetalle real (sostenibilidad_min (financiero m))
              (pymin (real / sostenibilidad_min (financiero m)) 1).
Proof.
  unfold evaluar, pydiv.
  repeat match goal with
         | |- context [Qeq_bool ?a ?b] => destruct (Qeq_bool a b)
         end; simpl; try discriminate.
  intro H. inversion H. reflexivity.
Qed.

Lemma evaluar_metodo (self self' : UMSTeorico) (config : decision) :
  configuracion (resultados self) = Some config ->
  _evaluar_cumplimiento_metas self = Ok self' ->
  exists c, evaluar (metas_ideales self) config = Ok c
            /\ cumplimiento (resultados self') = Some c
            /\ configuracion (resultados self') = Some config.
Proof.
  unfold _evaluar_cumplimiento_metas. intros E H. rewrite E in H.
  destruct (evaluar (metas_ideales self) config) as [c|]; simpl in H;
    [|discriminate].
  exists c. inversion H; subst. simpl. auto.
Qed.

(** C10.  For two compliance evaluations against the same goals, whatever
    the two resolved decision vectors, the sustainability entry of the
    report is the same: its actual value is [min(1.2, sostenibilidad_min +
    0.1)], its goal [sostenibilidad_min], and its score the capped quotient
    of those two; none of them depends on the configuration. *)
Theorem sostenibilidad_reportada_constante
  (s1 s2 s1' s2' : UMSTeorico) (x1 x2 : decision) :
  metas_ideales s1 = metas_ideales s2 ->
  configuracion (resultados s1) = Some x1 ->
  configuracion (resultados s2) = Some x2 ->
  _evaluar_cumplimiento_metas s1 = Ok s1' ->
  _evaluar_cumplimiento_metas s2 = Ok s2' ->
  let entrada_sostenibilidad (s : UMSTeorico) :=
    option_map (fun c => d_sostenibilidad (detallado c))
               (cumplimiento (resultados s)) in
  let sostenibilidad_min := sostenibilidad_min (financiero (metas_ideales s1)) in
  let sostenibilidad_real := pymin (12 # 10) (sostenibilidad_min + (1 # 10)) in
  entrada_sostenibilidad s1' = entrada_sostenibilidad s2'
  /\ entrada_sostenibilidad s1'
     = Some (mkDetalle sostenibilidad_real sostenibilidad_min
               (pymin (sostenibilidad_real / sostenibilidad_min) 1)).
Proof.
  intros Em Hx1 Hx2 H1 H2 entrada smin sreal.
  destruct (evaluar_metodo _ _ _ Hx1 H1) as [c1 [E1 [C1 _]]].
  destruct (evaluar_metodo _ _ _ Hx2 H2) as [c2 [E2 [C2 _]]].
  apply evaluar_sostenibilidad in E1, E2.
  unfold entrada, sreal, smin. rewrite C1, C2. simpl option_map.
  rewrite E1, E2, <- Em. split; reflexivity.
Qed.

Lemma sostenibilidad_reportada_constante_witness :
  option_map (fun c => d_sostenibilidad (detallado c))
    (cumplimiento
       (resultados
          (modelo_evaluado (mkDecision 30 (7 # 10) (8 # 10) 90000))))
  = option_map (fun c => d_sostenibilidad (detallado c))
      (cumplimiento
         (resultados (modelo_evaluado (mkDecision 45 (9 # 10) 1 60000)))).
Proof.
  apply (sostenibilidad_reportada_constante
           (modelo_resuelto (mkDecision 30 (7 # 10) (8 # 10) 90000))
           (modelo_resuelto (mkDecision 45 (9 # 10) 1 60000))
           (modelo_evaluado (mkDecision 30 (7 # 10) (8 # 10) 90000))
           (modelo_evaluado (mkDecision 45 (9 # 10) 1 60000))
           (mkDecision 30 (7 # 10) (8 # 10) 90000)
           (mkDecision 45 (9 # 10) 1 60000));
    reflexivity.
Defined.

End Cumplimiento.

Section CumplimientoAcotado.

Import Optimizacion Teorico Especificacion Ejemplos.

(** C9, as the code has it.  For a configuration whose capacity, efficiency
    and coverage are not negative, evaluated against goals whose coverage,
    efficiency, capacity and sustainability targets are positive and whose
    unit-cost target is not negative, the evaluation succeeds and the global
    score and the four category scores lie in [0, 1] -- whether or not the
    configuration lies inside the box of the solver. *)
Theorem cumplimiento_en_unidad (self : UMSTeorico) (x : decision) :
  configuracion (resultados self) = Some x ->
  0 <= capacidad_diaria x ->
  0 <= eficiencia_operativa x ->
  0 <= cobertura_objetivo x ->
  0 < poblacion_objetivo (cobertura (metas_ideales self)) ->
  0 < meta_eficiencia_operativa (operacion (metas_ideales self)) ->
  0 < capacidad_optima (operacion (metas_ideales self)) ->
  0 <= costo_unitario_max (financiero (metas_ideales self)) ->
  0 < sostenibilidad_min (financiero (metas_ideales self)) ->
  exists self' c,
    _evaluar_cumplimiento_metas self = Ok self'
    /\ cumplimiento (resultados self') = Some c
    /\ en_unidad (global c)
    /\ en_unidad (c_cobertura (por_categoria c))
    /\ en_unidad (c_operacion (por_categoria c))
    /\ en_unidad (c_financiero (por_categoria c))
    /\ en_unidad (c_calidad (por_categoria c)).
Proof.
  intros Ex Hcap Hef Hcob Gcob Gef Gcap Gcosto Gsos.
  unfold _evaluar_cumplimiento_metas. rewrite Ex.
  unfold evaluar.
  assert (Hmax : 0 < pymax (costo_unitario x) 1)
    by (pose proof (pymax_ge_r (costo_unitario x) 1); lra).
  assert (Hreal : 0 <= pymin (12 # 10)
                    (sostenibilidad_min (financiero (metas_ideales self))
                     + (1 # 10)))
    by (apply pymin_glb; lra).
  rewrite !pydiv_ok by lra.
  simpl bind.
  eexists. eexists.
  split; [reflexivity|]. split; [reflexivity|]. simpl.
  destruct (tope_en_unidad _ (cociente_no_negativo _ _ Hcob Gcob)) as [A1 A2].
  destruct (tope_en_unidad _ (cociente_no_negativo _ _ Hef Gef)) as [B1 B2].
  destruct (tope_en_unidad _ (cociente_no_negativo _ _ Hcap Gcap)) as [C1 C2].
  destruct (tope_en_unidad _ (cociente_no_negativo _ _ Gcosto Hmax))
    as [D1 D2].
  destruct (tope_en_unidad _ (cociente_no_negativo _ _ Hreal Gsos))
    as [E1 E2].
  revert A1 A2 B1 B2 C1 C2 D1 D2 E1 E2.
  generalize (pymin (cobertura_objetivo x
                     / poblacion_objetivo (cobertura (metas_ideales self))) 1).
  generalize (pymin (eficiencia_operativa x
                     / meta_eficiencia_operativa
                         (operacion (metas_ideales self))) 1).
  generalize (pymin (capacidad_diaria x
                     / capacidad_optima (operacion (metas_ideales self))) 1).
  generalize (pymin (costo_unitario_max (financiero (metas_ideales self))
                     / pymax (costo_unitario x) 1) 1).
  generalize (pymin (pymin (12 # 10)
                       (sostenibilidad_min (financiero (metas_ideales self))
                        + (1 # 10))
                     / sostenibilidad_min (financiero (metas_ideales self)))
                    1).
  intros s c k e b. intros.
  assert (Eop : (e + k) / 2 == (e + k) * (1 # 2)) by (field; lra).
  assert (Efi : (c + s) / 2 == (c + s) * (1 # 2)) by (field; lra).
  assert (Eca : (b + (e + k) / 2) / 2 == (b + (e + k) * (1 # 2)) * (1 # 2))
    by (field; lra).
  unfold en_unidad. rewrite Eca, Efi, Eop.
  repeat split; lra.
Qed.

Lemma cumplimiento_en_unidad_witness :
  exists self' c,
    _evaluar_cumplimiento_metas
      (modelo_resuelto (mkDecision 60 (99 # 100) (8 # 10) 130000)) = Ok self'
    /\ cumplimiento (resultados self') = Some c
    /\ en_unidad (global c)
    /\ en_unidad (c_cobertura (por_categoria c))
    /\ en_unidad (c_operacion (por_categoria c))
    /\ en_unidad (c_financiero (por_categoria c))
    /\ en_unidad (c_calidad (por_categoria c)).
Proof.
  apply (cumplimiento_en_unidad
           (modelo_resuelto (mkDecision 60 (99 # 100) (8 # 10) 130000))
           (mkDecision 60 (99 # 100) (8 # 10) 130000));
    [reflexivity | simpl; unfold Qle, Qlt; simpl; lia ..].
Defined.

(** C9, as stated, fails: in direct mode a configuration below the box, with
    a negative coverage target, is accepted as it is and its coverage score
    is negative. *)
Lemma cumplimiento_fuera_de_unidad :
  ~ (forall (minimize : solver) (self self' : UMSTeorico)
            (r : resultados_t) (c : cumplimiento_t),
        optimizar minimize self = (Ok r, self') ->
        cumplimiento r = Some c ->
        en_unidad (global c)
        /\ en_unidad (c_cobertura (por_categoria c))
        /\ en_unidad (c_operacion (por_categoria c))
        /\ en_unidad (c_financiero (por_categoria c))
        /\ en_unidad (c_calidad (por_categoria c))).
Proof.
  intro H.
  set (o := optimizar solver_que_lanza (modelo_directo (- (1 # 2)))).
  assert (Eo : o = (Ok (resultados (snd o)), snd o))
    by (vm_compute; reflexivity).
  destruct (cumplimiento (resultados (snd o))) as [c|] eqn:Ec;
    [|vm_compute in Ec; discriminate].
  destruct (H _ _ _ _ c Eo Ec) as [_ [[Hc _] _]].
  vm_compute in Ec. inversion Ec; subst c.
  vm_compute in Hc. apply Hc. reflexivity.
Qed.

End CumplimientoAcotado.

(** ** The optimizer *)

Section Optimizador.

Import Optimizacion Teorico Especificacion Ejemplos.

Lemma derivadas_lanza (x : decision) :
  cobertura_objetivo x == 0 -> derivadas x = Lanza ZeroDivisionError.
Proof.
  intro H. unfold derivadas.
  rewrite (pydiv_ok _ 1) by lra. simpl bind.
  rewrite pydiv_cero; [reflexivity|].
  rewrite H. field.
Qed.

(** Away from a zero coverage target the derivation computes the documented
    quantities. *)
Lemma derivadas_formulas (x : decision) :
  ~ cobertura_objetivo x == 0 ->
  exists e,
    derivadas x = Ok e
    /\ e_atenciones_mensuales e
       = capacidad_diaria x * eficiencia_operativa x * 20
    /\ e_poblacion_cubierta e = 10000 * cobertura_objetivo x
    /\ e_ums_requeridas_100k e == 100000 / e_poblacion_cubierta e
    /\ e_costo_total_mensual e = costo_unitario x * e_atenciones_mensuales e
    /\ (0 < e_poblacion_cubierta e ->
        e_costo_por_habitante_mes e
        = e_costo_total_mensual e / e_poblacion_cubierta e)
    /\ (e_poblacion_cubierta e <= 0 -> e_costo_por_habitante_mes e = 0).
Proof.
  intro H. unfold derivadas.
  assert (E1 : 10000 * cobertura_objetivo x / 1
               == 10000 * cobertura_objetivo x) by (field; lra).
  rewrite (pydiv_ok _ 1) by lra. simpl bind.
  rewrite (pydiv_ok 100000) by (rewrite E1; intro E; apply H; lra).
  simpl bind.
  destruct (Qltb 0 (10000 * cobertura_objetivo x)) eqn:E.
  - rewrite pydiv_ok by lra. simpl.
    eexists. split; [reflexivity|]. simpl.
    repeat split; try reflexivity.
    + field. lra.
    + intro Hle. apply Qltb_lt in E. lra.
  - simpl. eexists. split; [reflexivity|]. simpl.
    repeat split; try reflexivity.
    + field. lra.
    + intro Hlt. apply Qltb_ge in E. lra.
Qed.

(** C4 at its failing input: in direct mode a coverage target of 0 --
    whatever the goals, the constraints and the rest of the configuration --
    makes the derivation divide by the covered population, 0, for the implied
    units per 100k, and the [ZeroDivisionError] leaves [optimizar], with the
    bare configuration stored. *)
Theorem derivacion_cobertura_cero_lanza (minimize : solver) (m : metas)
  (rs : list restriccion) (capacidad eficiencia costo : Q)
  (previos : resultados_t) :
  let self :=
    mkUMSTeorico m rs (mkDecision capacidad eficiencia 0 costo) previos false in
  optimizar minimize self
  = (Lanza ZeroDivisionError,
     con_resultados self
       (solo_configuracion (mkDecision capacidad eficiencia 0 costo))).
Proof.
  intro self. unfold optimizar.
  cbn [usar_optimizacion self negb].
  unfold _calcular_estadisticas_derivadas.
  cbn [configuracion resultados con_resultados solo_configuracion
       configuracion_inicial self].
  rewrite derivadas_lanza by reflexivity.
  reflexivity.
Qed.

Lemma evaluar_ok (m : metas) (x : decision) :
  ~ poblacion_objetivo (cobertura m) == 0 ->
  ~ meta_eficiencia_operativa (operacion m) == 0 ->
  ~ capacidad_optima (operacion m) == 0 ->
  ~ sostenibilidad_min (financiero m) == 0 ->
  exists c, evaluar m x = Ok c.
Proof.
  intros H1 H2 H3 H4. unfold evaluar.
  rewrite !pydiv_ok by (auto using pymax_uno_no_cero).
  simpl. eexists. reflexivity.
Qed.

(** In solver mode the outcome of [optimizar] is a function of the final
    vector alone. *)
Lemma optimizar_con_solver (minimize : solver) (self : UMSTeorico)
  (res : OptimizeResult) :
  usar_optimizacion self = true ->
  minimize (problema_de self) = Ok res ->
  optimizar minimize self
  = let self1 := con_resultados self (solo_configuracion (x_final res)) in
    match _calcular_estadisticas_derivadas self1 with
    | Lanza _ => (Ok vacio, self1)
    | Ok self2 =>
        match _evaluar_cumplimiento_metas self2 with
        | Lanza _ => (Ok vacio, self2)
        | Ok self3 => (Ok (resultados self3), self3)
        end
    end.
Proof.
  intros Hu Hm. unfold optimizar. rewrite Hu, Hm. reflexivity.
Qed.

(** C2, as the code has it.  In solver mode no exception leaves [optimizar].
    When the solver raises, the explicit empty result is returned and the
    stored results are untouched.  When the solver returns, its convergence
    flag is never read: the outcome is that of a converged solver with the
    same final vector, and when no divisor is zero that vector is stored and
    returned as the configuration. *)
Theorem optimizar_sin_excepciones (minimize : solver) (self : UMSTeorico) :
  usar_optimizacion self = true ->
  (exists r, fst (optimizar minimize self) = Ok r)
  /\ (forall e, minimize (problema_de self) = Lanza e ->
                optimizar minimize self = (Ok vacio, self))
  /\ (forall res, minimize (problema_de self) = Ok res ->
        optimizar minimize self
        = optimizar (fun _ => Ok (mkOptimizeResult (x_final res) true)) self
        /\ (~ cobertura_objetivo (x_final res) == 0 ->
            ~ poblacion_objetivo (cobertura (metas_ideales self)) == 0 ->
            ~ meta_eficiencia_operativa (operacion (metas_ideales self)) == 0 ->
            ~ capacidad_optima (operacion (metas_ideales self)) == 0 ->
            ~ sostenibilidad_min (financiero (metas_ideales self)) == 0 ->
            exists r,
              optimizar minimize self
              = (Ok r, con_resultados self r)
              /\ configuracion r = Some (x_final res))).
Proof.
  intro Hu. split; [|split].
  - unfold optimizar. rewrite Hu. simpl negb. cbv iota.
    destruct (minimize (problema_de self)) as [res|e]; [|eexists; reflexivity].
    destruct (_calcular_estadisticas_derivadas _) as [s2|];
      [|eexists; reflexivity].
    destruct (_evaluar_cumplimiento_metas s2); eexists; reflexivity.
  - intros e He. unfold optimizar. rewrite Hu, He. reflexivity.
  - intros res Hres. split.
    + rewrite (optimizar_con_solver _ _ _ Hu Hres).
      now rewrite (optimizar_con_solver _ self
                     (mkOptimizeResult (x_final res) true) Hu eq_refl).
    + intros Hc G1 G2 G3 G4.
      rewrite (optimizar_con_solver _ _ _ Hu Hres). cbv zeta.
      destruct (derivadas_formulas _ Hc) as [e [He _]].
      destruct (evaluar_ok (metas_ideales self) (x_final res) G1 G2 G3 G4)
        as [c Hcu].
      unfold _calcular_estadisticas_derivadas.
      cbn [configuracion resultados con_resultados solo_configuracion].
      rewrite He. cbn [bind].
      unfold _evaluar_cumplimiento_metas.
      cbn [configuracion resultados con_resultados solo_configuracion
           metas_ideales].
      rewrite Hcu. cbn [bind].
      eexists. split; reflexivity.
Qed.

Lemma optimizar_sin_excepciones_witness :
  exists r, fst (optimizar solver_que_lanza modelo_predeterminado) = Ok r.
Proof.
  apply (optimizar_sin_excepciones solver_que_lanza modelo_predeterminado).
  reflexivity.
Defined.

(** C2, as stated, fails: a solver that reports non-convergence does not
    raise, so its final vector is stored and returned, not the empty
    result. *)
Lemma no_convergencia_devuelve_configuracion :
  ~ (forall (minimize : solver) (self : UMSTeorico) (res : OptimizeResult),
        usar_optimizacion self = true ->
        minimize (problema_de self) = Ok res ->
        success res = false ->
        fst (optimizar minimize self) = Ok vacio).
Proof.
  intro H.
  specialize (H solver_sin_convergencia modelo_predeterminado
                (mkOptimizeResult (configuracion_inicial modelo_predeterminado)
                                  false)
                eq_refl eq_refl eq_refl).
  vm_compute in H. discriminate.
Qed.

End Optimizador.

(** ** The objective of the solver *)

Section Objetivo.

Import Optimizacion Teorico Especificacion Ejemplos.

(** C3, as the code has it.  For goals none of which is zero: the objective
    that [optimizar] hands to the solver is
    [0.4 * (costo_unitario / costo_unitario_max)] plus [0.2] times each of
    the relative absolute deviations of capacity, efficiency and coverage
    from their goals; the objective of the module [optimizacion] is
    [0.4 * (costo_total / 25000000) + 0.6 * penalizacion_total], where
    [costo_total = 17291667 + capacidad * eficiencia * 20 * costo_unitario]
    and the penalty adds [0.25] times each of the four relative absolute
    deviations (capacity, efficiency, coverage, unit cost) and twice the
    sustainability shortfall. *)
Theorem objetivos_del_optimizador (self : UMSTeorico) (x : decision) :
  let m := metas_ideales self in
  ~ capacidad_optima (operacion m) == 0 ->
  ~ meta_eficiencia_operativa (operacion m) == 0 ->
  ~ poblacion_objetivo (cobertura m) == 0 ->
  ~ costo_unitario_max (financiero m) == 0 ->
  let desviacion_capacidad :=
    Qabs (capacidad_diaria x - capacidad_optima (operacion m))
    / capacidad_optima (operacion m) in
  let desviacion_eficiencia :=
    Qabs (eficiencia_operativa x - meta_eficiencia_operativa (operacion m))
    / meta_eficiencia_operativa (operacion m) in
  let desviacion_cobertura :=
    Qabs (cobertura_objetivo x - poblacion_objetivo (cobertura m))
    / poblacion_objetivo (cobertura m) in
  let desviacion_costo :=
    Qabs (costo_unitario x - costo_unitario_max (financiero m))
    / costo_unitario_max (financiero m) in
  fun_objetivo (problema_de self) x
  = Ok ((4 # 10) * (costo_unitario x / costo_unitario_max (financiero m))
        + (2 # 10) * desviacion_capacidad
        + (2 # 10) * desviacion_eficiencia
        + (2 # 10) * desviacion_cobertura)
  /\ Optimizacion.funcion_objetivo x m
     = Ok ((4 # 10) * (costo_total x / 25000000)
           + (6 # 10)
             * ((25 # 100) * desviacion_capacidad
                + (25 # 100) * desviacion_eficiencia
                + (25 # 100) * desviacion_cobertura
                + (25 # 100) * desviacion_costo
                + 2 * pymax 0 (sostenibilidad_min (financiero m)
                               - sostenibilidad x)))
  /\ costo_total x
     = 17291667
       + capacidad_diaria x * eficiencia_operativa x * 20 * costo_unitario x
  /\ (0 < costo_total x ->
      sostenibilidad x
      = capacidad_diaria x * eficiencia_operativa x * 20 * costo_unitario x
        * (11 # 10) / costo_total x).
Proof.
  intros m G1 G2 G3 G4 dcap def dcob dcos.
  split; [|split; [|split]].
  - unfold problema_de, fun_objetivo, funcion_objetivo. fold m.
    rewrite !pydiv_ok by assumption. reflexivity.
  - unfold Optimizacion.funcion_objetivo.
    rewrite !pydiv_ok by assumption. reflexivity.
  - reflexivity.
  - intro H. unfold sostenibilidad.
    apply Qltb_lt in H. now rewrite H.
Qed.

Lemma objetivos_del_optimizador_witness :
  fun_objetivo (problema_de modelo_predeterminado)
               (mkDecision 40 (8 # 10) 1 70000)
  = Ok ((4 # 10) * (70000 / 70000)
        + (2 # 10) * (Qabs (40 - 40) / 40)
        + (2 # 10) * (Qabs ((8 # 10) - (8 # 10)) / (8 # 10))
        + (2 # 10) * (Qabs (1 - 1) / 1)).
Proof.
  apply (objetivos_del_optimizador modelo_predeterminado
           (mkDecision 40 (8 # 10) 1 70000));
    simpl; unfold Qeq; simpl; lia.
Defined.

(** The goals of the defaults with another ceiling for the unit cost. *)
Lemma objetivo_depende_del_costo_maximo (costo_max : Q) :
  ~ costo_max == 0 ->
  Teorico.funcion_objetivo
    (mkMetas (cobertura metas_predeterminadas)
             (operacion metas_predeterminadas)
             (mkMetasFinanciero costo_max 1 (6 # 10))
             (calidad metas_predeterminadas))
    (mkDecision 40 (8 # 10) 1 70000)
  = Ok ((4 # 10) * (70000 / costo_max)
        + (2 # 10) * (Qabs (40 - 40) / 40)
        + (2 # 10) * (Qabs ((8 # 10) - (8 # 10)) / (8 # 10))
        + (2 # 10) * (Qabs (1 - 1) / 1)).
Proof.
  intro H. unfold Teorico.funcion_objetivo. simpl.
  rewrite !pydiv_ok; try reflexivity; try assumption;
    unfold Qeq; simpl; lia.
Qed.

(** C3, as stated, fails: whatever the weights of the penalty and the two
    reference costs, the objective that solver mode minimises is not the one
    of the specification -- it changes with the unit-cost goal, which the
    specification's formula does not read. *)
Lemma objetivo_del_solver_no_es_el_de_la_spec :
  ~ (exists (w : pesos) (fixed_reference_cost reference_cost : Q),
        forall (self : UMSTeorico) (x : decision) (v : Q),
          fun_objetivo (problema_de self) x = Ok v ->
          v == objetivo_segun_spec w fixed_reference_cost reference_cost x
                 (metas_ideales self)).
Proof.
  intros [w [fijo [ref H]]].
  pose (x := mkDecision 40 (8 # 10) 1 70000).
  pose (con_metas := fun costo_max =>
          mkUMSTeorico
            (mkMetas (cobertura metas_predeterminadas)
                     (operacion metas_predeterminadas)
                     (mkMetasFinanciero costo_max 1 (6 # 10))
                     (calidad metas_predeterminadas))
            [] x vacio true).
  assert (N1 : ~ 70000 == 0) by (unfold Qeq; simpl; lia).
  assert (N2 : ~ 140000 == 0) by (unfold Qeq; simpl; lia).
  pose proof (H (con_metas 70000) x _
                (objetivo_depende_del_costo_maximo 70000 N1)) as H1.
  pose proof (H (con_metas 140000) x _
                (objetivo_depende_del_costo_maximo 140000 N2)) as H2.
  assert (E : objetivo_segun_spec w fijo ref x (metas_ideales (con_metas 70000))
              = objetivo_segun_spec w fijo ref x
                  (metas_ideales (con_metas 140000))) by reflexivity.
  rewrite E in H1. rewrite <- H2 in H1.
  vm_compute in H1. discriminate.
Qed.

End Objetivo.

(** ** The simulator *)

Section Simulador.

Import Costos Simulacion Practico Ejemplos.

Lemma analizar_sostenibilidad_cero (ingresos costos : Q) :
  costos == 0 -> analizar_sostenibilidad ingresos costos = Infinito.
Proof.
  intro H. unfold analizar_sostenibilidad.
  apply Qeq_bool_iff in H. now rewrite H.
Qed.

Lemma analizar_sostenibilidad_no_cero (ingresos costos : Q) :
  ~ costos == 0 ->
  analizar_sostenibilidad ingresos costos = Finito (ingresos / costos).
Proof.
  intro H. unfold analizar_sostenibilidad.
  apply Qeq_bool_false in H. now rewrite H.
Qed.

Lemma simular_mes_campos (rng : fuente) (parametros : datos_operativos_t)
  (k k' : nat) (mes : mes_t) :
  simular_mes rng parametros k = Ok (mes, k') ->
  m_costos mes
  = calcular_costos_totales (m_demanda mes)
      (fijo_mensual (costos parametros))
      (variable_paciente (costos parametros))
  /\ m_sostenibilidad mes
     = analizar_sostenibilidad
         (m_demanda mes * costo_unitario_atencion (costos parametros))
         (m_costos mes).
Proof.
  unfold simular_mes.
  destruct (simular_dias _ _ _ _ _ _) as [[d k1]|]; [|discriminate].
  destruct (pydiv _ _); [|discriminate].
  intro H. inversion H; subst. split; reflexivity.
Qed.

(** C5, as the code has it.  In a simulated month whose cost is exactly zero
    the sustainability is the sentinel [inf], returned without dividing; in
    every other month, however small its cost, it is the revenue divided by
    that very cost.  No floor is substituted, and no division by zero takes
    place. *)
Theorem sostenibilidad_mensual (rng : fuente) (parametros : datos_operativos_t)
  (k k' : nat) (mes : mes_t) :
  simular_mes rng parametros k = Ok (mes, k') ->
  (m_costos mes == 0 -> m_sostenibilidad mes = Infinito)
  /\ (~ m_costos mes == 0 ->
      m_sostenibilidad mes
      = Finito (m_demanda mes * costo_unitario_atencion (costos parametros)
                / m_costos mes)).
Proof.
  intro H. destruct (simular_mes_campos _ _ _ _ _ H) as [_ E].
  rewrite E. split; intro Hc.
  - now apply analizar_sostenibilidad_cero.
  - now apply analizar_sostenibilidad_no_cero.
Qed.

Lemma sostenibilidad_mensual_witness :
  (m_costos mes_sin_costo == 0 -> m_sostenibilidad mes_sin_costo = Infinito)
  /\ (~ m_costos mes_sin_costo == 0 ->
      m_sostenibilidad mes_sin_costo
      = Finito (m_demanda mes_sin_costo
                * costo_unitario_atencion (costos datos_sin_costo)
                / m_costos mes_sin_costo)).
Proof.
  apply (sostenibilidad_mensual fuente_nula datos_sin_costo 0 20
                                mes_sin_costo).
  vm_compute. reflexivity.
Defined.

(** C5, as stated, fails: a month without cost has the sustainability [inf],
    which is not a finite number. *)
Lemma sostenibilidad_mensual_infinita :
  ~ (forall (rng : fuente) (parametros : datos_operativos_t) (k k' : nat)
            (mes : mes_t),
        simular_mes rng parametros k = Ok (mes, k') ->
        m_costos mes == 0 ->
        exists q, m_sostenibilidad mes = Finito q).
Proof.
  intro H.
  destruct (H fuente_nula datos_sin_costo 0%nat 20%nat mes_sin_costo)
    as [q Hq].
  - vm_compute. reflexivity.
  - vm_compute. reflexivity.
  - vm_compute in Hq. discriminate.
Qed.

End Simulador.

(** ** A negative efficiency *)

Section EficienciaNegativa.

Import Costos Simulacion Practico Especificacion Ejemplos.

Lemma suma_desde (l : list Q) (acc : Q) :
  Forall negativo l ->
  fold_left Qplus l acc <= acc /\ (l <> [] -> fold_left Qplus l acc < acc).
Proof.
  intro H. revert acc.
  induction H as [|x l Hx Hl IH]; intro acc; simpl.
  - split; [apply Qle_refl|congruence].
  - destruct (IH (acc + x)) as [Hle _]. unfold negativo in Hx.
    split; [|intros _]; lra.
Qed.

Lemma len_positiva (l : list Q) : l <> [] -> 0 < len l.
Proof.
  destruct l; [congruence|]. intros _.
  unfold len, Qlt, inject_Z. simpl. lia.
Qed.

Lemma media_negativa (l : list Q) :
  l <> [] -> Forall negativo l -> suma l / len l < 0.
Proof.
  intros Hne Hall.
  destruct (suma_desde l 0 Hall) as [_ Hlt].
  apply Qlt_shift_div_r.
  - now apply len_positiva.
  - unfold suma. specialize (Hlt Hne). lra.
Qed.

Variable rng : fuente.
Variable parametros : datos_operativos_t.

Let capacidad_diaria := pacientes_dia (capacidad parametros).
Let eficiencia_operativa := eficiencia (capacidad parametros).

Hypothesis capacidad_no_negativa : Qltb capacidad_diaria 0 = false.
Hypothesis capacidad_real_negativa : capacidad_diaria * eficiencia_operativa < 0.
Hypothesis dias_positivos : (0 < dias_mes (capacidad parametros))%Z.
Hypothesis poblacion_no_nula :
  ~ poblacion_objetivo (cobertura parametros) / 6 == 0.

(** Every day attends [capacidad_diaria * eficiencia], whatever the draw. *)
Lemma simular_dias_negativa (dias : nat) (acc : Q) (k : nat) :
  exists v k',
    simular_dias rng capacidad_diaria eficiencia_operativa dias acc k
    = Ok (v, k')
    /\ v <= acc /\ (dias <> O -> v < acc).
Proof.
  revert acc k. induction dias as [|dias IH]; intros acc k; simpl.
  - exists acc, k. split; [reflexivity|]. split; [apply Qle_refl|congruence].
  - unfold generar_demanda_diaria. rewrite capacidad_no_negativa.
    set (d := inject_Z (Z.of_nat (rng k capacidad_diaria))).
    assert (Hd : 0 <= d).
    { unfold d, Qle, inject_Z. simpl. lia. }
    assert (Hmin : pymin d (capacidad_diaria * eficiencia_operativa)
                   = capacidad_diaria * eficiencia_operativa).
    { unfold pymin.
      assert (Hlt : Qltb (capacidad_diaria * eficiencia_operativa) d = true)
        by (apply Qltb_lt; lra).
      now rewrite Hlt. }
    rewrite Hmin.
    destruct (IH (acc + capacidad_diaria * eficiencia_operativa) (S k))
      as [v [k' [E [Hle _]]]].
    exists v, k'. split; [exact E|]. split; [|intros _]; lra.
Qed.

Lemma simular_mes_negativa (k : nat) :
  exists mes k',
    simular_mes rng parametros k = Ok (mes, k') /\ m_demanda mes < 0.
Proof.
  unfold simular_mes.
  destruct (simular_dias_negativa
              (Z.to_nat (dias_mes (capacidad parametros))) 0 k)
    as [v [k' [E [_ Hlt]]]].
  fold capacidad_diaria eficiencia_operativa. rewrite E.
  rewrite pydiv_ok by exact poblacion_no_nula.
  eexists. eexists. split; [reflexivity|]. simpl.
  apply Hlt. lia.
Qed.

Lemma simular_meses_negativa (meses : nat) (k : nat) :
  exists ms k',
    simular_meses rng parametros meses k = Ok (ms, k')
    /\ List.length ms = meses
    /\ Forall negativo (map m_demanda ms).
Proof.
  revert k. induction meses as [|meses IH]; intro k; simpl.
  - exists [], k. repeat split. constructor.
  - destruct (simular_mes_negativa k) as [m [k1 [E Hm]]]. rewrite E.
    destruct (IH k1) as [ms [k2 [E2 [Hl Hall]]]]. rewrite E2.
    exists (m :: ms), k2. split; [reflexivity|].
    split; [simpl; congruence|]. now constructor.
Qed.

Lemma _simular_operacion_negativa (horizonte : Z) (k : nat) :
  (0 < horizonte)%Z ->
  exists p k' q,
    _simular_operacion rng parametros horizonte k = Ok (p, k')
    /\ p_demanda p = Finito q /\ q < 0.
Proof.
  intro Hh. unfold _simular_operacion.
  destruct (simular_meses_negativa (Z.to_nat horizonte) k)
    as [ms [k' [E [Hl Hall]]]].
  rewrite E.
  assert (Hne : map m_demanda ms <> []).
  { destruct ms; simpl in *; [lia|congruence]. }
  eexists. exists k'. exists (suma (map m_demanda ms) / len (map m_demanda ms)).
  split; [reflexivity|]. simpl. split.
  - unfold np_mean. destruct (map m_demanda ms); [congruence|reflexivity].
  - now apply media_negativa.
Qed.

Lemma simular_pruebas_negativa (horizonte : Z) (n : nat) (k : nat) :
  (0 < horizonte)%Z ->
  exists ps k' qs,
    simular_pruebas rng parametros horizonte n k = Ok (ps, k')
    /\ List.length ps = n
    /\ map p_demanda ps = map Finito qs
    /\ Forall negativo qs.
Proof.
  intro Hh. revert k. induction n as [|n IH]; intro k; simpl.
  - exists [], k, []. repeat split. constructor.
  - destruct (_simular_operacion_negativa horizonte k Hh)
      as [p [k1 [q [E [Hp Hq]]]]].
    rewrite E.
    destruct (IH k1) as [ps [k2 [qs [E2 [Hl [Hm Hall]]]]]]. rewrite E2.
    exists (p :: ps), k2, (q :: qs). split; [reflexivity|].
    split; [simpl; congruence|].
    split; [simpl; congruence|]. now constructor.
Qed.

Lemma finitos_map (qs : list Q) : finitos (map Finito qs) = Some qs.
Proof.
  induction qs as [|q qs IH]; simpl; [reflexivity|]. now rewrite IH.
Qed.

Lemma calcular_estadistica_ok (datos : list flotante) :
  datos <> [] -> exists e, calcular_estadistica datos = Ok e.
Proof.
  intro H. unfold calcular_estadistica.
  destruct datos; [congruence|].
  destruct (finitos (f :: datos)); eexists; reflexivity.
Qed.

(** With a negative real capacity the simulation completes and the mean of
    the demand is negative. *)
Lemma simular_demanda_negativa (horizonte num : Z) (k : nat) :
  (0 < horizonte)%Z -> (0 < num)%Z ->
  exists r k' est d,
    simular rng (mkUMSPractico parametros (mkParametros num horizonte)) k
    = Ok (r, k')
    /\ r_estadisticas r = Some est
    /\ e_demanda est = Estad d
    /\ media d < 0.
Proof.
  intros Hh Hn. unfold simular. simpl.
  destruct (simular_pruebas_negativa horizonte (Z.to_nat num) k Hh)
    as [ps [k' [qs [E [Hl [Hm Hall]]]]]].
  rewrite E.
  assert (Hps : ps <> []) by (destruct ps; simpl in *; [lia|congruence]).
  assert (Hqs : qs <> []).
  { destruct qs; [|congruence]. destruct ps; simpl in *; congruence. }
  unfold _calcular_estadisticas.
  assert (Ed : calcular_estadistica (map p_demanda ps)
               = Ok (Estad (estadistica_de qs))).
  { rewrite Hm. unfold calcular_estadistica. rewrite finitos_map.
    destruct qs; [congruence|reflexivity]. }
  rewrite Ed. simpl bind.
  destruct (calcular_estadistica_ok (map p_costos ps)) as [ec Ec];
    [destruct ps; simpl; congruence|].
  destruct (calcular_estadistica_ok (map p_cobertura ps)) as [eb Eb];
    [destruct ps; simpl; congruence|].
  destruct (calcular_estadistica_ok (map p_sostenibilidad ps)) as [es Es];
    [destruct ps; simpl; congruence|].
  rewrite Ec, Eb, Es. simpl.
  eexists. eexists. eexists. eexists.
  split; [reflexivity|]. simpl.
  split; [reflexivity|]. simpl.
  split; [reflexivity|]. simpl.
  now apply media_negativa.
Qed.

End EficienciaNegativa.

Section ValoresInvalidos.

Import Simulacion Practico Ejemplos.

(** C1 at its failing input, the one of [test_valores_invalidos]: with the
    efficiency [-0.1] and the other defaults, for every random source the
    simulation completes and the mean of the demand is negative, where the
    test asserts it to be at least 0. *)
Theorem simular_eficiencia_negativa (rng : fuente) (k : nat) :
  exists r k' est d,
    simular rng practico_eficiencia_negativa k = Ok (r, k')
    /\ r_estadisticas r = Some est
    /\ e_demanda est = Estad d
    /\ media d < 0.
Proof.
  apply (simular_demanda_negativa rng
           (datos_operativos practico_eficiencia_negativa)).
  - reflexivity.
  - reflexivity.
  - reflexivity.
  - vm_compute. discriminate.
  - reflexivity.
  - reflexivity.
Qed.

(** A negative daily capacity is rejected by the random source of numpy:
    the simulation raises. *)
Lemma simular_capacidad_negativa_lanza (rng : fuente) (k : nat) :
  simular rng
    (mkUMSPractico
       (mkDatosOperativos
          (mkCapacidad (- (1)) 20 (4 # 10))
          (costos datos_predeterminados)
          (cobertura datos_predeterminados))
       (mkParametros 10 12)) k
  = Lanza ValueError.
Proof.
  reflexivity.
Qed.

End ValoresInvalidos.

(** ** The cost primitives together *)

Section PuntoDeEquilibrio.

Import Costos.

(** X1.  With a price above the variable cost the break-even point is a
    number of attendances at which revenue equals total cost, and revenue
    covers the cost of [a] attendances exactly when [a] reaches it; with a
    price at or below the variable cost there is none ([inf]). *)
Theorem punto_equilibrio_umbral (costos_fijos costo_variable precio : Q) :
  (precio <= costo_variable ->
   calcular_punto_equilibrio costos_fijos costo_variable precio = Infinito)
  /\ (costo_variable < precio ->
      exists n,
        calcular_punto_equilibrio costos_fijos costo_variable precio
        = Finito n
        /\ n * precio == calcular_costos_totales n costos_fijos costo_variable
        /\ forall a : Q,
             calcular_costos_totales a costos_fijos costo_variable
             <= a * precio
             <-> n <= a).
Proof.
  unfold calcular_punto_equilibrio, calcular_costos_totales. split.
  - intro H. apply Qle_bool_iff in H. now rewrite H.
  - intro H.
    assert (Hb : Qle_bool precio costo_variable = false)
      by now apply Qle_bool_false.
    rewrite Hb. eexists. split; [reflexivity|].
    assert (Hd : 0 < precio - costo_variable) by lra.
    set (n := costos_fijos / (precio - costo_variable)).
    assert (En : n * (precio - costo_variable) == costos_fijos)
      by (unfold n; field; lra).
    split; [lra|].
    intro a. split; intro Ha.
    + apply Qle_shift_div_r; [exact Hd|lra].
    + assert (n * (precio - costo_variable)
              <= a * (precio - costo_variable))
        by (apply Qmult_le_compat_r; lra).
      lra.
Qed.

(** X2.  With a price above the variable cost and a positive monthly cost,
    the sustainability ratio of [a] attendances is a finite number, and it is
    at least 1 exactly when [a] reaches the break-even point. *)
Theorem sostenible_desde_el_punto_equilibrio
  (costos_fijos costo_variable precio a : Q) :
  costo_variable < precio ->
  0 < calcular_costos_totales a costos_fijos costo_variable ->
  exists n q,
    calcular_punto_equilibrio costos_fijos costo_variable precio = Finito n
    /\ analizar_sostenibilidad (a * precio)
         (calcular_costos_totales a costos_fijos costo_variable)
       = Finito q
    /\ (1 <= q <-> n <= a).
Proof.
  intros Hp Hc.
  unfold calcular_punto_equilibrio, analizar_sostenibilidad.
  assert (Hb : Qle_bool precio costo_variable = false)
    by now apply Qle_bool_false.
  assert (Hz : Qeq_bool
                 (calcular_costos_totales a costos_fijos costo_variable) 0
               = false) by (apply Qeq_bool_false; lra).
  rewrite Hb, Hz. eexists. eexists.
  split; [reflexivity|]. split; [reflexivity|].
  unfold calcular_costos_totales in *.
  assert (Hd : 0 < precio - costo_variable) by lra.
  set (n := costos_fijos / (precio - costo_variable)).
  assert (En : n * (precio - costo_variable) == costos_fijos)
    by (unfold n; field; lra).
  set (c := costos_fijos + a * costo_variable) in *.
  set (q := a * precio / c).
  assert (Eq : q * c == a * precio) by (unfold q; field; lra).
  split; intro H.
  - assert (1 * c <= q * c) by (apply Qmult_le_compat_r; lra).
    apply Qle_shift_div_r; [exact Hd|]. unfold c in *. lra.
  - apply Qle_shift_div_l; [exact Hc|].
    assert (n * (precio - costo_variable)
            <= a * (precio - costo_variable))
      by (apply Qmult_le_compat_r; lra).
    unfold c. lra.
Qed.

Lemma sostenible_desde_el_punto_equilibrio_witness :
  exists n q,
    calcular_punto_equilibrio 17291667 45000 103750 = Finito n
    /\ analizar_sostenibilidad (192 * 103750)
         (calcular_costos_totales 192 17291667 45000)
       = Finito q
    /\ (1 <= q <-> n <= 192).
Proof.
  apply (sostenible_desde_el_punto_equilibrio 17291667 45000 103750 192);
    unfold calcular_costos_totales, Qlt; simpl; lia.
Defined.

End PuntoDeEquilibrio.

(** ** numpy reductions within bounds *)

Section Reducciones.

Import Practico Cotas.

Lemma len_cons (x : Q) (l : list Q) : len (x :: l) == 1 + len l.
Proof.
  unfold len. simpl List.length.
  rewrite Nat2Z.inj_succ. unfold Z.succ. rewrite inject_Z_plus.
  change (inject_Z 1) with 1. ring.
Qed.

Lemma len_no_negativa (l : list Q) : 0 <= len l.
Proof.
  unfold len, Qle, inject_Z. simpl. lia.
Qed.

Lemma len_cons_positiva (x : Q) (l : list Q) : 0 < len (x :: l).
Proof.
  rewrite len_cons. pose proof (len_no_negativa l). lra.
Qed.

Lemma fold_suma_cotas (lo hi : Q) (l : list Q) (acc : Q) :
  Forall (entre lo hi) l ->
  acc + len l * lo <= fold_left Qplus l acc
  /\ fold_left Qplus l acc <= acc + len l * hi.
Proof.
  intro H. revert acc.
  induction H as [|x l [Hx1 Hx2] Hl IH]; intro acc.
  - simpl. unfold len. simpl. change (inject_Z 0) with 0. split; lra.
  - simpl fold_left. destruct (IH (acc + x)) as [I1 I2].
    rewrite len_cons. split; lra.
Qed.

Lemma media_entre (lo hi : Q) (l : list Q) :
  l <> [] -> Forall (entre lo hi) l -> entre lo hi (suma l / len l).
Proof.
  intros Hne H. destruct l as [|x l]; [congruence|].
  pose proof (len_cons_positiva x l) as Hp.
  destruct (fold_suma_cotas lo hi (x :: l) 0 H) as [H1 H2].
  unfold suma. split.
  - apply Qle_shift_div_l; [exact Hp|]. lra.
  - apply Qle_shift_div_r; [exact Hp|]. lra.
Qed.

Lemma fold_suma_no_negativa (l : list Q) (acc : Q) :
  Forall (fun x => 0 <= x) l -> acc <= fold_left Qplus l acc.
Proof.
  intro H. revert acc.
  induction H as [|x l Hx Hl IH]; intro acc; simpl.
  - apply Qle_refl.
  - specialize (IH (acc + x)). lra.
Qed.

Lemma np_var_no_negativa (l : list Q) : l <> [] -> 0 <= np_var l.
Proof.
  intro Hne. destruct l as [|x l]; [congruence|].
  unfold np_var.
  apply Qle_shift_div_l; [apply len_cons_positiva|].
  unfold suma.
  assert (H : Forall (fun y => 0 <= y)
                (map (fun y => (y - suma (x :: l) / len (x :: l))
                               * (y - suma (x :: l) / len (x :: l)))
                     (x :: l))).
  { apply Forall_map, Forall_forall. intros y _.
    generalize (y - suma (x :: l) / len (x :: l)). intro z. nra. }
  pose proof (fold_suma_no_negativa _ 0 H). unfold suma in *. lra.
Qed.

Lemma insertar_q_perm (x : Q) (l : list Q) :
  Permutation (insertar_q x l) (x :: l).
Proof.
  induction l as [|y l IH]; simpl.
  - apply Permutation_refl.
  - destruct (Qle_bool x y).
    + apply Permutation_refl.
    + apply perm_trans with (y :: x :: l).
      * now apply perm_skip.
      * apply perm_swap.
Qed.

Lemma np_sort_perm (l : list Q) : Permutation (np_sort l) l.
Proof.
  induction l as [|x l IH]; simpl.
  - apply perm_nil.
  - apply perm_trans with (x :: np_sort l).
    + apply insertar_q_perm.
    + now apply perm_skip.
Qed.

Lemma orden_entre (lo hi : Q) (l : list Q) (i : nat) :
  Forall (entre lo hi) l ->
  (i < List.length l)%nat ->
  entre lo hi (nth i (np_sort l) 0).
Proof.
  intros H Hi.
  assert (Hs : Forall (entre lo hi) (np_sort l))
    by (apply (Permutation_Forall (Permutation_sym (np_sort_perm l))), H).
  apply Forall_nth; [exact Hs|].
  now rewrite (Permutation_length (np_sort_perm l)).
Qed.

Lemma np_median_entre (lo hi : Q) (l : list Q) :
  l <> [] -> Forall (entre lo hi) l -> entre lo hi (np_median l).
Proof.
  intros Hne H.
  assert (Hn : (0 < List.length l)%nat)
    by (destruct l; [congruence|simpl; lia]).
  assert (H2 : (List.length l / 2 < List.length l)%nat)
    by (apply Nat.div_lt; lia).
  unfold np_median.
  destruct (Nat.even (List.length l)).
  - destruct (orden_entre lo hi l (List.length l / 2 - 1) H) as [A1 A2];
      [lia|].
    destruct (orden_entre lo hi l (List.length l / 2) H H2) as [B1 B2].
    split.
    + apply Qle_shift_div_l; lra.
    + apply Qle_shift_div_r; lra.
  - now apply orden_entre.
Qed.

Lemma np_percentile_entre (lo hi : Q) (l : list Q) (q : nat) :
  (q <= 100)%nat ->
  l <> [] -> Forall (entre lo hi) l -> entre lo hi (np_percentile l q).
Proof.
  intros Hq Hne H.
  assert (Hn : (0 < List.length l)%nat)
    by (destruct l; [congruence|simpl; lia]).
  unfold np_percentile.
  set (pos := (q * (List.length l - 1))%nat).
  assert (Hlo : (pos / 100 <= List.length l - 1)%nat).
  { apply Nat.Div0.div_le_upper_bound. unfold pos. nia. }
  destruct (orden_entre lo hi l (pos / 100) H) as [A1 A2]; [lia|].
  destruct (orden_entre lo hi l
              (Nat.min (S (pos / 100)) (List.length l - 1)) H) as [B1 B2];
    [lia|].
  set (g := inject_Z (Z.of_nat (pos mod 100)) / 100).
  assert (Hg : 0 <= g /\ g <= 1).
  { assert (Hm : (pos mod 100 < 100)%nat)
      by (apply Nat.mod_upper_bound; lia).
    generalize dependent (pos mod 100)%nat. intros r g Hm.
    unfold g. split.
    - apply Qle_shift_div_l; [lra|].
      unfold Qle, inject_Z. cbn [Qnum Qden Qmult]. lia.
    - apply Qle_shift_div_r; [lra|].
      unfold Qle, inject_Z. cbn [Qnum Qden Qmult]. lia. }
  unfold entre. nra.
Qed.

Lemma fold_min_entre (lo hi : Q) (l : list Q) (x : Q) :
  entre lo hi x -> Forall (entre lo hi) l ->
  entre lo hi (fold_left Qmin l x).
Proof.
  intros Hx H. revert x Hx.
  induction H as [|y l [Hy1 Hy2] Hl IH]; intros x [Hx1 Hx2]; simpl.
  - now split.
  - apply IH. split.
    + now apply Q.min_glb.
    + apply Qle_trans with x; [apply Q.le_min_l|exact Hx2].
Qed.

Lemma fold_max_entre (lo hi : Q) (l : list Q) (x : Q) :
  entre lo hi x -> Forall (entre lo hi) l ->
  entre lo hi (fold_left Qmax l x).
Proof.
  intros Hx H. revert x Hx.
  induction H as [|y l [Hy1 Hy2] Hl IH]; intros x [Hx1 Hx2]; simpl.
  - now split.
  - apply IH. split.
    + apply Qle_trans with x; [exact Hx1|apply Q.le_max_l].
    + now apply Q.max_lub.
Qed.

Lemma estadistica_de_entre (lo hi : Q) (l : list Q) :
  l <> [] -> Forall (entre lo hi) l ->
  estadistica_entre lo hi (estadistica_de l).
Proof.
  intros Hne H. unfold estadistica_entre, estadistica_de.
  cbn [media mediana desviacion_cuadrado min max percentil_25 percentil_75].
  assert (Hx : exists x l', l = x :: l' /\ entre lo hi x
                            /\ Forall (entre lo hi) l').
  { destruct l as [|x l']; [congruence|]. exists x, l'.
    inversion H; subst. auto. }
  destruct Hx as [x [l' [El [Hx Hl']]]].
  split; [now apply media_entre|].
  split; [now apply np_median_entre|].
  split; [rewrite El; now apply fold_min_entre|].
  split; [rewrite El; now apply fold_max_entre|].
  split; [apply np_percentile_entre; [lia|assumption|assumption]|].
  split; [apply np_percentile_entre; [lia|assumption|assumption]|].
  now apply np_var_no_negativa.
Qed.

Lemma finitos_entre (lo hi : Q) (l : list flotante) :
  Forall (finito_entre lo hi) l ->
  exists qs, l = map Finito qs /\ Forall (entre lo hi) qs.
Proof.
  induction 1 as [|x l [q [Eq Hq]] Hl [qs [El Hqs]]].
  - exists []. split; [reflexivity|constructor].
  - exists (q :: qs). subst. split; [reflexivity|now constructor].
Qed.

End Reducciones.

(** ** The simulation on valid operating data *)

Section SimulacionValida.

Import Costos Simulacion Practico Cotas Ejemplos.

Variable rng : fuente.

Lemma simular_dias_cotas (capacidad_diaria eficiencia : Q)
  (n : nat) (acc : Q) (k : nat) :
  0 <= capacidad_diaria -> 0 <= eficiencia ->
  exists v,
    simular_dias rng capacidad_diaria eficiencia n acc k = Ok (v, (k + n)%nat)
    /\ acc <= v
    /\ v <= acc + inject_Z (Z.of_nat n) * (capacidad_diaria * eficiencia).
Proof.
  intros Hc He. revert acc k.
  induction n as [|n IH]; intros acc k.
  - exists acc. simpl. rewrite Nat.add_0_r.
    change (inject_Z 0) with 0. repeat split; lra.
  - simpl simular_dias. unfold generar_demanda_diaria.
    assert (Hb : Qltb capacidad_diaria 0 = false) by now apply Qltb_ge.
    rewrite Hb.
    set (d := inject_Z (Z.of_nat (rng k capacidad_diaria))).
    assert (Hd : 0 <= d) by (unfold d, Qle, inject_Z; simpl; lia).
    assert (Hce : 0 <= capacidad_diaria * eficiencia) by nra.
    pose proof (pymin_le_r d (capacidad_diaria * eficiencia)) as Hr.
    pose proof (pymin_glb d (capacidad_diaria * eficiencia) 0 Hd Hce) as Hl.
    destruct (IH (acc + pymin d (capacidad_diaria * eficiencia)) (S k))
      as [v [E [H1 H2]]].
    exists v. rewrite E.
    replace (S k + n)%nat with (k + S n)%nat by lia.
    split; [reflexivity|].
    rewrite Nat2Z.inj_succ. unfold Z.succ. rewrite inject_Z_plus.
    change (inject_Z 1) with 1. split; nra.
Qed.

Lemma poblacion_atendible_positiva (parametros : datos_operativos_t) :
  0 < poblacion_objetivo (cobertura parametros) ->
  0 < poblacion_objetivo (cobertura parametros) / 6.
Proof.
  intro H. apply Qlt_shift_div_l; lra.
Qed.

Lemma simular_mes_cotas (parametros : datos_operativos_t) (k : nat) :
  datos_validos parametros ->
  exists mes,
    simular_mes rng parametros k = Ok (mes, (k + dias parametros)%nat)
    /\ mes_valido parametros mes.
Proof.
  intros [Hc [He [Hf [Hv [Hu Hp]]]]].
  unfold simular_mes.
  destruct (simular_dias_cotas _ _ (dias parametros) 0 k Hc He)
    as [d [E [D1 D2]]].
  fold (dias parametros). rewrite E.
  pose proof (poblacion_atendible_positiva parametros Hp) as Hpa.
  rewrite pydiv_ok by lra.
  assert (Hcap : d <= capacidad_mensual parametros)
    by (unfold capacidad_mensual; lra).
  assert (Hcm : 0 <= capacidad_mensual parametros) by lra.
  set (c := calcular_costos_totales d (fijo_mensual (costos parametros))
              (variable_paciente (costos parametros))).
  assert (Hcos : fijo_mensual (costos parametros) <= c
                 /\ c <= fijo_mensual (costos parametros)
                         + capacidad_mensual parametros
                           * variable_paciente (costos parametros))
    by (unfold c, calcular_costos_totales; split; nra).
  rewrite analizar_sostenibilidad_no_cero by lra.
  eexists. split; [reflexivity|].
  unfold mes_valido, entre, finito_entre.
  cbn [m_demanda m_costos m_cobertura m_sostenibilidad]. fold c.
  split; [split; lra|]. split; [exact Hcos|]. split.
  - split.
    + apply pymin_glb; [lra|]. apply Qle_shift_div_l; lra.
    + apply pymin_le_l.
  - eexists. split; [reflexivity|].
    set (u := costo_unitario_atencion (costos parametros)) in *.
    set (f := fijo_mensual (costos parametros)) in *.
    assert (Hdu : 0 <= d * u) by nra.
    assert (Hdu2 : d * u <= capacidad_mensual parametros * u) by nra.
    split.
    + apply Qle_shift_div_l; lra.
    + apply Qle_shift_div_r; [lra|].
      set (t := capacidad_mensual parametros * u / f).
      assert (Et : t * f == capacidad_mensual parametros * u)
        by (unfold t; field; lra).
      assert (0 <= t) by (unfold t; apply Qle_shift_div_l; lra).
      nra.
Qed.

Lemma simular_meses_cotas (parametros : datos_operativos_t) (n k : nat) :
  datos_validos parametros ->
  exists ms,
    simular_meses rng parametros n k
    = Ok (ms, (k + n * dias parametros)%nat)
    /\ List.length ms = n
    /\ Forall (mes_valido parametros) ms.
Proof.
  intro Hv. revert k. induction n as [|n IH]; intro k.
  - exists []. simpl. rewrite Nat.add_0_r. repeat split. constructor.
  - simpl simular_meses.
    destruct (simular_mes_cotas parametros k Hv) as [m [E Hm]]. rewrite E.
    destruct (IH (k + dias parametros)%nat) as [ms [E2 [Hl Hall]]].
    rewrite E2. exists (m :: ms).
    replace (k + dias parametros + n * dias parametros)%nat
      with (k + S n * dias parametros)%nat by lia.
    split; [reflexivity|]. split; [simpl; congruence|now constructor].
Qed.

Lemma np_mean_entre (lo hi : Q) (l : list Q) :
  l <> [] -> Forall (entre lo hi) l -> finito_entre lo hi (np_mean l).
Proof.
  intros Hne H. unfold np_mean, finito_entre.
  destruct l as [|x l]; [congruence|].
  eexists. split; [reflexivity|]. now apply media_entre.
Qed.

Lemma np_mean_flotante_entre (lo hi : Q) (l : list flotante) :
  l <> [] -> Forall (finito_entre lo hi) l ->
  finito_entre lo hi (np_mean_flotante l).
Proof.
  intros Hne H. destruct (finitos_entre lo hi l H) as [qs [El Hqs]].
  unfold np_mean_flotante. rewrite El, finitos_map.
  apply np_mean_entre; [|exact Hqs].
  destruct qs; [subst; simpl in Hne; congruence|congruence].
Qed.

Lemma _simular_operacion_cotas (parametros : datos_operativos_t)
  (horizonte : Z) (k : nat) :
  datos_validos parametros -> (0 < horizonte)%Z ->
  exists p,
    _simular_operacion rng parametros horizonte k
    = Ok (p, (k + Z.to_nat horizonte * dias parametros)%nat)
    /\ prueba_valida parametros p.
Proof.
  intros Hv Hh. unfold _simular_operacion.
  destruct (simular_meses_cotas parametros (Z.to_nat horizonte) k Hv)
    as [ms [E [Hl Hall]]].
  rewrite E. eexists. split; [reflexivity|].
  assert (Hne : forall (A : Type) (f : mes_t -> A), map f ms <> []).
  { intros A f. destruct ms; simpl in *; [lia|congruence]. }
  unfold prueba_valida.
  cbn [p_demanda p_costos p_cobertura p_sostenibilidad].
  split; [|split; [|split]].
  - apply np_mean_entre; [apply Hne|].
    apply Forall_map. eapply Forall_impl; [|exact Hall].
    intros m Hm. apply Hm.
  - apply np_mean_entre; [apply Hne|].
    apply Forall_map. eapply Forall_impl; [|exact Hall].
    intros m Hm. apply Hm.
  - apply np_mean_entre; [apply Hne|].
    apply Forall_map. eapply Forall_impl; [|exact Hall].
    intros m Hm. apply Hm.
  - apply np_mean_flotante_entre; [apply Hne|].
    apply Forall_map. eapply Forall_impl; [|exact Hall].
    intros m Hm. apply Hm.
Qed.

Lemma simular_pruebas_cotas (parametros : datos_operativos_t)
  (horizonte : Z) (n k : nat) :
  datos_validos parametros -> (0 < horizonte)%Z ->
  exists ps,
    simular_pruebas rng parametros horizonte n k
    = Ok (ps, (k + n * (Z.to_nat horizonte * dias parametros))%nat)
    /\ List.length ps = n
    /\ Forall (prueba_valida parametros) ps.
Proof.
  intros Hv Hh. revert k. induction n as [|n IH]; intro k.
  - exists []. simpl. rewrite Nat.add_0_r. repeat split. constructor.
  - simpl simular_pruebas.
    destruct (_simular_operacion_cotas parametros horizonte k Hv Hh)
      as [p [E Hp]].
    rewrite E.
    destruct (IH (k + Z.to_nat horizonte * dias parametros)%nat)
      as [ps [E2 [Hl Hall]]].
    rewrite E2. exists (p :: ps).
    replace (k + Z.to_nat horizonte * dias parametros
             + n * (Z.to_nat horizonte * dias parametros))%nat
      with (k + S n * (Z.to_nat horizonte * dias parametros))%nat by lia.
    split; [reflexivity|]. split; [simpl; congruence|now constructor].
Qed.

Lemma calcular_estadistica_cotas (lo hi : Q) (datos : list flotante) :
  datos <> [] -> Forall (finito_entre lo hi) datos ->
  exists e,
    calcular_estadistica datos = Ok e /\ estadistica_np_entre lo hi e.
Proof.
  intros Hne H. destruct (finitos_entre lo hi datos H) as [qs [El Hqs]].
  assert (Hq : qs <> [])
    by (destruct qs; [subst; simpl in Hne; congruence|congruence]).
  unfold calcular_estadistica. rewrite El, finitos_map.
  destruct qs as [|q qs]; [congruence|]. simpl map.
  eexists. split; [reflexivity|].
  eexists. split; [reflexivity|]. now apply estadistica_de_entre.
Qed.

End SimulacionValida.

Section SimulacionValidaResultados.

Import Costos Simulacion Practico Cotas Ejemplos EjemplosExtra.

(** X3.  The statistics of one variable: on a non-empty sample of finite
    numbers between [lo] and [hi], the mean, the median, the minimum, the
    maximum and the two quartiles all lie between [lo] and [hi] and the
    variance is not negative. *)
Theorem estadisticas_entre_las_cotas (lo hi : Q) (muestras : list Q) :
  muestras <> [] ->
  Forall (entre lo hi) muestras ->
  exists e,
    calcular_estadistica (map Finito muestras) = Ok (Estad e)
    /\ estadistica_entre lo hi e.
Proof.
  intros Hne H.
  destruct (calcular_estadistica_cotas lo hi (map Finito muestras))
    as [e [E [e' [Ee He]]]].
  - destruct muestras; simpl; congruence.
  - apply Forall_map. eapply Forall_impl; [|exact H].
    intros q Hq. exists q. split; [reflexivity|exact Hq].
  - exists e'. subst e. split; [exact E|exact He].
Qed.

Lemma estadisticas_entre_las_cotas_witness :
  exists e,
    calcular_estadistica (map Finito [3; 1; 2; 2]) = Ok (Estad e)
    /\ estadistica_entre 1 3 e.
Proof.
  apply (estadisticas_entre_las_cotas 1 3 [3; 1; 2; 2]).
  - discriminate.
  - repeat constructor; unfold Qle; simpl; lia.
Defined.

(** X4.  A month of valid operating data never raises and consumes one draw
    per day; its demand lies between 0 and the real capacity of the month,
    its cost is the fixed cost plus the variable cost of that demand, its
    coverage is a fraction, and its sustainability is the finite ratio of
    revenue to that cost. *)
Theorem simular_mes_valido (rng : fuente) (parametros : datos_operativos_t)
  (k : nat) :
  datos_validos parametros ->
  exists mes s,
    simular_mes rng parametros k = Ok (mes, (k + dias parametros)%nat)
    /\ mes_valido parametros mes
    /\ m_costos mes
       = fijo_mensual (costos parametros)
         + m_demanda mes * variable_paciente (costos parametros)
    /\ m_sostenibilidad mes = Finito s
    /\ s * m_costos mes
       == m_demanda mes * costo_unitario_atencion (costos parametros).
Proof.
  intro Hv.
  destruct (simular_mes_cotas rng parametros k Hv) as [mes [E Hm]].
  destruct (simular_mes_campos _ _ _ _ _ E) as [Ec Es].
  assert (Hpos : 0 < m_costos mes).
  { destruct Hv as [_ [_ [Hf _]]]. destruct Hm as [_ [[Hc _] _]]. lra. }
  rewrite analizar_sostenibilidad_no_cero in Es by lra.
  exists mes. eexists.
  split; [exact E|]. split; [exact Hm|]. split; [exact Ec|].
  split; [exact Es|]. field. lra.
Qed.

Lemma simular_mes_valido_witness :
  exists mes s,
    simular_mes fuente_nula datos_predeterminados 0
    = Ok (mes, (0 + dias datos_predeterminados)%nat)
    /\ mes_valido datos_predeterminados mes
    /\ m_costos mes
       = fijo_mensual (costos datos_predeterminados)
         + m_demanda mes * variable_paciente (costos datos_predeterminados)
    /\ m_sostenibilidad mes = Finito s
    /\ s * m_costos mes
       == m_demanda mes
          * costo_unitario_atencion (costos datos_predeterminados).
Proof.
  apply (simular_mes_valido fuente_nula datos_predeterminados 0).
  unfold datos_validos, Qle, Qlt. simpl. lia.
Defined.

(** X5.  On valid operating data, with at least one trial and one month,
    [simular] completes for every random source, consumes one draw per
    simulated day, stores one sample per trial for each variable, and every
    statistic lies within the range of its variable: demand between 0 and the
    real monthly capacity, cost from the fixed cost up, coverage in [0, 1],
    sustainability not negative. *)
Theorem simular_valida (rng : fuente) (self : UMSPractico) (k : nat) :
  let p := datos_operativos self in
  let n := Z.to_nat (num_simulaciones (parametros_simulacion self)) in
  let h := Z.to_nat (horizonte_temporal (parametros_simulacion self)) in
  datos_validos p ->
  (0 < num_simulaciones (parametros_simulacion self))%Z ->
  (0 < horizonte_temporal (parametros_simulacion self))%Z ->
  exists r est,
    simular rng self k = Ok (r, (k + n * (h * dias p))%nat)
    /\ List.length (r_demanda r) = n
    /\ List.length (r_costos r) = n
    /\ List.length (r_cobertura r) = n
    /\ List.length (r_sostenibilidad r) = n
    /\ r_estadisticas r = Some est
    /\ estadistica_np_entre 0 (capacidad_mensual p) (e_demanda est)
    /\ estadistica_np_entre
         (fijo_mensual (costos p))
         (fijo_mensual (costos p)
          + capacidad_mensual p * variable_paciente (costos p))
         (e_costos est)
    /\ estadistica_np_entre 0 1 (e_cobertura est)
    /\ estadistica_np_entre 0
         (capacidad_mensual p * costo_unitario_atencion (costos p)
          / fijo_mensual (costos p))
         (e_sostenibilidad est).
Proof.
  intros p n h Hv Hn Hh. unfold simular.
  destruct (simular_pruebas_cotas rng p
              (horizonte_temporal (parametros_simulacion self)) n k Hv Hh)
    as [ps [E [Hl Hall]]].
  fold p n. rewrite E.
  assert (Hne : forall f : prueba_t -> flotante, map f ps <> []).
  { intro f. destruct ps; simpl in *; [lia|congruence]. }
  assert (Hd : Forall (finito_entre 0 (capacidad_mensual p))
                 (map p_demanda ps)).
  { apply Forall_map. eapply Forall_impl; [|exact Hall].
    intros x Hx. apply Hx. }
  assert (Hc : Forall (finito_entre (fijo_mensual (costos p))
                         (fijo_mensual (costos p)
                          + capacidad_mensual p
                            * variable_paciente (costos p)))
                 (map p_costos ps)).
  { apply Forall_map. eapply Forall_impl; [|exact Hall].
    intros x Hx. apply Hx. }
  assert (Hb : Forall (finito_entre 0 1) (map p_cobertura ps)).
  { apply Forall_map. eapply Forall_impl; [|exact Hall].
    intros x Hx. apply Hx. }
  assert (Hs : Forall (finito_entre 0
                         (capacidad_mensual p
                          * costo_unitario_atencion (costos p)
                          / fijo_mensual (costos p)))
                 (map p_sostenibilidad ps)).
  { apply Forall_map. eapply Forall_impl; [|exact Hall].
    intros x Hx. apply Hx. }
  destruct (calcular_estadistica_cotas _ _ _ (Hne p_demanda) Hd)
    as [ed [Ed Bd]].
  destruct (calcular_estadistica_cotas _ _ _ (Hne p_costos) Hc)
    as [ec [Ec Bc]].
  destruct (calcular_estadistica_cotas _ _ _ (Hne p_cobertura) Hb)
    as [eb [Eb Bb]].
  destruct (calcular_estadistica_cotas _ _ _ (Hne p_sostenibilidad) Hs)
    as [es [Es Bs]].
  unfold _calcular_estadisticas. rewrite Ed, Ec, Eb, Es. cbn [bind].
  fold h. eexists. eexists. split; [reflexivity|].
  cbn [r_demanda r_costos r_cobertura r_sostenibilidad r_estadisticas
       e_demanda e_costos e_cobertura e_sostenibilidad].
  rewrite !length_map.
  repeat (split; [first [exact Hl | reflexivity | assumption]|]).
  assumption.
Qed.

Lemma simular_valida_witness :
  exists r est,
    simular fuente_nula practico_de_prueba 0
    = Ok (r, (0 + 10 * (12 * 20))%nat)
    /\ List.length (r_demanda r) = 10%nat
    /\ List.length (r_costos r) = 10%nat
    /\ List.length (r_cobertura r) = 10%nat
    /\ List.length (r_sostenibilidad r) = 10%nat
    /\ r_estadisticas r = Some est
    /\ estadistica_np_entre 0 (capacidad_mensual datos_predeterminados)
         (e_demanda est)
    /\ estadistica_np_entre
         (fijo_mensual (costos datos_predeterminados))
         (fijo_mensual (costos datos_predeterminados)
          + capacidad_mensual datos_predeterminados
            * variable_paciente (costos datos_predeterminados))
         (e_costos est)
    /\ estadistica_np_entre 0 1 (e_cobertura est)
    /\ estadistica_np_entre 0
         (capacidad_mensual datos_predeterminados
          * costo_unitario_atencion (costos datos_predeterminados)
          / fijo_mensual (costos datos_predeterminados))
         (e_sostenibilidad est).
Proof.
  apply (simular_valida fuente_nula practico_de_prueba 0).
  - unfold datos_validos, Qle, Qlt. simpl. lia.
  - reflexivity.
  - reflexivity.
Defined.

(** X6.  With no trial to run ([num_simulaciones] zero or negative) the loop
    is skipped and the statistics are asked of empty samples: [simular]
    raises [ValueError], whatever the operating data. *)
Theorem simular_sin_pruebas_lanza (rng : fuente) (self : UMSPractico)
  (k : nat) :
  (num_simulaciones (parametros_simulacion self) <= 0)%Z ->
  simular rng self k = Lanza ValueError.
Proof.
  intro H. unfold simular.
  assert (E : Z.to_nat (num_simulaciones (parametros_simulacion self)) = O)
    by lia.
  rewrite E. reflexivity.
Qed.

Lemma simular_sin_pruebas_lanza_witness :
  simular fuente_nula practico_sin_pruebas 0 = Lanza ValueError.
Proof.
  apply (simular_sin_pruebas_lanza fuente_nula practico_sin_pruebas 0).
  discriminate.
Defined.

End SimulacionValidaResultados.

(** ** The optimizer: direct mode, the box, the constraints *)

Section OptimizadorExtra.

Import Optimizacion Teorico TeoricoConsulta Caja Ejemplos.

Lemma dentro_limites (x : decision) :
  dentro limites x ->
  (20 <= capacidad_diaria x /\ capacidad_diaria x <= 50)
  /\ (4 # 10 <= eficiencia_operativa x /\ eficiencia_operativa x <= 95 # 100)
  /\ (6 # 10 <= cobertura_objetivo x /\ cobertura_objetivo x <= 1)
  /\ (50000 <= costo_unitario x /\ costo_unitario x <= 120000).
Proof.
  unfold dentro, limites, componentes. intro H.
  inversion H as [|? ? ? ? H1 T1]; subst.
  inversion T1 as [|? ? ? ? H2 T2]; subst.
  inversion T2 as [|? ? ? ? H3 T3]; subst.
  inversion T3 as [|? ? ? ? H4 T4]; subst.
  simpl in *. tauto.
Qed.

(** X7.  Direct mode is the identity on the configuration and bypasses the
    solver: the outcome is the same for every solver, and a result it returns
    carries the initial vector unchanged, with its derived statistics and its
    compliance report, and is what the object stores. *)
Theorem modo_directo_identidad (self : UMSTeorico) :
  usar_optimizacion self = false ->
  (forall minimize minimize' : solver,
      optimizar minimize self = optimizar minimize' self)
  /\ (forall (minimize : solver) (r : resultados_t) (self' : UMSTeorico),
        optimizar minimize self = (Ok r, self') ->
        configuracion r = Some (configuracion_inicial self)
        /\ (exists e, estadisticas r = Some e)
        /\ (exists c, cumplimiento r = Some c)
        /\ resultados self' = r
        /\ metas_ideales self' = metas_ideales self).
Proof.
  intro Hu. split.
  - intros minimize minimize'. unfold optimizar. now rewrite Hu.
  - intros minimize r self'. unfold optimizar. rewrite Hu.
    cbn [negb]. unfold _calcular_estadisticas_derivadas.
    cbn [configuracion resultados con_resultados solo_configuracion].
    destruct (derivadas (configuracion_inicial self)) as [e|];
      [|discriminate].
    cbn [bind]. unfold _evaluar_cumplimiento_metas.
    cbn [configuracion resultados con_resultados solo_configuracion
         metas_ideales].
    destruct (evaluar (metas_ideales self) (configuracion_inicial self))
      as [c|]; [|discriminate].
    cbn [bind]. intro H. inversion H; subst; clear H.
    cbn [configuracion estadisticas cumplimiento resultados con_resultados
         metas_ideales].
    repeat split; eauto.
Qed.

Lemma modo_directo_identidad_witness :
  optimizar solver_que_lanza (modelo_directo (8 # 10))
  = optimizar solver_sin_convergencia (modelo_directo (8 # 10)).
Proof.
  apply (modo_directo_identidad (modelo_directo (8 # 10))).
  reflexivity.
Defined.

Lemma atenciones_en_la_caja (x : decision) :
  dentro limites x ->
  8000000 <= atenciones_mensuales x * costo_unitario x
  /\ atenciones_mensuales x * costo_unitario x <= 114000000.
Proof.
  intro H. apply dentro_limites in H.
  destruct H as [[C1 C2] [[E1 E2] [_ [U1 U2]]]].
  unfold atenciones_mensuales.
  set (c := capacidad_diaria x) in *.
  set (e := eficiencia_operativa x) in *.
  set (u := costo_unitario x) in *.
  assert (H1 : 8 <= c * e) by nra.
  assert (H2 : c * e <= 50 * (95 # 100)) by nra.
  split; nra.
Qed.

(** X8.  Inside the box of the solver the sustainability of a decision
    vector lies between 8800000/25291667 (about 0.348) and
    125400000/131291667 (about 0.955): a minimum-sustainability constraint is
    met by every point of the box when its threshold is at most the former
    and by none when it exceeds the latter, as the goal 1.0 does. *)
Theorem sostenibilidad_en_la_caja (x : decision) (valor_min : Q) :
  dentro limites x ->
  (8800000 # 25291667 <= sostenibilidad x
   /\ sostenibilidad x <= 125400000 # 131291667)
  /\ (valor_min <= 8800000 # 25291667 ->
      0 <= restriccion_sostenibilidad_minima x valor_min)
  /\ (125400000 # 131291667 < valor_min ->
      restriccion_sostenibilidad_minima x valor_min < 0).
Proof.
  intro H. destruct (atenciones_en_la_caja x H) as [A1 A2].
  assert (Hs : 8800000 # 25291667 <= sostenibilidad x
               /\ sostenibilidad x <= 125400000 # 131291667).
  { unfold sostenibilidad, costo_total, costo_fijo_mensual.
    set (a := atenciones_mensuales x * costo_unitario x) in *.
    assert (Hp : Qltb 0 (17291667 + a) = true) by (apply Qltb_lt; lra).
    rewrite Hp. split.
    - apply Qle_shift_div_l; lra.
    - apply Qle_shift_div_r; lra. }
  split; [exact Hs|].
  unfold restriccion_sostenibilidad_minima. split; intro Hv; lra.
Qed.

Lemma sostenibilidad_en_la_caja_witness :
  (8800000 # 25291667 <= sostenibilidad (mkDecision 30 (7 # 10) (8 # 10) 90000)
   /\ sostenibilidad (mkDecision 30 (7 # 10) (8 # 10) 90000)
      <= 125400000 # 131291667)
  /\ (1 <= 8800000 # 25291667 ->
      0 <= restriccion_sostenibilidad_minima
             (mkDecision 30 (7 # 10) (8 # 10) 90000) 1)
  /\ (125400000 # 131291667 < 1 ->
      restriccion_sostenibilidad_minima
        (mkDecision 30 (7 # 10) (8 # 10) 90000) 1 < 0).
Proof.
  apply (sostenibilidad_en_la_caja (mkDecision 30 (7 # 10) (8 # 10) 90000) 1).
  unfold dentro, limites, componentes.
  repeat constructor; unfold Qle; simpl; lia.
Defined.

Lemma desviacion_no_negativa (a g : Q) : 0 < g -> 0 <= Qabs (a - g) / g.
Proof.
  intro H. apply Qle_shift_div_l; [exact H|].
  pose proof (Qabs_nonneg (a - g)). lra.
Qed.

Lemma desviacion_nula (g : Q) : 0 < g -> Qabs (g - g) / g == 0.
Proof.
  intro H.
  assert (E : g - g == 0) by ring.
  rewrite E. change (Qabs 0) with 0. field. lra.
Qed.

(** X9.  With positive goals, the objective that [optimizar] hands to the
    solver is, at every point of the box, at least its value at the point
    whose capacity, efficiency and coverage are the goals and whose unit cost
    is the lower bound 50000; that value is [0.4 * 50000 /
    costo_unitario_max]. *)
Theorem objetivo_interno_minimo (m : metas) (x : decision) :
  0 < capacidad_optima (operacion m) ->
  0 < meta_eficiencia_operativa (operacion m) ->
  0 < poblacion_objetivo (cobertura m) ->
  0 < costo_unitario_max (financiero m) ->
  dentro limites x ->
  exists v v_min,
    Teorico.funcion_objetivo m x = Ok v
    /\ Teorico.funcion_objetivo m
         (mkDecision (capacidad_optima (operacion m))
                     (meta_eficiencia_operativa (operacion m))
                     (poblacion_objetivo (cobertura m)) 50000)
       = Ok v_min
    /\ v_min <= v
    /\ v_min == (4 # 10) * (50000 / costo_unitario_max (financiero m)).
Proof.
  intros G1 G2 G3 G4 H. apply dentro_limites in H.
  destruct H as [_ [_ [_ [U1 _]]]].
  unfold Teorico.funcion_objetivo.
  cbn [capacidad_diaria eficiencia_operativa cobertura_objetivo
       costo_unitario].
  rewrite !pydiv_ok by lra. cbn [bind].
  eexists. eexists. split; [reflexivity|]. split; [reflexivity|].
  pose proof (desviacion_no_negativa (capacidad_diaria x) _ G1) as D1.
  pose proof (desviacion_no_negativa (eficiencia_operativa x) _ G2) as D2.
  pose proof (desviacion_no_negativa (cobertura_objetivo x) _ G3) as D3.
  rewrite (desviacion_nula _ G1), (desviacion_nula _ G2),
    (desviacion_nula _ G3).
  assert (Hc : 50000 / costo_unitario_max (financiero m)
               <= costo_unitario x / costo_unitario_max (financiero m)).
  { unfold Qdiv. apply Qmult_le_compat_r; [exact U1|].
    apply Qinv_le_0_compat. lra. }
  split; lra.
Qed.

Lemma objetivo_interno_minimo_witness :
  exists v v_min,
    Teorico.funcion_objetivo metas_predeterminadas
      (mkDecision 30 (7 # 10) (8 # 10) 90000) = Ok v
    /\ Teorico.funcion_objetivo metas_predeterminadas
         (mkDecision 40 (8 # 10) 1 50000) = Ok v_min
    /\ v_min <= v
    /\ v_min == (4 # 10) * (50000 / 70000).
Proof.
  apply (objetivo_interno_minimo metas_predeterminadas
           (mkDecision 30 (7 # 10) (8 # 10) 90000));
    try (unfold Qlt; simpl; lia).
  unfold dentro, limites, componentes.
  repeat constructor; unfold Qle; simpl; lia.
Defined.

(** X10.  The two constraints that [optimizar] gives the solver read the
    restrictions by position only: the first is the coverage minus the value
    of the restriction at index 0, the second [100000 / costo_unitario] minus
    the value at index 1, whatever the kinds of those restrictions and
    whatever follows them; inside the box the second is met as soon as that
    value is at most 5/6. *)
Theorem restricciones_por_posicion (rs : list restriccion)
  (r0 r1 : restriccion) (x : decision) :
  nth_error rs 0 = Some r0 ->
  nth_error rs 1 = Some r1 ->
  dentro limites x ->
  exists c1,
    map (fun c => c x) (constraints (problema_de
                          (mkUMSTeorico metas_predeterminadas rs x vacio true)))
    = [ Ok (cobertura_objetivo x - valor r0); Ok c1 ]
    /\ c1 == 100000 / costo_unitario x - valor r1
    /\ (valor r1 <= 5 # 6 -> 0 <= c1).
Proof.
  intros H0 H1 H. apply dentro_limites in H.
  destruct H as [_ [_ [_ [U1 U2]]]].
  unfold problema_de, constraints, restricciones_solver, valor_restriccion.
  cbn [map restricciones]. rewrite H0, H1. cbn [bind].
  assert (Hd : ~ costo_unitario x / 100000 == 0).
  { intro E. assert (costo_unitario x == costo_unitario x / 100000 * 100000)
      by (field; lra). lra. }
  rewrite (pydiv_ok _ 100000) by lra. cbn [bind].
  rewrite pydiv_ok by exact Hd. cbn [bind].
  eexists. split; [reflexivity|].
  assert (E : 1 / (costo_unitario x / 100000) == 100000 / costo_unitario x)
    by (field; lra).
  split; [lra|].
  intro Hv. rewrite E.
  assert (5 # 6 <= 100000 / costo_unitario x)
    by (apply Qle_shift_div_l; lra).
  lra.
Qed.

Lemma restricciones_por_posicion_witness :
  exists c1,
    map (fun c => c (mkDecision 30 (7 # 10) (8 # 10) 90000))
        (constraints
           (problema_de
              (mkUMSTeorico metas_predeterminadas
                 [ mkRestriccion cobertura_minima (95 # 100);
                   mkRestriccion calidad_minima (9 # 10);
                   mkRestriccion sostenibilidad_minima (8 # 10) ]
                 (mkDecision 30 (7 # 10) (8 # 10) 90000) vacio true)))
    = [ Ok ((8 # 10) - (95 # 100)); Ok c1 ]
    /\ c1 == 100000 / 90000 - (9 # 10)
    /\ (9 # 10 <= 5 # 6 -> 0 <= c1).
Proof.
  apply (restricciones_por_posicion
           [ mkRestriccion cobertura_minima (95 # 100);
             mkRestriccion calidad_minima (9 # 10);
             mkRestriccion sostenibilidad_minima (8 # 10) ]
           (mkRestriccion cobertura_minima (95 # 100))
           (mkRestriccion calidad_minima (9 # 10))
           (mkDecision 30 (7 # 10) (8 # 10) 90000)).
  - reflexivity.
  - reflexivity.
  - unfold dentro, limites, componentes.
    repeat constructor; unfold Qle; simpl; lia.
Defined.

End OptimizadorExtra.

(** ** The compliance report: when it is perfect, and when it is reused *)

Section InformeDeCumplimiento.

Import Optimizacion Teorico TeoricoConsulta Ejemplos.

Lemma pymin_uno_iff (q : Q) : pymin q 1 == 1 <-> 1 <= q.
Proof.
  unfold pymin. destruct (Qltb 1 q) eqn:E.
  - apply Qltb_lt in E. split; intro; lra.
  - apply Qltb_ge in E. split; intro; lra.
Qed.

Lemma cociente_alcanza (a g : Q) : 0 < g -> (1 <= a / g <-> g <= a).
Proof.
  intro Hg.
  assert (E : a / g * g == a) by (field; lra).
  split; intro H.
  - assert (1 * g <= a / g * g) by (apply Qmult_le_compat_r; lra). lra.
  - apply Qle_shift_div_l; lra.
Qed.

(** X11.  Against positive goals with a sustainability goal of at most 1.2,
    a configuration that is not negative is evaluated without error; its
    sustainability score is 1 whatever the configuration, and its global
    score is 1 exactly when the coverage, the efficiency and the capacity
    reach their goals and the unit cost (floored at 1) does not exceed
    its ceiling. *)
Theorem cumplimiento_pleno (m : metas) (x : decision) :
  0 < poblacion_objetivo (cobertura m) ->
  0 < meta_eficiencia_operativa (operacion m) ->
  0 < capacidad_optima (operacion m) ->
  0 <= costo_unitario_max (financiero m) ->
  0 < sostenibilidad_min (financiero m) ->
  sostenibilidad_min (financiero m) <= 12 # 10 ->
  0 <= cobertura_objetivo x ->
  0 <= eficiencia_operativa x ->
  0 <= capacidad_diaria x ->
  exists c,
    evaluar m x = Ok c
    /\ cumplimiento_de (d_sostenibilidad (detallado c)) == 1
    /\ (global c == 1 <->
        poblacion_objetivo (cobertura m) <= cobertura_objetivo x
        /\ meta_eficiencia_operativa (operacion m) <= eficiencia_operativa x
        /\ capacidad_optima (operacion m) <= capacidad_diaria x
        /\ pymax (costo_unitario x) 1 <= costo_unitario_max (financiero m)).
Proof.
  intros G1 G2 G3 G4 G5 G6 H1 H2 H3.
  assert (Hmax : 0 < pymax (costo_unitario x) 1)
    by (pose proof (pymax_ge_r (costo_unitario x) 1); lra).
  unfold evaluar. rewrite !pydiv_ok by lra. cbn [bind].
  eexists. split; [reflexivity|].
  cbn [global detallado d_sostenibilidad cumplimiento_de].
  set (smin := sostenibilidad_min (financiero m)) in *.
  assert (Hreal : smin <= pymin (12 # 10) (smin + (1 # 10)))
    by (apply pymin_glb; lra).
  assert (Es : pymin (pymin (12 # 10) (smin + (1 # 10)) / smin) 1 == 1).
  { apply pymin_uno_iff. now apply cociente_alcanza. }
  split; [exact Es|].
  pose proof (pymin_uno_iff
                (cobertura_objetivo x / poblacion_objetivo (cobertura m)))
    as Pa.
  pose proof (pymin_uno_iff
                (eficiencia_operativa x
                 / meta_eficiencia_operativa (operacion m))) as Pe.
  pose proof (pymin_uno_iff
                (capacidad_diaria x / capacidad_optima (operacion m))) as Pk.
  pose proof (pymin_uno_iff
                (costo_unitario_max (financiero m)
                 / pymax (costo_unitario x) 1)) as Pd.
  rewrite (cociente_alcanza _ _ G1) in Pa.
  rewrite (cociente_alcanza _ _ G2) in Pe.
  rewrite (cociente_alcanza _ _ G3) in Pk.
  rewrite (cociente_alcanza _ _ Hmax) in Pd.
  destruct (tope_en_unidad _ (cociente_no_negativo _ _ H1 G1)) as [A1 A2].
  destruct (tope_en_unidad _ (cociente_no_negativo _ _ H2 G2)) as [B1 B2].
  destruct (tope_en_unidad _ (cociente_no_negativo _ _ H3 G3)) as [C1 C2].
  destruct (tope_en_unidad _ (cociente_no_negativo _ _ G4 Hmax)) as [D1 D2].
  revert Es Pa Pe Pk Pd A1 A2 B1 B2 C1 C2 D1 D2.
  generalize (pymin (cobertura_objetivo x
                     / poblacion_objetivo (cobertura m)) 1).
  generalize (pymin (eficiencia_operativa x
                     / meta_eficiencia_operativa (operacion m)) 1).
  generalize (pymin (capacidad_diaria x
                     / capacidad_optima (operacion m)) 1).
  generalize (pymin (costo_unitario_max (financiero m)
                     / pymax (costo_unitario x) 1) 1).
  generalize (pymin (pymin (12 # 10) (smin + (1 # 10)) / smin) 1).
  intros s d k e a Es Pa Pe Pk Pd A1 A2 B1 B2 C1 C2 D1 D2.
  assert (Eg : 0 + a * (3 # 10) + (e + k) / 2 * (3 # 10)
               + (d + s) / 2 * (25 # 100)
               + (a + (e + k) / 2) / 2 * (15 # 100)
               == (375 # 1000) * a + (1875 # 10000) * e
                  + (1875 # 10000) * k + (125 # 1000) * d
                  + (125 # 1000) * s) by (field; lra).
  rewrite Eg. split.
  - intro Hg.
    assert (a == 1) by lra. assert (e == 1) by lra.
    assert (k == 1) by lra. assert (d == 1) by lra.
    tauto.
  - intros [Ha [He [Hk Hd]]].
    apply Pa in Ha. apply Pe in He. apply Pk in Hk. apply Pd in Hd. lra.
Qed.

Lemma cumplimiento_pleno_witness :
  exists c,
    evaluar metas_predeterminadas (mkDecision 40 (8 # 10) 1 50000) = Ok c
    /\ cumplimiento_de (d_sostenibilidad (detallado c)) == 1
    /\ (global c == 1 <->
        1 <= 1 /\ 8 # 10 <= 8 # 10 /\ 40 <= 40 /\ pymax 50000 1 <= 70000).
Proof.
  apply (cumplimiento_pleno metas_predeterminadas
           (mkDecision 40 (8 # 10) 1 50000));
    unfold Qle, Qlt; simpl; lia.
Defined.

Lemma optimizar_no_vacio (minimize : solver) (self self' : UMSTeorico)
  (r : resultados_t) :
  optimizar minimize self = (Ok r, self') ->
  r <> vacio ->
  resultados self' = r
  /\ exists x c, configuracion r = Some x /\ cumplimiento r = Some c.
Proof.
  unfold optimizar.
  destruct (negb (usar_optimizacion self)).
  - unfold _calcular_estadisticas_derivadas.
    cbn [configuracion resultados con_resultados solo_configuracion].
    destruct (derivadas (configuracion_inicial self)) as [e|];
      [|discriminate].
    cbn [bind]. unfold _evaluar_cumplimiento_metas.
    cbn [configuracion resultados con_resultados solo_configuracion
         metas_ideales].
    destruct (evaluar (metas_ideales self) (configuracion_inicial self))
      as [c|]; [|discriminate].
    cbn [bind]. intros H _. inversion H; subst. simpl. eauto.
  - destruct (minimize (problema_de self)) as [res|];
      [|intros H Hv; inversion H; subst; congruence].
    unfold _calcular_estadisticas_derivadas.
    cbn [configuracion resultados con_resultados solo_configuracion].
    destruct (derivadas (x_final res)) as [e|];
      [|intros H Hv; inversion H; subst; congruence].
    cbn [bind]. unfold _evaluar_cumplimiento_metas.
    cbn [configuracion resultados con_resultados solo_configuracion
         metas_ideales].
    destruct (evaluar (metas_ideales self) (x_final res)) as [c|];
      [|intros H Hv; inversion H; subst; congruence].
    cbn [bind]. intros H _. inversion H; subst. simpl. eauto.
Qed.

(** X12.  After [optimizar] has returned a result that is not empty,
    [evaluar_cumplimiento] returns the report of that result and leaves the
    object as it is -- also when the goals have been replaced in between:
    the stored report is never recomputed. *)
Theorem informe_almacenado_tras_optimizar (minimize : solver)
  (self self' : UMSTeorico) (r : resultados_t) (otras_metas : metas) :
  optimizar minimize self = (Ok r, self') ->
  r <> vacio ->
  exists c,
    cumplimiento r = Some c
    /\ evaluar_cumplimiento self' = (Ok (Some c), self')
    /\ evaluar_cumplimiento (con_metas self' otras_metas)
       = (Ok (Some c), con_metas self' otras_metas).
Proof.
  intros H Hv.
  destruct (optimizar_no_vacio _ _ _ _ H Hv) as [Er [x [c [_ Ec]]]].
  exists c. split; [exact Ec|].
  unfold evaluar_cumplimiento, con_metas. cbn [resultados].
  rewrite Er, Ec. split; reflexivity.
Qed.

Lemma informe_almacenado_tras_optimizar_witness :
  exists c,
    cumplimiento
      (resultados (snd (optimizar solver_sin_convergencia
                                  modelo_predeterminado))) = Some c
    /\ evaluar_cumplimiento
         (snd (optimizar solver_sin_convergencia modelo_predeterminado))
       = (Ok (Some c),
          snd (optimizar solver_sin_convergencia modelo_predeterminado))
    /\ evaluar_cumplimiento
         (con_metas
            (snd (optimizar solver_sin_convergencia modelo_predeterminado))
            (mkMetas (cobertura metas_predeterminadas)
                     (operacion metas_predeterminadas)
                     (mkMetasFinanciero 140000 2 (6 # 10))
                     (calidad metas_predeterminadas)))
       = (Ok (Some c),
          con_metas
            (snd (optimizar solver_sin_convergencia modelo_predeterminado))
            (mkMetas (cobertura metas_predeterminadas)
                     (operacion metas_predeterminadas)
                     (mkMetasFinanciero 140000 2 (6 # 10))
                     (calidad metas_predeterminadas))).
Proof.
  apply (informe_almacenado_tras_optimizar solver_sin_convergencia
           modelo_predeterminado
           (snd (optimizar solver_sin_convergencia modelo_predeterminado))
           (resultados
              (snd (optimizar solver_sin_convergencia
                              modelo_predeterminado)))).
  - vm_compute. reflexivity.
  - vm_compute. discriminate.
Defined.

End InformeDeCumplimiento.

(** ** The gap evaluator: prerequisites, the floor, the stored matrix *)

Section EvaluadorExtra.

Import Brechas Ejemplos.

(** X13.  The three outcomes of a comparison.  Without theoretical results
    it returns the empty matrix and leaves the stored one alone.  With
    theoretical results but no simulation statistics it raises [KeyError],
    after emptying the stored matrix -- and so does a generation of
    recommendations started on an empty matrix.  With both it returns and
    stores a matrix whose keys are coverage, efficiency, cost-effectiveness
    and sustainability, in that order, and comparing again changes
    nothing. *)
Theorem comparar_modelos_casos (self : AnalisisBrechas) :
  (vt_configuracion (modelo_teorico self) = None ->
   comparar_modelos self = (Ok [], self))
  /\ (vt_configuracion (modelo_teorico self) <> None ->
      vp_estadisticas (modelo_practico self) = None ->
      comparar_modelos self = (Lanza KeyError, con_matriz self [])
      /\ (matriz_brechas self = [] ->
          generar_recomendaciones self
          = (Lanza KeyError, con_matriz self [])))
  /\ (vt_configuracion (modelo_teorico self) <> None ->
      vp_estadisticas (modelo_practico self) <> None ->
      exists m,
        comparar_modelos self = (Ok m, con_matriz self m)
        /\ map fst m
           = [cobertura; eficiencia; costo_efectividad; sostenibilidad]
        /\ comparar_modelos (con_matriz self m)
           = (Ok m, con_matriz self m)).
Proof.
  split; [|split].
  - intro H. unfold comparar_modelos. now rewrite H.
  - intros Hc He.
    assert (E : comparar_modelos self = (Lanza KeyError, con_matriz self [])).
    { unfold comparar_modelos.
      destruct (vt_configuracion (modelo_teorico self)); [|congruence].
      now rewrite He. }
    split; [exact E|].
    intro Hm. unfold generar_recomendaciones. now rewrite Hm, E.
  - intros Hc He. unfold comparar_modelos.
    destruct (vt_configuracion (modelo_teorico self)) as [cfg|] eqn:Ec;
      [|congruence].
    destruct (vp_estadisticas (modelo_practico self)) as [est|] eqn:Ee;
      [|congruence].
    eexists. split; [reflexivity|]. split; [reflexivity|].
    cbn [modelo_teorico modelo_practico con_matriz].
    rewrite Ec, Ee. reflexivity.
Qed.

(** X14.  The real cost per attention of the matrix is the mean cost divided
    by the mean demand floored at 1: the quotient itself when the mean demand
    is at least 1, the mean cost when it is below 1 -- so no demand, however
    small or negative, makes the comparison divide by zero. *)
Theorem costo_por_atencion_con_piso (self self' : AnalisisBrechas)
  (m : matriz) (d : datos_brecha) :
  comparar_modelos self = (Ok m, self') ->
  In (costo_efectividad, d) m ->
  exists est,
    vp_estadisticas (modelo_practico self) = Some est
    /\ (1 <= media_demanda est ->
        real d == media_costos est / media_demanda est)
    /\ (media_demanda est < 1 -> real d == media_costos est).
Proof.
  unfold comparar_modelos.
  destruct (vt_configuracion (modelo_teorico self)) as [cfg|];
    [|intros H Hin; inversion H; subst; destruct Hin].
  destruct (vp_estadisticas (modelo_practico self)) as [est|];
    [|discriminate].
  intros H Hin. inversion H; subst; clear H.
  exists est. split; [reflexivity|].
  simpl in Hin.
  destruct Hin as [E|[E|[E|[E|[]]]]]; inversion E; subst; clear E.
  cbn [real con_prioridad entrada]. unfold pymax.
  destruct (Qltb 1 (media_demanda est)) eqn:Ed.
  - apply Qltb_lt in Ed. split; intro Hd; [reflexivity|lra].
  - apply Qltb_ge in Ed. split; intro Hd.
    + assert (Eq : media_demanda est == 1) by lra.
      rewrite Eq. reflexivity.
    + field.
Qed.

Lemma costo_por_atencion_con_piso_witness :
  exists est,
    vp_estadisticas (modelo_practico analisis_ejemplo) = Some est
    /\ (1 <= media_demanda est ->
        real entrada_costo_ejemplo
        == media_costos est / media_demanda est)
    /\ (media_demanda est < 1 ->
        real entrada_costo_ejemplo == media_costos est).
Proof.
  apply (costo_por_atencion_con_piso analisis_ejemplo
           (con_matriz analisis_ejemplo matriz_ejemplo) matriz_ejemplo).
  - reflexivity.
  - simpl. auto.
Defined.

Lemma generar_con_matriz (mp : vista_practico) (mt : vista_teorico)
  (m : matriz) :
  m <> [] ->
  generar_recomendaciones (mkAnalisis mp mt m)
  = (Ok (recomendaciones_de_matriz m), mkAnalisis mp mt m).
Proof.
  intro H. unfold generar_recomendaciones. cbn [matriz_brechas].
  destruct m; [congruence|reflexivity].
Qed.

(** X15.  Recommendations are generated from the stored matrix.  Generating
    again returns the same list and leaves the object as it is; and once a
    matrix is stored, the list is the same whatever the two models hold by
    then: the results of a later simulation or optimization do not reach the
    recommendations until the models are compared again. *)
Theorem recomendaciones_de_la_matriz_almacenada
  (self self' : AnalisisBrechas) (l : list recomendacion)
  (otro_practico : vista_practico) (otro_teorico : vista_teorico) :
  generar_recomendaciones self = (Ok l, self') ->
  generar_recomendaciones self' = (Ok l, self')
  /\ (matriz_brechas self' <> [] ->
      generar_recomendaciones
        (mkAnalisis otro_practico otro_teorico (matriz_brechas self'))
      = (Ok l, mkAnalisis otro_practico otro_teorico (matriz_brechas self'))).
Proof.
  intro H.
  assert (El : l = recomendaciones_de_matriz (matriz_brechas self')).
  { revert H. unfold generar_recomendaciones.
    destruct (matriz_brechas self) eqn:Em.
    - destruct (comparar_modelos self) as [[m'|e] s]; [|discriminate].
      intro H. now inversion H.
    - intro H. inversion H; subst. now rewrite Em. }
  split.
  - destruct self' as [mp mt m]. cbn [matriz_brechas] in El.
    destruct m as [|kv m].
    + revert H. unfold generar_recomendaciones.
      destruct (matriz_brechas self) eqn:Em.
      * destruct (comparar_modelos self) as [[m'|e] s] eqn:Ec;
          [|discriminate].
        intro H. inversion H; subst s; clear H.
        destruct (comparar_modelos_claves _ _ _ Ec) as [[_ Es]|[Ek Es]].
        -- subst self. unfold generar_recomendaciones.
           cbn [matriz_brechas]. rewrite Ec. cbn [matriz_brechas].
           now subst l.
        -- cbn [matriz_brechas] in Es. subst m'. discriminate.
      * intro H. inversion H; subst. cbn [matriz_brechas] in Em.
        discriminate.
    + subst l. apply generar_con_matriz. discriminate.
  - intro Hne. subst l. now apply generar_con_matriz.
Qed.

Lemma recomendaciones_de_la_matriz_almacenada_witness :
  generar_recomendaciones (con_matriz analisis_ejemplo matriz_ejemplo)
  = (Ok (recomendaciones_de_matriz matriz_ejemplo),
     con_matriz analisis_ejemplo matriz_ejemplo)
  /\ (matriz_brechas (con_matriz analisis_ejemplo matriz_ejemplo) <> [] ->
      generar_recomendaciones
        (mkAnalisis (mkVistaPractico None 1) (mkVistaTeorico None 1)
           (matriz_brechas (con_matriz analisis_ejemplo matriz_ejemplo)))
      = (Ok (recomendaciones_de_matriz matriz_ejemplo),
         mkAnalisis (mkVistaPractico None 1) (mkVistaTeorico None 1)
           (matriz_brechas (con_matriz analisis_ejemplo matriz_ejemplo)))).
Proof.
  apply (recomendaciones_de_la_matriz_almacenada analisis_ejemplo).
  reflexivity.
Defined.



End EvaluadorExtra.

(** ** The detail of costs *)

Section DetalleDeCostos.

Import Simulacion Practico PracticoCostos Ejemplos EjemplosExtra.

(** X17.  With statistics already stored, [calcular_costos] runs no
    simulation (no random draw is consumed, the results are left as they
    are) and never divides by zero: the monthly total is the sum of its five
    components, the depreciation spreads the vehicle over 60 months, and the
    cost per attention times the mean demand gives back the total when the
    mean demand is positive, and is [inf] when it is not. *)
Theorem calcular_costos_con_estadisticas (rng : fuente) (self : UMSPractico)
  (costo_personal_mes : Q) (res : resultados_t) (k : nat)
  (est : estadisticas_t) (e : estadistica) :
  r_estadisticas res = Some est ->
  e_demanda est = Estad e ->
  exists d,
    calcular_costos rng self costo_personal_mes res k = Ok (Some d, res, k)
    /\ total_mensual d
       = fijos d + variables d + personal d + depreciacion d
         + mantenimiento d
    /\ variables d
       = media e * variable_paciente (costos (datos_operativos self))
    /\ depreciacion d * 60 == costo_vehiculo (costos (datos_operativos self))
    /\ (0 < media e ->
        exists c, costo_por_atencion d = Finito c
                  /\ c * media e == total_mensual d)
    /\ (media e <= 0 -> costo_por_atencion d = Infinito).
Proof.
  intros Hs He. unfold calcular_costos. rewrite Hs. cbn iota beta.
  rewrite Hs, He.
  eexists. split; [reflexivity|].
  unfold detalle_de.
  cbn [total_mensual fijos variables personal depreciacion mantenimiento
       costo_por_atencion].
  split; [reflexivity|]. split; [reflexivity|].
  split; [field|].
  split; intro Hm.
  - assert (Hb : Qltb 0 (media e) = true) by now apply Qltb_lt.
    rewrite Hb. eexists. split; [reflexivity|]. field. lra.
  - assert (Hb : Qltb 0 (media e) = false) by now apply Qltb_ge.
    now rewrite Hb.
Qed.

Lemma calcular_costos_con_estadisticas_witness :
  exists d,
    calcular_costos fuente_nula practico_de_prueba 8500000
                    resultados_de_prueba 0
    = Ok (Some d, resultados_de_prueba, 0%nat)
    /\ total_mensual d
       = fijos d + variables d + personal d + depreciacion d
         + mantenimiento d
    /\ variables d = 192 * 45000
    /\ depreciacion d * 60 == 580000000
    /\ (0 < 192 ->
        exists c, costo_por_atencion d = Finito c
                  /\ c * 192 == total_mensual d)
    /\ (192 <= 0 -> costo_por_atencion d = Infinito).
Proof.
  apply (calcular_costos_con_estadisticas fuente_nula practico_de_prueba
           8500000 resultados_de_prueba 0
           (mkEstadisticas
              (estadistica_constante 192)
              (estadistica_constante 25931667)
              (estadistica_constante (1152 # 10000))
              (estadistica_constante (768 # 1000)))
           (mkEstadistica 192 192 0 192 192 192 192));
    reflexivity.
Defined.

End DetalleDeCostos.

(** ** The trials of the module-level simulation *)

Section PruebaDeOperacion.

Import Costos Simulacion Practico SimulacionOperacion Cotas Ejemplos.

Variable rng : fuente.

Lemma inject_nat_S (n : nat) :
  inject_Z (Z.of_nat (S n)) == 1 + inject_Z (Z.of_nat n).
Proof.
  rewrite Nat2Z.inj_succ. unfold Z.succ. rewrite inject_Z_plus.
  change (inject_Z 1) with 1. ring.
Qed.

Lemma meses_operacion_cotas (parametros : datos_operativos_t)
  (n : nat) (dt ct : Q) (k : nat) :
  0 <= pacientes_dia (capacidad parametros) ->
  0 <= eficiencia (capacidad parametros) ->
  exists dt' ct',
    meses_operacion rng parametros n dt ct k
    = Ok (dt', ct', (k + n * dias parametros)%nat)
    /\ dt <= dt'
    /\ dt' <= dt + inject_Z (Z.of_nat n) * capacidad_mensual parametros
    /\ ct' - ct
       == inject_Z (Z.of_nat n) * fijo_mensual (costos parametros)
          + (dt' - dt) * variable_paciente (costos parametros).
Proof.
  intros Hc He. revert dt ct k.
  induction n as [|n IH]; intros dt ct k.
  - exists dt, ct. simpl. rewrite Nat.add_0_r.
    change (inject_Z 0) with 0. repeat split; lra.
  - simpl meses_operacion.
    destruct (simular_dias_cotas rng _ _ (dias parametros) 0 k Hc He)
      as [d [E [D1 D2]]].
    fold (dias parametros). rewrite E.
    destruct (IH (dt + d)
                 (ct + (fijo_mensual (costos parametros)
                        + d * variable_paciente (costos parametros)))
                 (k + dias parametros)%nat)
      as [dt' [ct' [E2 [A1 [A2 A3]]]]].
    exists dt', ct'. rewrite E2.
    replace (k + dias parametros + n * dias parametros)%nat
      with (k + S n * dias parametros)%nat by lia.
    split; [reflexivity|].
    rewrite inject_nat_S.
    fold (capacidad_mensual parametros) in D2.
    unfold capacidad_mensual in *.
    split; [lra|]. split; [lra|].
    assert (Et : ct' - ct
                 == ct' - (ct + (fijo_mensual (costos parametros)
                                 + d * variable_paciente (costos parametros)))
                    + (fijo_mensual (costos parametros)
                       + d * variable_paciente (costos parametros)))
      by ring.
    rewrite Et, A3. ring.
Qed.

(** X18.  One trial of the module-level [simular_operacion] on valid
    operating data over at least one month never raises; its mean cost is the
    fixed cost plus the variable cost of its mean demand, its mean demand
    lies within the real monthly capacity, its coverage is a fraction, and
    its sustainability is the ratio of the mean revenue to the mean cost. *)
Theorem prueba_operacion_valida (parametros : datos_operativos_t)
  (horizonte : Z) (k : nat) :
  datos_validos parametros ->
  (0 < horizonte)%Z ->
  exists r,
    prueba_operacion rng parametros horizonte k
    = Ok (r, (k + Z.to_nat horizonte * dias parametros)%nat)
    /\ entre 0 (capacidad_mensual parametros) (po_demanda r)
    /\ po_costos r
       == fijo_mensual (costos parametros)
          + po_demanda r * variable_paciente (costos parametros)
    /\ entre 0 1 (po_cobertura r)
    /\ 0 <= po_sostenibilidad r
    /\ po_sostenibilidad r * po_costos r
       == po_demanda r * costo_unitario_atencion (costos parametros).
Proof.
  intros [Hc [He [Hf [Hv [Hu Hp]]]]] Hh.
  unfold prueba_operacion.
  destruct (meses_operacion_cotas parametros (Z.to_nat horizonte) 0 0 k Hc He)
    as [dt [ct [E [A1 [A2 A3]]]]].
  rewrite E.
  assert (Eh : inject_Z (Z.of_nat (Z.to_nat horizonte)) == inject_Z horizonte)
    by (rewrite Z2Nat.id by lia; reflexivity).
  rewrite Eh in A2, A3.
  set (h := inject_Z horizonte) in *.
  assert (Hhq : 0 < h) by (unfold h, Qlt, inject_Z; simpl; lia).
  pose proof (poblacion_atendible_positiva parametros Hp) as Hpa.
  repeat (rewrite pydiv_ok by lra; cbn [bind]).
  assert (Hcm : 0 <= capacidad_mensual parametros).
  { unfold capacidad_mensual.
    assert (0 <= inject_Z (Z.of_nat (dias parametros)))
      by (unfold Qle, inject_Z; simpl; lia).
    assert (0 <= pacientes_dia (capacidad parametros)
                 * eficiencia (capacidad parametros)) by nra.
    nra. }
  assert (Hd : entre 0 (capacidad_mensual parametros) (dt / h)).
  { split.
    - apply Qle_shift_div_l; lra.
    - apply Qle_shift_div_r; [exact Hhq|]. lra. }
  assert (Ec : ct / h
               == fijo_mensual (costos parametros)
                  + dt / h * variable_paciente (costos parametros)).
  { assert (Ect : ct == h * fijo_mensual (costos parametros)
                        + dt * variable_paciente (costos parametros))
      by lra.
    rewrite Ect. field. lra. }
  assert (Hcp : 0 < ct / h).
  { rewrite Ec. destruct Hd as [Hd1 _]. nra. }
  assert (Hb : Qltb 0 (ct / h) = true) by now apply Qltb_lt.
  rewrite Hb. eexists. split; [reflexivity|].
  cbn [po_demanda po_costos po_cobertura po_sostenibilidad].
  split; [exact Hd|]. split; [exact Ec|]. split.
  - split.
    + apply pymin_glb; [lra|]. apply Qle_shift_div_l; [exact Hpa|].
      destruct Hd as [Hd1 _]. lra.
    + apply pymin_le_l.
  - split.
    + apply Qle_shift_div_l; [exact Hcp|].
      destruct Hd as [Hd1 _]. nra.
    + set (c := ct / h) in *. clearbody c. field. lra.
Qed.

End PruebaDeOperacion.

Section PruebaDeOperacionEjemplo.

Import Costos Simulacion Practico SimulacionOperacion Cotas Ejemplos.

Lemma prueba_operacion_valida_witness :
  exists r,
    prueba_operacion fuente_nula datos_predeterminados 12 0
    = Ok (r, (0 + Z.to_nat 12 * dias datos_predeterminados)%nat)
    /\ entre 0 (capacidad_mensual datos_predeterminados) (po_demanda r)
    /\ po_costos r
       == fijo_mensual (costos datos_predeterminados)
          + po_demanda r * variable_paciente (costos datos_predeterminados)
    /\ entre 0 1 (po_cobertura r)
    /\ 0 <= po_sostenibilidad r
    /\ po_sostenibilidad r * po_costos r
       == po_demanda r
          * costo_unitario_atencion (costos datos_predeterminados).
Proof.
  apply (prueba_operacion_valida fuente_nula datos_predeterminados 12 0).
  - unfold datos_validos, Qle, Qlt. simpl. lia.
  - reflexivity.
Defined.

End PruebaDeOperacionEjemplo.

Section HorizonteNulo.

Import Simulacion Practico SimulacionOperacion.

(** X19.  A horizon of zero months: whatever the operating data and the
    random source, a trial of the module-level [simular_operacion] raises
    [ZeroDivisionError] (it divides the totals by the horizon), whereas a
    trial of the method [_simular_operacion] returns, with [nan] for each of
    its four means; neither consumes a random draw. *)
Theorem horizonte_nulo (rng : fuente) (parametros : datos_operativos_t)
  (k : nat) :
  prueba_operacion rng parametros 0 k = Lanza ZeroDivisionError
  /\ _simular_operacion rng parametros 0 k = Ok (mkPrueba NaN NaN NaN NaN, k).
Proof.
  split; reflexivity.
Qed.

End HorizonteNulo.

(** ** The sensitivity sweep *)

Section BarridoDeSensibilidad.

Import Simulacion Practico PracticoCostos Sensibilidad Ejemplos EjemplosExtra.

Lemma asignar_asignar (p : parametro) (a b : Q) (d : datos_operativos_t) :
  asignar p a (asignar p b d) = asignar p a d.
Proof.
  destruct p; reflexivity.
Qed.

Lemma asignar_leer (p : parametro) (d : datos_operativos_t) :
  asignar p (leer p d) d = d.
Proof.
  destruct d as [[? ? ?] [? ? ? ? ?] [? ? ? ?]]. destruct p; reflexivity.
Qed.

Lemma leer_asignar (p : parametro) (v : Q) (d : datos_operativos_t) :
  leer p (asignar p v d) = v.
Proof.
  destruct p; reflexivity.
Qed.

Lemma np_linspace_length (start stop : Q) (num : Z) (vs : list Q) :
  np_linspace start stop num = Ok vs ->
  List.length vs = Z.to_nat num
  /\ ((2 <= num)%Z -> last vs 0 = stop).
Proof.
  unfold np_linspace.
  destruct (num <? 0)%Z eqn:En; [discriminate|].
  apply Z.ltb_ge in En.
  destruct (Z.to_nat num) as [|[|n]] eqn:Et; intro H; injection H as <-.
  - split; [reflexivity|lia].
  - split; [reflexivity|lia].
  - split.
    + simpl List.length.
      rewrite length_app, length_map, length_seq. simpl. lia.
    + intros _. rewrite ?app_comm_cons. apply last_last.
Qed.

Variable rng : fuente.
Variable p : parametro.

(** What a simulation leaves in the object. *)
Lemma simular_objeto_deja (modelo : modelo_t) (k : nat) :
  practico (snd (simular_objeto rng modelo k)) = practico modelo
  /\ (forall k', fst (simular_objeto rng modelo k) = Ok k' ->
        simular rng modelo k
        = Ok (resultados (snd (simular_objeto rng modelo k)), k'))
  /\ (forall e, fst (simular_objeto rng modelo k) = Lanza e ->
        simular rng modelo k = Lanza e).
Proof.
  unfold simular_objeto.
  destruct (simular rng modelo k) as [[res k1]|e1]; cbn [fst snd practico].
  - split; [reflexivity|]. split; [|discriminate].
    intros k' H. now inversion H.
  - split; [reflexivity|]. split; [discriminate|].
    intros e H. now inversion H.
Qed.

(** What the loop leaves behind. *)
Lemma barrido_deja (vs : list Q) (modelo : modelo_t) (acc : medias_t)
  (k : nat) :
  let o := barrido rng modelo p vs acc k in
  parametros_simulacion (snd o) = parametros_simulacion modelo
  /\ (exists v, datos_operativos (snd o)
                = asignar p v (datos_operativos modelo))
  /\ (forall e, fst o = Lanza e ->
        exists v k0,
          In v vs
          /\ datos_operativos (snd o) = asignar p v (datos_operativos modelo)
          /\ simular rng (snd o) k0 = Lanza e)
  /\ (forall m k', fst o = Ok (m, k') ->
        List.length (b_demanda m)
        = (List.length (b_demanda acc) + List.length vs)%nat
        /\ List.length (b_costos m)
           = (List.length (b_costos acc) + List.length vs)%nat
        /\ List.length (b_cobertura m)
           = (List.length (b_cobertura acc) + List.length vs)%nat
        /\ List.length (b_sostenibilidad m)
           = (List.length (b_sostenibilidad acc) + List.length vs)%nat).
Proof.
  revert modelo acc k.
  induction vs as [|valor vs IH]; intros modelo acc k; cbn zeta.
  - cbn [barrido fst snd]. split; [reflexivity|].
    split; [exists (leer p (datos_operativos modelo));
            now rewrite asignar_leer|].
    split; [discriminate|].
    intros m k' H. inversion H; subst. simpl. repeat split; lia.
  - cbn [barrido].
    set (modelo1 := con_datos modelo
                      (asignar p valor (datos_operativos modelo))).
    destruct (simular_objeto_deja modelo1 k) as [Hp [Hok Hlanza]].
    destruct (simular_objeto rng modelo1 k) as [[k1|e1] modelo2] eqn:Es;
      cbn [fst snd] in Hp, Hok, Hlanza.
    + cbn zeta.
      specialize (IH modelo2
                     (mkMediasBarrido
                        (b_demanda acc
                         ++ [media_np (r_demanda (resultados modelo2))])
                        (b_costos acc
                         ++ [media_np (r_costos (resultados modelo2))])
                        (b_cobertura acc
                         ++ [media_np (r_cobertura (resultados modelo2))])
                        (b_sostenibilidad acc
                         ++ [media_np
                               (r_sostenibilidad (resultados modelo2))]))
                     k1).
      cbn zeta in IH. destruct IH as [I1 [[v I2] [I3 I4]]].
      rewrite Hp in I1, I2, I3.
      split; [rewrite I1; reflexivity|].
      split.
      { exists v. rewrite I2. unfold modelo1.
        cbn [datos_operativos con_datos practico].
        apply asignar_asignar. }
      split.
      { intros e He. destruct (I3 e He) as [v' [k0 [Hin [Hd Hs]]]].
        exists v', k0. split; [now right|]. split; [|exact Hs].
        rewrite Hd. unfold modelo1.
        cbn [datos_operativos con_datos practico].
        apply asignar_asignar. }
      intros m k' Hm. destruct (I4 m k' Hm) as [L1 [L2 [L3 L4]]].
      cbn [b_demanda b_costos b_cobertura b_sostenibilidad] in L1, L2, L3, L4.
      rewrite length_app in L1, L2, L3, L4. simpl in *.
      repeat split; lia.
    + cbn [fst snd]. rewrite Hp. split; [reflexivity|].
      split; [exists valor; reflexivity|].
      split; [|discriminate].
      intros e He. inversion He; subst e1.
      exists valor, k. split; [now left|]. split; [reflexivity|].
      now apply Hlanza.
Qed.

(** The results the loop leaves in the object: those it found when there
    was no value to try, otherwise those of the simulation at the last
    value, whose means close the four lists. *)
Lemma barrido_resultados (vs : list Q) (modelo : modelo_t) (acc : medias_t)
  (k : nat) (m : medias_t) (k' : nat) :
  fst (barrido rng modelo p vs acc k) = Ok (m, k') ->
  (vs = [] ->
   resultados (snd (barrido rng modelo p vs acc k)) = resultados modelo)
  /\ (vs <> [] ->
      (exists k0,
         simular rng
           (con_datos modelo
              (asignar p (last vs 0) (datos_operativos modelo))) k0
         = Ok (resultados (snd (barrido rng modelo p vs acc k)), k'))
      /\ last (b_demanda m) NaN
         = media_np
             (r_demanda (resultados (snd (barrido rng modelo p vs acc k))))
      /\ last (b_costos m) NaN
         = media_np
             (r_costos (resultados (snd (barrido rng modelo p vs acc k))))
      /\ last (b_cobertura m) NaN
         = media_np
             (r_cobertura (resultados (snd (barrido rng modelo p vs acc k))))
      /\ last (b_sostenibilidad m) NaN
         = media_np
             (r_sostenibilidad
                (resultados (snd (barrido rng modelo p vs acc k))))).
Proof.
  revert modelo acc k.
  induction vs as [|valor vs IH]; intros modelo acc k.
  - intros _. split; [reflexivity|congruence].
  - cbn [barrido].
    set (modelo1 := con_datos modelo
                      (asignar p valor (datos_operativos modelo))).
    destruct (simular_objeto_deja modelo1 k) as [Hp [Hok _]].
    destruct (simular_objeto rng modelo1 k) as [[k1|e1] modelo2] eqn:Es;
      cbn [fst snd] in Hp, Hok; [|discriminate].
    cbn zeta. intro H. split; [discriminate|]. intros _.
    destruct vs as [|v2 vs].
    + cbn [barrido fst snd] in *. inversion H; subst m k'.
      cbn [b_demanda b_costos b_cobertura b_sostenibilidad last].
      split; [exists k; now apply Hok|].
      rewrite !last_last. repeat split; reflexivity.
    + destruct (IH _ _ _ H) as [_ I]. destruct I as [[k0 I1] I2];
        [discriminate|].
      split; [|exact I2].
      exists k0. rewrite <- I1.
      change (last (valor :: v2 :: vs) 0) with (last (v2 :: vs) 0).
      f_equal. unfold con_datos. cbn [practico]. rewrite Hp.
      unfold modelo1.
      cbn [datos_operativos parametros_simulacion con_datos practico].
      now rewrite asignar_asignar.
Qed.

End BarridoDeSensibilidad.

Section BarridoDeSensibilidadResultados.

Import Simulacion Practico PracticoCostos Sensibilidad Ejemplos EjemplosExtra.

(** X20.  A sweep that returns has written the swept parameter back: the
    data and the parameters of the model are those it found.  The results
    stored in the model are not put back: they are those of the last
    simulation, the one at the last value (they are the ones found only when
    there was no value to try).  The results returned hold [num_pasos]
    values -- the last of them the end of the range when there are at least
    two -- and one mean per value for each of the four variables, the last
    mean being the one of the results left in the model. *)
Theorem barrido_restaura (rng : fuente) (modelo : modelo_t)
  (p : parametro) (rango : Q * Q) (num_pasos : Z) (k : nat) :
  termina (fst (analisis_sensibilidad rng modelo p rango num_pasos k)) = true ->
  practico (snd (analisis_sensibilidad rng modelo p rango num_pasos k))
  = practico modelo
  /\ ((num_pasos <= 0)%Z ->
      resultados (snd (analisis_sensibilidad rng modelo p rango num_pasos k))
      = resultados modelo)
  /\ forall r k',
       fst (analisis_sensibilidad rng modelo p rango num_pasos k)
       = Ok (r, k') ->
       List.length (valores r) = Z.to_nat num_pasos
       /\ ((2 <= num_pasos)%Z -> last (valores r) 0 = snd rango)
       /\ List.length (b_demanda (medias r)) = Z.to_nat num_pasos
       /\ List.length (b_costos (medias r)) = Z.to_nat num_pasos
       /\ List.length (b_cobertura (medias r)) = Z.to_nat num_pasos
       /\ List.length (b_sostenibilidad (medias r)) = Z.to_nat num_pasos
       /\ ((0 < num_pasos)%Z ->
           let res :=
             resultados
               (snd (analisis_sensibilidad rng modelo p rango num_pasos k)) in
           (exists k0,
              simular rng
                (con_datos modelo
                   (asignar p (last (valores r) 0) (datos_operativos modelo)))
                k0
              = Ok (res, k'))
           /\ last (b_demanda (medias r)) NaN = media_np (r_demanda res)
           /\ last (b_costos (medias r)) NaN = media_np (r_costos res)
           /\ last (b_cobertura (medias r)) NaN = media_np (r_cobertura res)
           /\ last (b_sostenibilidad (medias r)) NaN
              = media_np (r_sostenibilidad res)).
Proof.
  unfold analisis_sensibilidad.
  destruct (np_linspace (fst rango) (snd rango) num_pasos) as [vs|] eqn:El;
    [|discriminate].
  destruct (np_linspace_length _ _ _ _ El) as [Hl Hlast].
  pose proof (barrido_deja rng p vs modelo (mkMediasBarrido [] [] [] []) k)
    as Hb.
  pose proof (barrido_resultados rng p vs modelo
                (mkMediasBarrido [] [] [] []) k) as Hr.
  cbn zeta in Hb.
  destruct (barrido rng modelo p vs (mkMediasBarrido [] [] [] []) k)
    as [[[m k1]|e] modelo'] eqn:Eb; [|discriminate].
  cbn [fst snd] in *. destruct Hb as [Hp [[v Hd] [_ Hlen]]].
  destruct (Hr m k1 eq_refl) as [Hvacio Hultimo].
  intros _. cbn [con_datos practico resultados]. split; [|split].
  - rewrite Hp, Hd, asignar_asignar, asignar_leer.
    now destruct modelo as [[d ps] res].
  - intro Hn. apply Hvacio.
    destruct vs; [reflexivity|]. simpl in Hl. lia.
  - intros r k' H. inversion H; subst; clear H.
    destruct (Hlen m k' eq_refl) as [L1 [L2 [L3 L4]]].
    cbn [valores medias]. simpl in L1, L2, L3, L4.
    split; [exact Hl|]. split; [exact Hlast|].
    split; [congruence|]. split; [congruence|].
    split; [congruence|]. split; [congruence|].
    intro Hn. cbn zeta. apply Hultimo.
    intro Hv. subst vs. simpl in Hl. lia.
Qed.

Lemma barrido_restaura_witness :
  practico (snd (analisis_sensibilidad fuente_nula objeto_breve
                   capacidad_eficiencia (2 # 10, 6 # 10) 3 0))
  = practico objeto_breve
  /\ ((3 <= 0)%Z ->
      resultados (snd (analisis_sensibilidad fuente_nula objeto_breve
                         capacidad_eficiencia (2 # 10, 6 # 10) 3 0))
      = resultados objeto_breve)
  /\ forall r k',
       fst (analisis_sensibilidad fuente_nula objeto_breve
              capacidad_eficiencia (2 # 10, 6 # 10) 3 0)
       = Ok (r, k') ->
       List.length (valores r) = Z.to_nat 3
       /\ ((2 <= 3)%Z -> last (valores r) 0 = snd (2 # 10, 6 # 10))
       /\ List.length (b_demanda (medias r)) = Z.to_nat 3
       /\ List.length (b_costos (medias r)) = Z.to_nat 3
       /\ List.length (b_cobertura (medias r)) = Z.to_nat 3
       /\ List.length (b_sostenibilidad (medias r)) = Z.to_nat 3
       /\ ((0 < 3)%Z ->
           let res :=
             resultados
               (snd (analisis_sensibilidad fuente_nula objeto_breve
                       capacidad_eficiencia (2 # 10, 6 # 10) 3 0)) in
           (exists k0,
              simular fuente_nula
                (con_datos objeto_breve
                   (asignar capacidad_eficiencia (last (valores r) 0)
                            (datos_operativos objeto_breve)))
                k0
              = Ok (res, k'))
           /\ last (b_demanda (medias r)) NaN = media_np (r_demanda res)
           /\ last (b_costos (medias r)) NaN = media_np (r_costos res)
           /\ last (b_cobertura (medias r)) NaN = media_np (r_cobertura res)
           /\ last (b_sostenibilidad (medias r)) NaN
              = media_np (r_sostenibilidad res)).
Proof.
  apply (barrido_restaura fuente_nula objeto_breve capacidad_eficiencia
           (2 # 10, 6 # 10) 3 0).
  vm_compute. reflexivity.
Defined.

(** X21.  A sweep that raises does not write the parameter back.  Either
    [np.linspace] rejected a negative number of steps, and the model is
    untouched; or a simulation raised at one of the values, and the model is
    left holding that value in place of the original one. *)
Theorem barrido_interrumpido (rng : fuente) (modelo : modelo_t)
  (p : parametro) (rango : Q * Q) (num_pasos : Z) (k : nat)
  (e : excepcion) :
  fst (analisis_sensibilidad rng modelo p rango num_pasos k) = Lanza e ->
  ((num_pasos < 0)%Z /\ e = ValueError
   /\ snd (analisis_sensibilidad rng modelo p rango num_pasos k) = modelo)
  \/ (exists vs v k0,
        np_linspace (fst rango) (snd rango) num_pasos = Ok vs
        /\ In v vs
        /\ datos_operativos
             (snd (analisis_sensibilidad rng modelo p rango num_pasos k))
           = asignar p v (datos_operativos modelo)
        /\ leer p (datos_operativos
                     (snd (analisis_sensibilidad rng modelo p rango
                             num_pasos k)))
           = v
        /\ simular rng
             (snd (analisis_sensibilidad rng modelo p rango num_pasos k)) k0
           = Lanza e).
Proof.
  unfold analisis_sensibilidad.
  destruct (np_linspace (fst rango) (snd rango) num_pasos) as [vs|e0] eqn:El.
  - pose proof (barrido_deja rng p vs modelo (mkMediasBarrido [] [] [] []) k)
      as Hb.
    cbn zeta in Hb.
    destruct (barrido rng modelo p vs (mkMediasBarrido [] [] [] []) k)
      as [[[m k1]|e1] modelo'] eqn:Eb; [discriminate|].
    cbn [fst snd] in *. intro H. inversion H; subst e1.
    destruct Hb as [_ [_ [Hf _]]].
    destruct (Hf e eq_refl) as [v [k0 [Hin [Hd Hs]]]].
    right. exists vs, v, k0. split; [reflexivity|]. split; [exact Hin|].
    split; [exact Hd|]. split; [|exact Hs].
    rewrite Hd. apply leer_asignar.
  - cbn [fst snd]. intro H. inversion H; subst e0. left.
    unfold np_linspace in El.
    destruct (num_pasos <? 0)%Z eqn:En.
    + apply Z.ltb_lt in En. inversion El. auto.
    + destruct (Z.to_nat num_pasos) as [|[|n]]; discriminate.
Qed.

Lemma barrido_interrumpido_witness :
  ((3 < 0)%Z /\ ValueError = ValueError
   /\ snd (analisis_sensibilidad fuente_nula objeto_breve
             capacidad_pacientes_dia (- (5), 5) 3 0) = objeto_breve)
  \/ (exists vs v k0,
        np_linspace (fst (- (5), 5)) (snd (- (5), 5)) 3 = Ok vs
        /\ In v vs
        /\ datos_operativos
             (snd (analisis_sensibilidad fuente_nula objeto_breve
                     capacidad_pacientes_dia (- (5), 5) 3 0))
           = asignar capacidad_pacientes_dia v
                     (datos_operativos objeto_breve)
        /\ leer capacidad_pacientes_dia
             (datos_operativos
                (snd (analisis_sensibilidad fuente_nula objeto_breve
                        capacidad_pacientes_dia (- (5), 5) 3 0)))
           = v
        /\ simular fuente_nula
             (snd (analisis_sensibilidad fuente_nula objeto_breve
                     capacidad_pacientes_dia (- (5), 5) 3 0)) k0
           = Lanza ValueError).
Proof.
  apply (barrido_interrumpido fuente_nula objeto_breve
           capacidad_pacientes_dia (- (5), 5) 3 0 ValueError).
  vm_compute. reflexivity.
Defined.

End BarridoDeSensibilidadResultados.

(** ** The indicators *)

Section IndicadoresDeCobertura.

Import Optimizacion Indicadores Cotas.

Lemma indice_no_negativo (l : list Q) (i : nat) :
  Forall (fun v => 0 <= v) l ->
  (i < List.length l)%nat ->
  exists v, indice l i = Ok v /\ 0 <= v.
Proof.
  intros H Hi. unfold indice.
  destruct (nth_error l i) as [v|] eqn:E.
  - exists v. split; [reflexivity|].
    apply nth_error_In in E. rewrite Forall_forall in H. now apply H.
  - apply nth_error_None in E. lia.
Qed.

Lemma pymin_uno_en_unidad (q : Q) : 0 <= q -> entre 0 1 (pymin 1 q).
Proof.
  intro H. split.
  - apply pymin_glb; lra.
  - apply pymin_le_l.
Qed.

Lemma cobertura_efectiva_desde_valida (capacidad_ums distancia_centros : list Q)
  (pendientes : list Q) (i : nat) :
  Forall (fun v => 0 <= v) capacidad_ums ->
  Forall (fun v => 0 <= v) distancia_centros ->
  (i + List.length pendientes <= List.length capacidad_ums)%nat ->
  (i + List.length pendientes <= List.length distancia_centros)%nat ->
  exists l,
    cobertura_efectiva_desde pendientes i capacidad_ums distancia_centros
    = Ok l
    /\ Forall (entre 0 1) l
    /\ Forall2 (fun p v => p <= 0 -> v == 0) pendientes l.
Proof.
  intros Hc Hd. revert i.
  induction pendientes as [|p pendientes IH]; intros i Lc Ld.
  - exists []. repeat split; constructor.
  - simpl List.length in Lc, Ld. cbn [cobertura_efectiva_desde].
    destruct (indice_no_negativo _ i Hc) as [c [Ec Hc0]]; [lia|].
    destruct (indice_no_negativo _ i Hd) as [d [Ed Hd0]]; [lia|].
    destruct (IH (S i)) as [l [El [Hl Hz]]]; [lia|lia|].
    assert (Hf : entre 0 1 (1 / (1 + d))).
    { split.
      - apply Qle_shift_div_l; lra.
      - apply Qle_shift_div_r; lra. }
    destruct (Qltb 0 p) eqn:Ep.
    + apply Qltb_lt in Ep.
      assert (Hp6 : 0 < p / 6) by (apply Qlt_shift_div_l; lra).
      rewrite Ec. cbn [bind]. rewrite pydiv_ok by lra. cbn [bind].
      rewrite Ed. cbn [bind]. rewrite pydiv_ok by lra. cbn [bind].
      rewrite El. cbn [bind].
      eexists. split; [reflexivity|].
      assert (Hr : entre 0 1 (pymin 1 (c / (p / 6)))).
      { apply pymin_uno_en_unidad. apply Qle_shift_div_l; lra. }
      split.
      * constructor; [|exact Hl].
        apply pymin_uno_en_unidad.
        destruct Hr as [R1 R2]. destruct Hf as [F1 F2]. nra.
      * constructor; [|exact Hz]. intro Hle. lra.
    + apply Qltb_ge in Ep. cbn [bind].
      rewrite Ed. cbn [bind]. rewrite pydiv_ok by lra. cbn [bind].
      rewrite El. cbn [bind].
      eexists. split; [reflexivity|].
      assert (E0 : 0 * (1 / (1 + d)) == 0) by ring.
      split.
      * constructor; [|exact Hl].
        apply pymin_uno_en_unidad. lra.
      * constructor; [|exact Hz]. intros _.
        unfold pymin.
        destruct (Qltb (0 * (1 / (1 + d))) 1) eqn:Eb; [exact E0|].
        apply Qltb_ge in Eb. lra.
Qed.

(** X22.  For one capacity and one distance per region, none of them
    negative, [calcular_cobertura_efectiva] returns one coverage per region,
    each of them a fraction in [0, 1], and 0 for every region without
    population. *)
Theorem cobertura_efectiva_valida
  (poblacion_regional capacidad_ums distancia_centros : list Q) :
  List.length capacidad_ums = List.length poblacion_regional ->
  List.length distancia_centros = List.length poblacion_regional ->
  Forall (fun v => 0 <= v) capacidad_ums ->
  Forall (fun v => 0 <= v) distancia_centros ->
  exists l,
    calcular_cobertura_efectiva poblacion_regional capacidad_ums
                                distancia_centros = Ok l
    /\ List.length l = List.length poblacion_regional
    /\ Forall (entre 0 1) l
    /\ Forall2 (fun p v => p <= 0 -> v == 0) poblacion_regional l.
Proof.
  intros Lc Ld Hc Hd.
  destruct (cobertura_efectiva_desde_valida capacidad_ums distancia_centros
              poblacion_regional 0 Hc Hd) as [l [El [Hl Hz]]]; [lia|lia|].
  exists l. split; [exact El|]. split; [|split; assumption].
  symmetry. exact (Forall2_length Hz).
Qed.

Lemma cobertura_efectiva_valida_witness :
  exists l,
    calcular_cobertura_efectiva [10000; 0; 600] [500; 100; 200] [1; 2; 0]
    = Ok l
    /\ List.length l = List.length [10000; 0; 600]
    /\ Forall (entre 0 1) l
    /\ Forall2 (fun p v => p <= 0 -> v == 0) [10000; 0; 600] l.
Proof.
  apply (cobertura_efectiva_valida [10000; 0; 600] [500; 100; 200] [1; 2; 0]).
  - reflexivity.
  - reflexivity.
  - repeat constructor; unfold Qle; simpl; lia.
  - repeat constructor; unfold Qle; simpl; lia.
Defined.

Lemma pymin_mono_r (a b b' : Q) : b <= b' -> pymin a b <= pymin a b'.
Proof.
  intro H. apply pymin_glb.
  - apply pymin_le_l.
  - apply Qle_trans with b; [apply pymin_le_r|exact H].
Qed.

(** X23.  The projected health indicators move with the projected coverage:
    from a given initial coverage, a higher projected coverage never gives a
    higher infant mortality (for a base mortality that is not negative) nor a
    lower vaccination coverage or access; the vaccination coverage never
    exceeds 0.95 nor the access 0.9, and the mortality is never reduced by
    more than 30%. *)
Theorem impacto_salud_monotono (cobertura_inicial proyectada_1 proyectada_2 : Q)
  (base : indicadores_salud_base_t) :
  proyectada_1 <= proyectada_2 ->
  0 <= get (base_mortalidad_infantil base) 18 ->
  let r1 := evaluar_impacto_salud cobertura_inicial proyectada_1 base in
  let r2 := evaluar_impacto_salud cobertura_inicial proyectada_2 base in
  mortalidad_infantil r2 <= mortalidad_infantil r1
  /\ cobertura_vacunacion r1 <= cobertura_vacunacion r2
  /\ acceso_aps r1 <= acceso_aps r2
  /\ cobertura_vacunacion r2 <= 95 # 100
  /\ acceso_aps r2 <= 9 # 10
  /\ (7 # 10) * get (base_mortalidad_infantil base) 18
     <= mortalidad_infantil r2.
Proof.
  intros Hp Hm r1 r2. unfold r1, r2, evaluar_impacto_salud.
  cbn [mortalidad_infantil cobertura_vacunacion acceso_aps].
  set (m := get (base_mortalidad_infantil base) 18) in *.
  set (v := get (base_cobertura_vacunacion base) (68 # 100)).
  set (a := get (base_acceso_aps base) (42 # 100)).
  assert (Hi : (if Qltb 0 cobertura_inicial
                then (proyectada_1 - cobertura_inicial) / cobertura_inicial
                else proyectada_1)
               <= (if Qltb 0 cobertura_inicial
                   then (proyectada_2 - cobertura_inicial) / cobertura_inicial
                   else proyectada_2)).
  { destruct (Qltb 0 cobertura_inicial) eqn:E; [|exact Hp].
    apply Qltb_lt in E. unfold Qdiv.
    apply Qmult_le_compat_r; [lra|].
    apply Qinv_le_0_compat. lra. }
  revert Hi.
  generalize (if Qltb 0 cobertura_inicial
              then (proyectada_1 - cobertura_inicial) / cobertura_inicial
              else proyectada_1).
  generalize (if Qltb 0 cobertura_inicial
              then (proyectada_2 - cobertura_inicial) / cobertura_inicial
              else proyectada_2).
  intros i2 i1 Hi.
  pose proof (pymin_mono_r 1 i1 i2 Hi) as M1.
  pose proof (pymin_le_l 1 i2) as M2.
  assert (V : pymin (27 # 100) (i1 * (5 # 10))
              <= pymin (27 # 100) (i2 * (5 # 10)))
    by (apply pymin_mono_r; lra).
  assert (A : pymin (48 # 100) (i1 * (7 # 10))
              <= pymin (48 # 100) (i2 * (7 # 10)))
    by (apply pymin_mono_r; lra).
  split; [nra|].
  split; [apply pymin_mono_r; lra|].
  split; [apply pymin_mono_r; lra|].
  split; [apply pymin_le_l|].
  split; [apply pymin_le_l|].
  nra.
Qed.

Lemma impacto_salud_monotono_witness :
  mortalidad_infantil
    (evaluar_impacto_salud (4 # 10) (8 # 10) (mkSaludBase None None None))
  <= mortalidad_infantil
       (evaluar_impacto_salud (4 # 10) (5 # 10) (mkSaludBase None None None))
  /\ cobertura_vacunacion
       (evaluar_impacto_salud (4 # 10) (5 # 10) (mkSaludBase None None None))
     <= cobertura_vacunacion
          (evaluar_impacto_salud (4 # 10) (8 # 10)
                                 (mkSaludBase None None None))
  /\ acceso_aps
       (evaluar_impacto_salud (4 # 10) (5 # 10) (mkSaludBase None None None))
     <= acceso_aps
          (evaluar_impacto_salud (4 # 10) (8 # 10)
                                 (mkSaludBase None None None))
  /\ cobertura_vacunacion
       (evaluar_impacto_salud (4 # 10) (8 # 10) (mkSaludBase None None None))
     <= 95 # 100
  /\ acceso_aps
       (evaluar_impacto_salud (4 # 10) (8 # 10) (mkSaludBase None None None))
     <= 9 # 10
  /\ (7 # 10) * get None 18
     <= mortalidad_infantil
          (evaluar_impacto_salud (4 # 10) (8 # 10)
                                 (mkSaludBase None None None)).
Proof.
  apply (impacto_salud_monotono (4 # 10) (5 # 10) (8 # 10)
           (mkSaludBase None None None));
    unfold Qle; simpl; lia.
Defined.

(** X24.  The performance indicators of a configuration: the computation
    raises [ZeroDivisionError] exactly when the coverage target or the
    efficiency is zero; otherwise the financial sustainability it reports is
    the one the optimizer's objective and constraint use, the self-financing
    is at most 1, none of the four capped indicators exceeds its goal, and
    the two times are the goals divided by coverage and by efficiency. *)
Theorem indices_desempeno_casos (configuracion : decision) (m : metas) :
  (cobertura_objetivo configuracion == 0
   \/ eficiencia_operativa configuracion == 0 ->
   calcular_indices_desempeno configuracion m = Lanza ZeroDivisionError)
  /\ (~ cobertura_objetivo configuracion == 0 ->
      ~ eficiencia_operativa configuracion == 0 ->
      exists r,
        calcular_indices_desempeno configuracion m = Ok r
        /\ sostenibilidad_min (financiero r) = sostenibilidad configuracion
        /\ autofinanciacion (financiero r) <= 1
        /\ satisfaccion_min (cobertura r) <= satisfaccion_min (cobertura m)
        /\ resolucion_primer_nivel (operacion r)
           <= resolucion_primer_nivel (operacion m)
        /\ continuidad_atencion (calidad r)
           <= continuidad_atencion (calidad m)
        /\ referencia_efectiva (calidad r) <= referencia_efectiva (calidad m)
        /\ tiempo_acceso_max (cobertura r) * cobertura_objetivo configuracion
           == tiempo_acceso_max (cobertura m)
        /\ tiempo_espera_max (operacion r) * eficiencia_operativa configuracion
           == tiempo_espera_max (operacion m)).
Proof.
  unfold calcular_indices_desempeno. split.
  - intros [H|H].
    + now rewrite pydiv_cero.
    + unfold pydiv at 1.
      destruct (Qeq_bool (cobertura_objetivo configuracion) 0);
        [reflexivity|].
      cbn [bind]. now rewrite pydiv_cero.
  - intros Hc He. rewrite pydiv_ok by exact Hc. cbn [bind].
    rewrite pydiv_ok by exact He. cbn [bind].
    eexists. split; [reflexivity|].
    cbn [financiero cobertura operacion calidad sostenibilidad_min
         autofinanciacion satisfaccion_min resolucion_primer_nivel
         continuidad_atencion referencia_efectiva tiempo_acceso_max
         tiempo_espera_max].
    split; [reflexivity|].
    split; [apply pymin_le_l|].
    split; [apply pymin_le_l|].
    split; [apply pymin_le_l|].
    split; [apply pymin_le_l|].
    split; [apply pymin_le_l|].
    split; field; assumption.
Qed.

End IndicadoresDeCobertura.

Section IndiceDeEquidad.

Import Indicadores.

Lemma fold_left_Qplus (l : list Q) (a : Q) :
  fold_left Qplus l a == a + fold_left Qplus l 0.
Proof.
  revert a. induction l as [|x l IH]; intro a; simpl.
  - ring.
  - rewrite (IH (a + x)), (IH (0 + x)). ring.
Qed.

Lemma sum_cons (x : Q) (l : list Q) : sum (x :: l) == x + sum l.
Proof.
  unfold sum. simpl. rewrite fold_left_Qplus. ring.
Qed.

Lemma sum_perm (l l' : list Q) : Permutation l l' -> sum l == sum l'.
Proof.
  induction 1.
  - reflexivity.
  - rewrite !sum_cons, IHPermutation. reflexivity.
  - rewrite !sum_cons. ring.
  - now rewrite IHPermutation1.
Qed.

Lemma sum_positiva (l : list Q) :
  l <> [] -> Forall (fun p => 0 < p) l -> 0 < sum l.
Proof.
  intros Hne H. induction H as [|x l Hx Hl IH]; [congruence|].
  rewrite sum_cons. destruct l as [|y l].
  - unfold sum. simpl. lra.
  - assert (0 < sum (y :: l)) by (apply IH; congruence). lra.
Qed.

Lemma insertar_clave_perm {A : Type} (key : A -> Q) (x : A) (l : list A) :
  Permutation (insertar_clave key x l) (x :: l).
Proof.
  induction l as [|y l IH]; simpl.
  - apply Permutation_refl.
  - destruct (Qle_bool (key x) (key y)).
    + apply Permutation_refl.
    + apply perm_trans with (y :: x :: l).
      * now apply perm_skip.
      * apply perm_swap.
Qed.

Lemma sorted_por_perm {A : Type} (key : A -> Q) (l : list A) :
  Permutation (sorted_por key l) l.
Proof.
  induction l as [|x l IH]; simpl.
  - apply perm_nil.
  - apply perm_trans with (x :: sorted_por key l).
    + apply insertar_clave_perm.
    + now apply perm_skip.
Qed.

Lemma regiones_poblacion (poblacion cobertura : list Q) :
  List.length poblacion = List.length cobertura ->
  map fst (combine poblacion
             (map (fun pc => fst pc * snd pc) (combine poblacion cobertura)))
  = poblacion.
Proof.
  revert cobertura.
  induction poblacion as [|p poblacion IH]; intros [|c cobertura] L;
    simpl in *; try congruence.
  f_equal. apply IH. lia.
Qed.

Lemma regiones_equitativas (c : Q) (poblacion cobertura : list Q) :
  Forall (fun v => v == c) cobertura ->
  Forall (fun x => snd x == c * fst x)
    (combine poblacion
       (map (fun pc => fst pc * snd pc) (combine poblacion cobertura))).
Proof.
  intro H. revert poblacion.
  induction H as [|v cobertura Hv Hc IH]; intros [|p poblacion]; simpl;
    try constructor.
  - simpl. rewrite Hv. ring.
  - apply IH.
Qed.

Lemma area_de_lorenz_equitativa (c P A : Q) :
  0 < c -> 0 < P -> A == c * P ->
  forall (regiones : list (Q * Q)) (X acum area : Q),
    Forall (fun x => snd x == c * fst x) regiones ->
    acum == c * X ->
    exists r,
      area_de_lorenz regiones P A acum area = Ok r
      /\ r == area
              + ((X + sum (map fst regiones)) * (X + sum (map fst regiones))
                 - X * X) / (2 * P * P).
Proof.
  intros Hc HP HA.
  assert (HApos : Qltb 0 A = true) by (apply Qltb_lt; rewrite HA; nra).
  induction regiones as [|[p a] regiones IH]; intros X acum area Hr Hacum.
  - exists area. split; [reflexivity|].
    unfold sum. simpl. field. lra.
  - inversion Hr as [|? ? Ha Hr']; subst. simpl in Ha.
    cbn [area_de_lorenz]. rewrite pydiv_ok by lra. cbn [bind].
    rewrite HApos.
    destruct (IH (X + p) (acum + a)
                 (area + p / P * (acum / A + (acum + a) / A) / 2) Hr')
      as [r [Er Hreq]].
    { rewrite Hacum, Ha. ring. }
    exists r. split; [exact Er|].
    rewrite Hreq. cbn [map fst]. rewrite sum_cons.
    rewrite Hacum, Ha, HA.
    generalize (sum (map fst regiones)). intro S.
    field. split; lra.
Qed.

(** X25.  Perfect equity: when every region has a positive population and
    all regions have the same positive coverage, [calcular_indice_equidad]
    returns 1. *)
Theorem equidad_perfecta (c : Q) (poblacion cobertura : list Q) :
  List.length poblacion = List.length cobertura ->
  poblacion <> [] ->
  Forall (fun p => 0 < p) poblacion ->
  0 < c ->
  Forall (fun v => v == c) cobertura ->
  exists r, calcular_indice_equidad poblacion cobertura = Ok r /\ r == 1.
Proof.
  intros L Hne Hp Hc Hcob. unfold calcular_indice_equidad.
  rewrite L, Nat.eqb_refl. cbn [negb].
  set (regiones := combine poblacion
         (map (fun pc => fst pc * snd pc) (combine poblacion cobertura))).
  set (key := fun x : Q * Q => if Qltb 0 (fst x) then snd x / fst x else 0).
  pose proof (sorted_por_perm key regiones) as Hperm.
  assert (Hfst : sum (map fst (sorted_por key regiones)) == sum poblacion).
  { rewrite (sum_perm _ _ (Permutation_map fst Hperm)).
    unfold regiones. now rewrite regiones_poblacion. }
  assert (HP : 0 < sum (map fst (sorted_por key regiones))).
  { rewrite Hfst. now apply sum_positiva. }
  assert (Heq : Forall (fun x => snd x == c * fst x)
                  (sorted_por key regiones)).
  { apply (Permutation_Forall (Permutation_sym Hperm)).
    now apply regiones_equitativas. }
  assert (HA : sum (map snd (sorted_por key regiones))
               == c * sum (map fst (sorted_por key regiones))).
  { clear - Heq. induction Heq as [|x l Hx Hl IH].
    - unfold sum. simpl. ring.
    - cbn [map]. rewrite !sum_cons, IH, Hx. ring. }
  destruct (area_de_lorenz_equitativa c _ _ Hc HP HA
              (sorted_por key regiones) 0 0 0 Heq) as [r [Er Hr]];
    [ring|].
  rewrite Er. cbn [bind].
  eexists. split; [reflexivity|].
  rewrite Hr.
  revert HP. generalize (sum (map fst (sorted_por key regiones))).
  intros S HS. field. lra.
Qed.

Lemma equidad_perfecta_witness :
  exists r,
    calcular_indice_equidad [1000; 250; 4000] [6 # 10; 6 # 10; 6 # 10]
    = Ok r /\ r == 1.
Proof.
  apply (equidad_perfecta (6 # 10) [1000; 250; 4000]
           [6 # 10; 6 # 10; 6 # 10]).
  - reflexivity.
  - discriminate.
  - repeat constructor.
  - reflexivity.
  - repeat constructor.
Defined.

(** X26.  The failures of the equity index: lists of different lengths
    raise [ValueError]; lists of the same length whose populations add up to
    zero raise [ZeroDivisionError] at the first region (no guard protects the
    division by the total population). *)
Theorem indice_equidad_errores (poblacion cobertura : list Q) :
  (List.length poblacion <> List.length cobertura ->
   calcular_indice_equidad poblacion cobertura = Lanza ValueError)
  /\ (List.length poblacion = List.length cobertura ->
      poblacion <> [] ->
      sum poblacion == 0 ->
      calcular_indice_equidad poblacion cobertura
      = Lanza ZeroDivisionError).
Proof.
  unfold calcular_indice_equidad. split.
  - intro H. apply Nat.eqb_neq in H. now rewrite H.
  - intros L Hne H0. rewrite L, Nat.eqb_refl. cbn [negb].
    set (regiones := combine poblacion
           (map (fun pc => fst pc * snd pc) (combine poblacion cobertura))).
    set (key := fun x : Q * Q => if Qltb 0 (fst x) then snd x / fst x else 0).
    pose proof (sorted_por_perm key regiones) as Hperm.
    assert (Hfst : sum (map fst (sorted_por key regiones)) == 0).
    { rewrite (sum_perm _ _ (Permutation_map fst Hperm)).
      unfold regiones. now rewrite regiones_poblacion. }
    destruct (sorted_por key regiones) as [|[p a] resto] eqn:E.
    + apply Permutation_nil in Hperm.
      apply (f_equal (map fst)) in Hperm. unfold regiones in Hperm.
      rewrite regiones_poblacion in Hperm by exact L. simpl in Hperm.
      congruence.
    + cbn [area_de_lorenz]. rewrite pydiv_cero by exact Hfst. reflexivity.
Qed.

End IndiceDeEquidad.
